(** * STLink v2 utility: the probe protocol, the memory service,
      the flash drivers and the loader-based flash writer

    A shallow embedding of [stlink-download/stlinkv2-util.c].  The session
    object [struct stlink] is threaded explicitly through every operation;
    the USB probe is an abstract transport, and every bulk transfer made on
    it is recorded in a wire history, so that statements about "the sequence
    of writes sent to the target" are statements about that history.
    Loops carry a fuel argument and return [None] when it runs out; each
    loop is shown to return within the bound the code itself enforces.

    Integers are [Z].  A [uint32_t] is a [Z] reduced modulo [2^32] where the
    C code converts; bytes are [Z] in [0, 256).  The byte order of the host
    is a parameter: the source tests it at run time with [is_bigendian()]
    and, in several places, reads or writes multi-byte objects through a
    pointer cast, which makes the result depend on it. *)

From Stdlib Require Import String.
From Stdlib Require Import ZArith List Bool Lia.
Import ListNotations.
Local Open Scope Z_scope.

(** ** Fixed-width integers and byte buffers *)

Definition u8 (z : Z) : Z := z mod 2 ^ 8.
Definition u16 (z : Z) : Z := z mod 2 ^ 16.
Definition u32 (z : Z) : Z := z mod 2 ^ 32.

(** Conversion of a [uint32_t] to [int] (two's complement, as gcc does). *)
Definition int_of_u32 (z : Z) : Z := (z + 2 ^ 31) mod 2 ^ 32 - 2 ^ 31.

(** [x & ~3] *)
Definition clear_low2 (x : Z) : Z := Z.land x (Z.lnot 3).

(** Byte [i] (counted from the least significant one) of a value. *)
Definition byte_of (v i : Z) : Z := Z.land (Z.shiftr v (8 * i)) 255.

Definition byte_at (l : list Z) (i : Z) : Z := nth (Z.to_nat i) l 0.

(** [memcpy (buf + off, src, length src)].  The C arrays have fixed sizes;
    a store that runs past the end of [buf] is an overrun in C, and here it
    makes the list longer, so that the overrun stays visible. *)
Definition store_bytes (off : Z) (src buf : list Z) : list Z :=
  firstn (Z.to_nat off) buf ++ src ++ skipn (Z.to_nat off + length src) buf.

(** The [n] bytes at [buf + off]. *)
Definition load_bytes (off n : Z) (buf : list Z) : list Z :=
  firstn (Z.to_nat n) (skipn (Z.to_nat off) buf).

(** [memset (buf, c, n)] *)
Definition memset (buf : list Z) (c n : Z) : list Z :=
  store_bytes 0 (repeat (u8 c) (Z.to_nat n)) buf.

(** Little-endian value of a byte string, and its inverse. *)
Fixpoint le_combine (l : list Z) : Z :=
  match l with
  | [] => 0
  | b :: t => b + 256 * le_combine t
  end.

Fixpoint le_split (n : nat) (v : Z) : list Z :=
  match n with
  | O => []
  | S n' => Z.land v 255 :: le_split n' (Z.shiftr v 8)
  end.

(** ** Endian codec *)

Section Codec.

(** [is_bigendian ()]: the byte order of the host the utility runs on. *)
Variable is_bigendian : bool.

(** The object representation of an [n]-byte unsigned integer in host
    memory, [((unsigned char * ) &ui)[0 .. n)], and the value of an object
    read back through a pointer cast, [*(uintN_t * ) p]. *)
Definition obj_repr (n : nat) (ui : Z) : list Z :=
  if is_bigendian then rev (le_split n ui) else le_split n ui.

Definition obj_value (p : list Z) : Z :=
  if is_bigendian then le_combine (rev p) else le_combine p.

Definition write_uint32 (buf : list Z) (off : Z) (ui : Z) : list Z :=
  let p := obj_repr 4 ui in
  if negb is_bigendian then
    store_bytes off [byte_at p 0; byte_at p 1; byte_at p 2; byte_at p 3] buf
  else
    store_bytes off [byte_at p 3; byte_at p 2; byte_at p 1; byte_at p 0] buf.

Definition write_uint16 (buf : list Z) (off : Z) (ui : Z) : list Z :=
  let p := obj_repr 2 ui in
  if negb is_bigendian then
    store_bytes off [byte_at p 0; byte_at p 1] buf
  else
    store_bytes off [byte_at p 1; byte_at p 0] buf.

Definition read_uint32 (c : list Z) (pt : Z) : Z :=
  let p :=
    if negb is_bigendian then
      [byte_at c pt; byte_at c (pt + 1); byte_at c (pt + 2); byte_at c (pt + 3)]
    else
      [byte_at c (pt + 3); byte_at c (pt + 2); byte_at c (pt + 1); byte_at c pt] in
  obj_value p.

(** [*(uint16_t * ) buf] and [*(uint32_t * ) buf]: host-order reads. *)
Definition cast_uint16 (buf : list Z) : Z := obj_value (load_bytes 0 2 buf).
Definition cast_uint32 (buf : list Z) : Z := obj_value (load_bytes 0 4 buf).

End Codec.

(** ** Constants of the protocol and of the flash controllers *)

Definition FLASH_POLL_LIMIT : Z := 200.
Definition CDB_SIZE : Z := 10.
Definition Q_BUF_LEN : Z := 6 * 1024 + 4.

Definition USB_PIPE_IN : Z := 0x81.
Definition USB_PIPE_OUT : Z := 0x02.

Definition STLINK_CORE_RUNNING : Z := 0x80.
Definition STLINK_CORE_HALTED : Z := 0x81.

Definition STLinkDebugCommand : Z := 0xF2.
Definition STLinkDebugReadCoreID : Z := 0x22.
Definition STLinkDebugGetStatus : Z := 0x01.
Definition STLinkDebugWriteReg : Z := 0x06.
Definition STLinkDebugReadMem32bit : Z := 0x07.
Definition STLinkDebugWriteMem32bit : Z := 0x08.
Definition STLinkDebugRunCore : Z := 0x09.
Definition STLinkDebugWriteMem8bit : Z := 0x0D.

Definition DBGMCU_IDCODE : Z := 0xE0042000.

Definition FLASH_REGS_ADDR : Z := 0x40022000.
Definition FLASH_KEYR : Z := FLASH_REGS_ADDR + 0x04.
Definition FLASH_SR : Z := FLASH_REGS_ADDR + 0x0c.
Definition FLASH_CR : Z := FLASH_REGS_ADDR + 0x10.
Definition FLASH_AR : Z := FLASH_REGS_ADDR + 0x14.

Definition FLASH_KEY1 : Z := 0x45670123.
Definition FLASH_KEY2 : Z := 0xcdef89ab.

Definition L15_FLASH_BASE : Z := 0x40023C00.
Definition L15_FLASH_ACR : Z := L15_FLASH_BASE + 0x00.
Definition L15_FLASH_PECR : Z := L15_FLASH_BASE + 0x04.
Definition L15_FLASH_PEKEYR : Z := L15_FLASH_BASE + 0x0C.
Definition L15_FLASH_PRGKEYR : Z := L15_FLASH_BASE + 0x10.
Definition L15_FLASH_SR : Z := L15_FLASH_BASE + 0x18.
Definition L15_FLASH_OBR : Z := L15_FLASH_BASE + 0x1C.

Definition L15_FLASH_PEKEY1 : Z := 0x89abcdef.
Definition L15_FLASH_PEKEY2 : Z := 0x02030405.
Definition L15_FLASH_PRGKEY1 : Z := 0x8C9DAEBF.
Definition L15_FLASH_PRGKEY2 : Z := 0x13141516.

Definition FLASH_SR_BSY : Z := 0x0001.
Definition FLASH_SR_PGERR : Z := 0x0004.
Definition FLASH_SR_WRPRTERR : Z := 0x0010.
Definition FLASH_SR_EOP : Z := 0x0020.

Definition FLASH_CR_PER : Z := 0x0002.
Definition FLASH_CR_MER : Z := 0x0004.
Definition FLASH_CR_STRT : Z := 0x0040.
Definition FLASH_CR_LOCK : Z := 0x0080.

Definition F4_FLASH_REGS : Z := 0x40023C00.
Definition F4_FLASH_KEYR : Z := F4_FLASH_REGS + 0x04.
Definition F4_FLASH_SR : Z := F4_FLASH_REGS + 0x0c.
Definition F4_FLASH_SR_BSY : Z := 0x00010000.
Definition F4_FLASH_CR : Z := F4_FLASH_REGS + 0x10.
Definition F4_FLASH_CR_STRT : Z := 0x00010000.

Definition FLASH_WR_BLK_SIZE : Z := 2048.
Definition READ_BLK_SIZE : Z := 1024.

(** ** The personality table *)

Definition ChipCapF4Flash : Z := 1.
Definition ChipCapL15Flash : Z := 2.
Definition ChipCapL1Addrs : Z := 4.

Record stm_chip_params := mk_chip {
  name : string;
  cap_flags : Z;
  core_id : Z;
  dbgmcu_idcode : Z;
  flash_base : Z;
  flash_size : Z;
  flash_pgsize : Z;
  sysflash_base : Z;
  sysflash_size : Z;
  sysflash_pgsize : Z;
  sram_base : Z;
  sram_size : Z
}.

(** The entries of [stm_devids] before its all-zero terminator. *)
Definition stm_devids : list stm_chip_params := [
  mk_chip "STM32" 0 0x1ba01477 0x10000400
          0x08000000 (128 * 1024) 1024 0x1fffec00 (2 * 1024) 1024
          0x20000000 (8 * 1024);
  mk_chip "STM32F051-R8T6" 0 0x0bb11477 0x20006440
          0x08000000 (64 * 1024) 1024 0x1fffec00 (8 * 1024) 1024
          0x20000000 (8 * 1024);
  mk_chip "STM32F100" 0 0x1ba01477 0x10016420
          0x08000000 (128 * 1024) 1024 0x1ffff000 (2 * 1024) 1024
          0x20000000 (8 * 1024);
  mk_chip "STM32F103R4T6" 0 0x1ba01477 0x00005e7d
          0x08000000 (32 * 1024) 1024 0x1ffff000 (2 * 1024) 1024
          0x20000000 (4 * 1024);
  mk_chip "STM32F103C8T6" 0 0x1ba01477 0x20036410
          0x08000000 (64 * 1024) 1024 0x1ffff000 (2 * 1024) 1024
          0x20000000 (20 * 1024);
  mk_chip "STM32F105RB" 0 0x3ba00477 0x10016430
          0x08000000 (32 * 1024) 1024 0x1ffff000 (2 * 1024) 1024
          0x20000000 (4 * 1024);
  mk_chip "STM32F10x" 0 0x1ba01477 0x10016412
          0x08000000 (32 * 1024) 1024 0x1ffff000 (2 * 1024) 1024
          0x20000000 (4 * 1024);
  mk_chip "STM32F10x" 0 0x1ba01477 0x10016410
          0x08000000 (128 * 1024) 1024 0x1ffff000 (2 * 1024) 1024
          0x20000000 (8 * 1024);
  mk_chip "STM32F10x" 0 0x1ba01477 0x10016414
          0x08000000 (512 * 1024) 1024 0x1ffff000 (2 * 1024) 1024
          0x20000000 (8 * 1024);
  mk_chip "STM32F10x" 0 0x1ba01477 0x10016430
          0x08000000 (1024 * 1024) 2048 0x1fffe000 (6 * 1024) 1024
          0x20000000 (8 * 1024);
  mk_chip "STM32F107" 0 0x1ba01477 0x10016418
          0x08000000 (256 * 1024) 2048 0x1fffb000 (18 * 1024) 1024
          0x20000000 (8 * 1024);
  mk_chip "STM32L152" (Z.lor ChipCapL15Flash ChipCapL1Addrs)
          0x1ba01477 0x10186416
          0x08000000 (128 * 1024) 2048 0x1fffb000 (16 * 1024) 1024
          0x20000000 (8 * 1024);
  mk_chip "STM32F303VCT6" 0 0x3ba00477 0x10016422
          0x08000000 (256 * 1024) 2048 0x1fffb000 (18 * 1024) 1024
          0x20000000 (8 * 1024);
  mk_chip "STM32F407" ChipCapF4Flash 0x2ba01477 0x20006411
          0x08000000 (256 * 1024) 2048 0x1fffb000 (18 * 1024) 1024
          0x20000000 (8 * 1024);
  mk_chip "STM32F4xx" ChipCapF4Flash 0x2ba01477 0x10006420
          0x08000000 (256 * 1024) 2048 0x1fffb000 (18 * 1024) 1024
          0x20000000 (8 * 1024)
].

(** The terminator [{0, 0, 0,}] that closes the table. *)
Definition stm_devids_end : stm_chip_params :=
  mk_chip "" 0 0 0 0 0 0 0 0 0 0 0.

(** [stm_devids[i]] *)
Definition devid (i : Z) : stm_chip_params :=
  nth (Z.to_nat i) stm_devids stm_devids_end.

(** ** The loader programs *)

Definition db_loader_code : list Z := [
  0x480B; 0x490C; 0x4A0C; 0x4c09; 0x2501; 0x6125;
  0xf830; 0x3b02; 0xf821; 0x3b02;
  0x3501; 0x68e3; 0xf013; 0x0f01; 0xd1fa;
  0xf013; 0x0f14; 0xd102; 0x3a01; 0xd1f1;
  0x6122; 0xbe00;
  0x2000; 0x4002; 0x0040; 0x2000; 0x0bd0; 0x0800; 0x0006; 0x0000
].

Definition f4_loader_code : list Z := [
  0x480B; 0x490C; 0x4A0C; 0x4c09; 0x2501; 0x6125;
  0xf830; 0x3b02; 0xf821; 0x3b02;
  0x3501; 0x68e3; 0xf013; 0x0f01; 0xd1fa;
  0xf013; 0x0ff0; 0xd102; 0x3a01; 0xd1f1;
  0x6122; 0xbe00;
  0x2000; 0x4002; 0x0040; 0x2000; 0x0bd0; 0x0800; 0x0006; 0x0000
].

(** [sizeof] of an array of [uint16_t]. *)
Definition sizeof16 (code : list Z) : Z := 2 * Z.of_nat (length code).

(** ** Bulk transport and session *)

Inductive STLinkParamDirection := STLinkParamToDev | STLinkParamFromDev.

(** The probe behind the USB handle.  [libusb_bulk_transfer h ep out n]
    moves [n] bytes on endpoint [ep]: on the OUT endpoint the bytes [out]
    go to the probe, on the IN endpoint the probe answers with the bytes
    returned.  The libusb status and the actual transfer length are only
    printed by the source and are not modelled. *)
Class Transport (P : Type) := {
  libusb_bulk_transfer : P -> Z -> list Z -> Z -> P * list Z
}.

(** One command exchanged with the probe: the command bytes of the first
    transfer and the bytes of the data phase (sent or received; empty when
    the command has no data phase). *)
Record xfer := mk_xfer {
  x_cmd : list Z;
  x_dir : STLinkParamDirection;
  x_data : list Z
}.

Section Session.

Context {P : Type} {T : Transport P}.

(** [struct stlink], with the fields the operations below use.  [wire] is
    the history of the exchanges made through [usb_hand], oldest first. *)
Record stlink := mk_stlink {
  verbose : Z;
  chip_index : Z;
  cpu_idcode : Z;
  xfer_dir : STLinkParamDirection;
  cmd_len : Z;
  cmd_buf : list Z;
  data_len : Z;
  data_buf : list Z;
  usb_hand : P;
  wire : list xfer
}.

Definition set_chip_index (sl : stlink) (v : Z) : stlink :=
  mk_stlink (verbose sl) v (cpu_idcode sl) (xfer_dir sl) (cmd_len sl)
            (cmd_buf sl) (data_len sl) (data_buf sl) (usb_hand sl) (wire sl).
Definition set_cpu_idcode (sl : stlink) (v : Z) : stlink :=
  mk_stlink (verbose sl) (chip_index sl) v (xfer_dir sl) (cmd_len sl)
            (cmd_buf sl) (data_len sl) (data_buf sl) (usb_hand sl) (wire sl).
Definition set_xfer_dir (sl : stlink) (v : STLinkParamDirection) : stlink :=
  mk_stlink (verbose sl) (chip_index sl) (cpu_idcode sl) v (cmd_len sl)
            (cmd_buf sl) (data_len sl) (data_buf sl) (usb_hand sl) (wire sl).
Definition set_cmd_len (sl : stlink) (v : Z) : stlink :=
  mk_stlink (verbose sl) (chip_index sl) (cpu_idcode sl) (xfer_dir sl) v
            (cmd_buf sl) (data_len sl) (data_buf sl) (usb_hand sl) (wire sl).
Definition set_cmd_buf (sl : stlink) (v : list Z) : stlink :=
  mk_stlink (verbose sl) (chip_index sl) (cpu_idcode sl) (xfer_dir sl)
            (cmd_len sl) v (data_len sl) (data_buf sl) (usb_hand sl) (wire sl).
Definition set_data_len (sl : stlink) (v : Z) : stlink :=
  mk_stlink (verbose sl) (chip_index sl) (cpu_idcode sl) (xfer_dir sl)
            (cmd_len sl) (cmd_buf sl) v (data_buf sl) (usb_hand sl) (wire sl).
Definition set_data_buf (sl : stlink) (v : list Z) : stlink :=
  mk_stlink (verbose sl) (chip_index sl) (cpu_idcode sl) (xfer_dir sl)
            (cmd_len sl) (cmd_buf sl) (data_len sl) v (usb_hand sl) (wire sl).
Definition set_link (sl : stlink) (h : P) (e : xfer) : stlink :=
  mk_stlink (verbose sl) (chip_index sl) (cpu_idcode sl) (xfer_dir sl)
            (cmd_len sl) (cmd_buf sl) (data_len sl) (data_buf sl) h
            (wire sl ++ [e]).

(** [sl->cmd_buf[i] = v] *)
Definition set_cmd_byte (sl : stlink) (i v : Z) : stlink :=
  set_cmd_buf sl (store_bytes i [u8 v] (cmd_buf sl)).

(** [stl_do_cmd]: the command bytes go out first; then the data phase in
    the declared direction.  The command transfer is [cmd_len] bytes long
    from the start of [cmd_buf], and [stlink_cmd] declares 16 bytes for
    the 10-byte buffer: the source then sends on what follows [cmd_buf] in
    [struct stlink], padding and [data_len] in host order.  The probe
    ignores what follows the command.  Only the bytes of [cmd_buf] are
    recorded here, at most 10 per command, and what is said below about an
    exchange is said about these bytes. *)
Definition stl_do_cmd (stl : stlink) : stlink :=
  let cmd := load_bytes 0 (cmd_len stl) (cmd_buf stl) in
  let h1 := fst (libusb_bulk_transfer (usb_hand stl) USB_PIPE_OUT cmd
                                      (cmd_len stl)) in
  match xfer_dir stl with
  | STLinkParamToDev =>
      let out := load_bytes 0 (data_len stl) (data_buf stl) in
      let h2 := fst (libusb_bulk_transfer h1 USB_PIPE_OUT out (data_len stl)) in
      set_link stl h2 (mk_xfer cmd STLinkParamToDev out)
  | STLinkParamFromDev =>
      if data_len stl =? 0 then
        set_link stl h1 (mk_xfer cmd STLinkParamFromDev [])
      else
        let '(h2, reply) :=
          libusb_bulk_transfer h1 USB_PIPE_IN [] (data_len stl) in
        let got := load_bytes 0 (data_len stl) reply in
        set_link (set_data_buf stl (store_bytes 0 got (data_buf stl)))
                 h2 (mk_xfer cmd STLinkParamFromDev got)
  end.

(** ** Probe protocol *)

Variable is_bigendian : bool.

(** [stlink_cmd]: a regular-form debug command.  The result is the [int]
    the C function returns. *)
Definition stlink_cmd (sl : stlink) (st_cmd1 st_cmd2 resp_len : Z)
  : Z * stlink :=
  let sl := set_cmd_byte sl 0 STLinkDebugCommand in
  let sl := set_cmd_byte sl 1 st_cmd1 in
  let sl := set_cmd_byte sl 2 st_cmd2 in
  let sl := set_cmd_len sl 16 in
  let sl := set_data_len sl resp_len in
  let sl := set_xfer_dir sl STLinkParamFromDev in
  let sl := set_data_buf sl (memset (data_buf sl) 0x55555555 (resp_len + 12)) in
  let sl := stl_do_cmd sl in
  if resp_len =? 2 then (cast_uint16 is_bigendian (data_buf sl), sl)
  else if resp_len =? 4 then
    (int_of_u32 (read_uint32 is_bigendian (data_buf sl) 0), sl)
  else (0, sl).

Definition stl_get_core_id (sl : stlink) : Z * stlink :=
  stlink_cmd sl STLinkDebugReadCoreID 0 4.
Definition stl_get_status (sl : stlink) : Z * stlink :=
  stlink_cmd sl STLinkDebugGetStatus 0 2.
Definition stl_state_run (sl : stlink) : Z * stlink :=
  stlink_cmd sl STLinkDebugRunCore 0 2.

Definition stl_write_reg (sl : stlink) (reg_val reg_idx : Z) : stlink :=
  let sl := set_cmd_buf sl (write_uint32 is_bigendian (cmd_buf sl) 3 (u32 reg_val)) in
  snd (stlink_cmd sl STLinkDebugWriteReg reg_idx 2).

(** ** Target memory commands *)

(** [stl_wr32_cmd]: the payload is already in [data_buf]. *)
Definition stl_wr32_cmd (sl : stlink) (addr len : Z) : Z * stlink :=
  let sl := set_cmd_byte sl 0 STLinkDebugCommand in
  if Z.land len 3 =? 0 then
    let sl := set_cmd_byte sl 1 STLinkDebugWriteMem32bit in
    let sl := set_cmd_buf sl (write_uint32 is_bigendian (cmd_buf sl) 2 addr) in
    let sl := set_cmd_buf sl (write_uint16 is_bigendian (cmd_buf sl) 6 len) in
    let sl := set_cmd_len sl 8 in
    let sl := set_data_len sl len in
    let sl := set_xfer_dir sl STLinkParamToDev in
    (0, stl_do_cmd sl)
  else if len <? 64 then
    let sl := set_cmd_byte sl 1 STLinkDebugWriteMem8bit in
    let sl := set_cmd_buf sl (write_uint32 is_bigendian (cmd_buf sl) 2 addr) in
    let sl := set_cmd_buf sl (write_uint16 is_bigendian (cmd_buf sl) 6 len) in
    let sl := set_cmd_len sl 8 in
    let sl := set_data_len sl len in
    let sl := set_xfer_dir sl STLinkParamToDev in
    (0, stl_do_cmd sl)
  else (-1, sl).

Definition sl_wr32 (sl : stlink) (addr val : Z) : stlink :=
  let sl := set_data_buf sl (write_uint32 is_bigendian (data_buf sl) 0 (u32 val)) in
  snd (stl_wr32_cmd sl (u32 addr) 4).

(** [stl_rd32_cmd]: the aligned address is written into the command, and
    [stlink_cmd] then stores the low byte of [addr] over its first byte. *)
Definition stl_rd32_cmd (sl : stlink) (addr len : Z) : Z * stlink :=
  let sl := set_cmd_buf sl
              (write_uint32 is_bigendian (cmd_buf sl) 2 (clear_low2 addr)) in
  let sl := set_cmd_buf sl
              (write_uint16 is_bigendian (cmd_buf sl) 6
                            (u16 (clear_low2 (len + 3)))) in
  let sl := snd (stlink_cmd sl STLinkDebugReadMem32bit addr len) in
  (cast_uint32 is_bigendian (data_buf sl), sl).

Definition sl_rd32 (sl : stlink) (addr : Z) : Z * stlink :=
  let sl := snd (stl_rd32_cmd (sl) (u32 addr) 4) in
  (cast_uint32 is_bigendian (data_buf sl), sl).

(** ** Loader-based flash writer *)

(** The bytes of a [uint16_t] array as they lie in host memory. *)
Definition array16 (code : list Z) : list Z :=
  concat (map (obj_repr is_bigendian 2) code).

(** [((uint32_t * ) (sl->data_buf + off))[0] = v] *)
Definition store_uint32 (sl : stlink) (off v : Z) : stlink :=
  set_data_buf sl (store_bytes off (obj_repr is_bigendian 4 v) (data_buf sl)).

(** The flash-controller base that [stl_loader] hands to the loader. *)
Definition loader_ctrl_base (chip : stm_chip_params) (flash_addr : Z) : Z :=
  if negb (Z.land (cap_flags chip) ChipCapF4Flash =? 0) then F4_FLASH_REGS
  else if (flash_size chip >? 256 * 1024) && (flash_addr >=? 0x08080000)
       then 0x40022040
       else FLASH_REGS_ADDR.

(** The loader program [stl_loader] copies into the send buffer. *)
Definition loader_program (chip : stm_chip_params) : list Z :=
  if negb (Z.land (cap_flags chip) ChipCapF4Flash =? 0)
  then f4_loader_code else db_loader_code.

(** [stl_loader]: [buf] is the caller's data from the current position
    on, [size] the number of bytes of this chunk. *)
Definition stl_loader (sl : stlink) (flash_addr : Z) (buf : list Z)
           (size : Z) : Z * stlink :=
  let prog_base := sram_base (devid 0) in
  let chip := devid (chip_index sl) in
  let code := loader_program chip in
  let offset := sizeof16 code in
  let sl := set_data_buf sl
              (store_bytes 0 (load_bytes 0 offset (array16 code)) (data_buf sl)) in
  let flash_ctrl_base := loader_ctrl_base chip flash_addr in
  let params := offset in
  let sl := store_uint32 sl (params - 16) flash_ctrl_base in
  let sl := store_uint32 sl (params - 12) (u32 (prog_base + offset)) in
  let sl := store_uint32 sl (params - 8) flash_addr in
  let sl := store_uint32 sl (params - 4) (u32 (Z.shiftr size 1)) in
  let sl := set_data_buf sl
              (store_bytes params (load_bytes 0 size buf) (data_buf sl)) in
  let sl := snd (stl_wr32_cmd sl prog_base (u16 (offset + size))) in
  let sl := stl_write_reg sl prog_base 15 in
  let sl := snd (stl_state_run sl) in
  (0, sl).

(** The arguments of a diagnostic [printf] are evaluated for their reads
    of the target.  C leaves the order of their evaluation open and a
    compiler may well go from right to left; the model takes them from
    left to right, and the statements below say which reads are made and
    not in which order.  Nothing is printed. *)
Definition diag_reads (sl : stlink) (addrs : list Z) : stlink :=
  fold_left (fun s a => snd (sl_rd32 s a)) addrs sl.

(** The wait for the loader to halt:
    [while (stl_get_status (sl) != STLINK_CORE_HALTED)
       if (++failcount > FLASH_POLL_LIMIT) { ...; return 0; }].
    [true] when the core was seen halted, [false] when the function
    returns from inside the loop. *)
Fixpoint flash_write_poll (fuel : nat) (sl : stlink) (failcount : Z)
  : option (bool * stlink) :=
  match fuel with
  | O => None
  | S fuel' =>
      let '(st, sl) := stl_get_status sl in
      if negb (st =? STLINK_CORE_HALTED) then
        let failcount := failcount + 1 in
        if failcount >? FLASH_POLL_LIMIT then
          let sl :=
            if negb (verbose sl =? 0) then
              snd (stl_get_status (diag_reads sl [FLASH_SR; FLASH_CR]))
            else sl in
          Some (false, sl)
        else flash_write_poll fuel' sl failcount
      else Some (true, sl)
  end.

(** The size of the next chunk. *)
Definition chunk_size (size : Z) : Z :=
  if size >? FLASH_WR_BLK_SIZE then FLASH_WR_BLK_SIZE
  else if negb (Z.land size 1 =? 0) then size + 1
  else size.

(** The [do ... while (size > 0)] loop of [stl_flash_write].  The result
    is [Some v] when the function returns [v] from inside the loop. *)
Fixpoint flash_write_blocks (fuel0 fuel : nat) (sl : stlink)
         (flash_addr : Z) (buf : list Z) (size offset : Z)
  : option (option Z * stlink) :=
  match fuel with
  | O => None
  | S fuel' =>
      let this_size := chunk_size size in
      let sl := snd (stl_loader sl (u32 (flash_addr + offset))
                                (skipn (Z.to_nat offset) buf) this_size) in
      match flash_write_poll fuel0 sl 0 with
      | None => None
      | Some (false, sl) => Some (Some 0, sl)
      | Some (true, sl) =>
          let offset := offset + this_size in
          let size := size - this_size in
          if size >? 0
          then flash_write_blocks fuel0 fuel' sl flash_addr buf size offset
          else Some (None, sl)
      end
  end.

Definition stl_flash_write (fuel : nat) (sl : stlink) (flash_addr : Z)
           (buf : list Z) (size : Z) : option (Z * stlink) :=
  let sl := sl_wr32 sl FLASH_KEYR FLASH_KEY1 in
  let sl := sl_wr32 sl FLASH_KEYR FLASH_KEY2 in
  let sl := sl_wr32 sl FLASH_SR 0x34 in
  let sl := if negb (verbose sl =? 0)
            then diag_reads sl [FLASH_SR; FLASH_CR] else sl in
  match flash_write_blocks fuel fuel sl flash_addr buf size 0 with
  | None => None
  | Some (Some v, sl) => Some (v, sl)
  | Some (None, sl) =>
      let '(sr, sl) := sl_rd32 sl FLASH_SR in
      let status := Z.land (int_of_u32 sr) 0x15 in
      let sl := sl_wr32 sl FLASH_CR 0x80 in
      Some (status, sl)
  end.

(** ** Flash controller drivers *)

(** [do { status = sl_rd32 (sl, sr); i++; } while ((status & bsy) && i < 1000);]
    yields the last status and the number of checks. *)
Fixpoint erase_poll (fuel : nat) (sl : stlink) (sr bsy i : Z)
  : option (Z * Z * stlink) :=
  match fuel with
  | O => None
  | S fuel' =>
      let '(v, sl) := sl_rd32 sl sr in
      let status := int_of_u32 v in
      let i := i + 1 in
      if negb (Z.land status bsy =? 0) && (i <? 1000)
      then erase_poll fuel' sl sr bsy i
      else Some (status, i, sl)
  end.

Definition stl_f1_flash_erase (fuel : nat) (sl : stlink) (addr_page : Z)
  : option (Z * stlink) :=
  let sl := sl_wr32 sl FLASH_KEYR FLASH_KEY1 in
  let sl := sl_wr32 sl FLASH_KEYR FLASH_KEY2 in
  let sl := sl_wr32 sl FLASH_SR
              (Z.lor (Z.lor FLASH_SR_EOP FLASH_SR_WRPRTERR) FLASH_SR_PGERR) in
  let sl := if verbose sl >? 1
            then diag_reads sl [FLASH_SR; FLASH_CR] else sl in
  let sl :=
    if addr_page =? 0xa11 then
      let sl := sl_wr32 sl FLASH_CR FLASH_CR_MER in
      sl_wr32 sl FLASH_CR (Z.lor FLASH_CR_STRT FLASH_CR_MER)
    else
      let sl := sl_wr32 sl FLASH_AR addr_page in
      let sl := sl_wr32 sl FLASH_CR FLASH_CR_PER in
      sl_wr32 sl FLASH_CR (Z.lor FLASH_CR_STRT FLASH_CR_PER) in
  match erase_poll fuel sl FLASH_SR FLASH_SR_BSY 0 with
  | None => None
  | Some (status, i, sl) =>
      if Z.land status FLASH_SR_EOP =? 0
      then Some (1, diag_reads sl [FLASH_SR])
      else Some (0, sl)
  end.

Definition stl_f4_flash_erase (fuel : nat) (sl : stlink) (addr_page : Z)
  : option (Z * stlink) :=
  let sl := if verbose sl >? 1
            then diag_reads sl [F4_FLASH_SR; F4_FLASH_CR] else sl in
  let sl := sl_wr32 sl F4_FLASH_KEYR FLASH_KEY1 in
  let sl := sl_wr32 sl F4_FLASH_KEYR FLASH_KEY2 in
  let sl := sl_wr32 sl F4_FLASH_SR 0xF3 in
  let sl := if verbose sl >? 1
            then diag_reads sl [F4_FLASH_SR; F4_FLASH_CR] else sl in
  let sl :=
    if addr_page =? 0xa11 then
      let sl := sl_wr32 sl F4_FLASH_CR FLASH_CR_MER in
      sl_wr32 sl F4_FLASH_CR (Z.lor F4_FLASH_CR_STRT FLASH_CR_MER)
    else
      let sector := Z.land addr_page 0x0f in
      let sl := sl_wr32 sl F4_FLASH_CR (Z.lor 0x00202 (Z.shiftl sector 3)) in
      sl_wr32 sl F4_FLASH_CR (Z.lor 0x10202 (Z.shiftl sector 3)) in
  match erase_poll fuel sl F4_FLASH_SR F4_FLASH_SR_BSY 0 with
  | None => None
  | Some (status, i, sl) => Some (0, sl)
  end.

Definition stl_L1_flash_erase (fuel : nat) (sl : stlink) (addr_page : Z)
  : option (Z * stlink) :=
  let sl := if verbose sl >? 1
            then diag_reads sl [L15_FLASH_ACR; L15_FLASH_ACR] else sl in
  let sl := sl_wr32 sl L15_FLASH_PEKEYR L15_FLASH_PEKEY1 in
  let sl := sl_wr32 sl L15_FLASH_PEKEYR L15_FLASH_PEKEY2 in
  let sl := sl_wr32 sl L15_FLASH_PRGKEYR L15_FLASH_PRGKEY1 in
  let sl := sl_wr32 sl L15_FLASH_PRGKEYR L15_FLASH_PRGKEY2 in
  let sl := if verbose sl >? 1
            then diag_reads sl [L15_FLASH_PECR; L15_FLASH_ACR; L15_FLASH_OBR]
            else sl in
  let sl :=
    if addr_page =? 0xa11 then
      let sl := sl_wr32 sl L15_FLASH_OBR 0x01 in
      sl_wr32 sl L15_FLASH_OBR 0xAA
    else
      let sector := Z.land addr_page 0x0f in
      let sl := sl_wr32 sl F4_FLASH_CR (Z.lor 0x00202 (Z.shiftl sector 3)) in
      sl_wr32 sl F4_FLASH_CR (Z.lor 0x10202 (Z.shiftl sector 3)) in
  match erase_poll fuel sl L15_FLASH_SR FLASH_SR_BSY 0 with
  | None => None
  | Some (status, i, sl) => Some (0, sl)
  end.

Definition stl_flash_erase_page (fuel : nat) (sl : stlink) (addr_page : Z)
  : option (Z * stlink) :=
  let flags := cap_flags (devid (chip_index sl)) in
  if negb (Z.land flags ChipCapF4Flash =? 0)
  then stl_f4_flash_erase fuel sl addr_page
  else if negb (Z.land flags ChipCapL15Flash =? 0)
  then stl_L1_flash_erase fuel sl addr_page
  else stl_f1_flash_erase fuel sl addr_page.

(** ** Target memory service *)

(** The [do ... while (size > 0)] loop of [stl_read]; [buf] is the
    caller's buffer.  The source keeps the transfer size in an [int] and
    copies that many bytes out of the send buffer of [Q_BUF_LEN] bytes.
    The model follows it for every size that is a multiple of 4 and for
    any other size up to [Q_BUF_LEN]; for a larger size that is not a
    multiple of 4 the source copies from beyond the send buffer, where the
    copy of the model ends with the buffer. *)
Fixpoint stl_read_blocks (fuel : nat) (sl : stlink) (addr : Z)
         (buf : list Z) (size offset : Z) : option (Z * list Z * stlink) :=
  match fuel with
  | O => None
  | S fuel' =>
      let xfer_size :=
        if size >? READ_BLK_SIZE then READ_BLK_SIZE
        else clear_low2 (size + 3) in
      let sl := snd (stl_rd32_cmd sl (u32 (addr + offset)) (u16 xfer_size)) in
      let xfer_size := if negb (Z.land size 3 =? 0) then size else xfer_size in
      let buf := store_bytes offset (load_bytes 0 xfer_size (data_buf sl)) buf in
      let offset := offset + xfer_size in
      let size := size - xfer_size in
      if size >? 0 then stl_read_blocks fuel' sl addr buf size offset
      else Some (size, buf, sl)
  end.

(** [stl_read]: the value returned and the caller's buffer afterwards. *)
Definition stl_read (fuel : nat) (sl : stlink) (addr : Z) (buf : list Z)
           (size : Z) : option (Z * list Z * stlink) :=
  if negb (Z.land addr 3 =? 0) then
    let psz := 4 - Z.land addr 3 in
    let sl := snd (stl_rd32_cmd sl (clear_low2 addr) 4) in
    let buf := store_bytes 0 (load_bytes (Z.land addr 3) psz (data_buf sl)) buf in
    stl_read_blocks fuel sl addr buf size psz
  else stl_read_blocks fuel sl addr buf size 0.

(** ** Target identifier *)

(** [for (i = 0; stm_devids[i].name; i++) if (idcode == ...) { ...; break; }] *)
Fixpoint find_devid (idcode : Z) (tbl : list stm_chip_params) (i : Z)
  : option Z :=
  match tbl with
  | [] => None
  | c :: tbl' =>
      if idcode =? dbgmcu_idcode c then Some i
      else find_devid idcode tbl' (i + 1)
  end.

(** [stm_id_chip].  The scan of [arm_cores] only selects a message. *)
Definition stm_id_chip (sl : stlink) : Z * stlink :=
  let '(r, sl) := stl_get_core_id sl in
  let core_id := u32 r in
  let '(idcode, sl) := sl_rd32 sl DBGMCU_IDCODE in
  let '(idcode, sl) :=
    if idcode =? 0 then sl_rd32 sl 0x40015800 else (idcode, sl) in
  let sl := set_cpu_idcode sl idcode in
  let sl := match find_devid idcode stm_devids 0 with
            | Some i => set_chip_index sl i
            | None => sl
            end in
  (0, sl).

End Session.

Arguments stlink P : clear implicits.

(** ** Reading the wire history *)

(** The commands of the debug subsystem, as they appear on the wire: byte 0
    is the opcode, byte 1 the sub-opcode; memory commands carry the address
    in bytes 2..5 and the length in bytes 6..7, little-endian; a register
    write carries the index in byte 2 and the value in bytes 3..6. *)
Inductive op :=
| OpWriteMem32 (addr len : Z) (data : list Z)
| OpWriteMem8 (addr len : Z) (data : list Z)
| OpReadMem32 (addr len : Z) (reply : list Z)
| OpGetStatus (reply : list Z)
| OpReadCoreID (reply : list Z)
| OpWriteReg (idx val : Z)
| OpRunCore
| OpOther (e : xfer).

Definition decode (e : xfer) : op :=
  let c := x_cmd e in
  let addr := le_combine (load_bytes 2 4 c) in
  let len := le_combine (load_bytes 6 2 c) in
  if negb (byte_at c 0 =? STLinkDebugCommand) then OpOther e
  else if byte_at c 1 =? STLinkDebugWriteMem32bit then OpWriteMem32 addr len (x_data e)
  else if byte_at c 1 =? STLinkDebugWriteMem8bit then OpWriteMem8 addr len (x_data e)
  else if byte_at c 1 =? STLinkDebugReadMem32bit then OpReadMem32 addr len (x_data e)
  else if byte_at c 1 =? STLinkDebugGetStatus then OpGetStatus (x_data e)
  else if byte_at c 1 =? STLinkDebugReadCoreID then OpReadCoreID (x_data e)
  else if byte_at c 1 =? STLinkDebugWriteReg
       then OpWriteReg (byte_at c 2) (le_combine (load_bytes 3 4 c))
  else if byte_at c 1 =? STLinkDebugRunCore then OpRunCore
  else OpOther e.

(** The operations performed on the way from session [sl] to [sl']. *)
Definition ops_since {P : Type} (sl sl' : stlink P) : list op :=
  map decode (skipn (length (wire sl)) (wire sl')).

Definition is_write (o : op) : bool :=
  match o with
  | OpWriteMem32 _ _ _ | OpWriteMem8 _ _ _ => true
  | _ => false
  end.

(** A 32-bit write of one word, as [sl_wr32] issues it. *)
Definition Wr32 (addr val : Z) : op := OpWriteMem32 addr 4 (le_split 4 val).

(** What a host-order read of the first [n] bytes of [data_buf] sees after
    a command that asked for [n] bytes and received [got]: [stlink_cmd]
    fills the buffer with 0x55 before the exchange, and a short reply
    leaves that filling in place. *)
Definition reply_bytes (n : nat) (got : list Z) : list Z :=
  firstn n (got ++ repeat 0x55 n).

(** The command buffer of the session has its declared size, [CDB_SIZE]. *)
Definition wf_session {P : Type} (sl : stlink P) : Prop :=
  length (cmd_buf sl) = Z.to_nat CDB_SIZE.

(** ** A simulated probe

    Target memory is a fixed byte per address (writes do not change it),
    the core ID is fixed, and the successive get-status commands are
    answered from a script, then with a default. *)
Record sim_probe := mk_sim {
  sim_mem : Z -> Z;
  sim_core_id : Z;
  sim_status : list Z;
  sim_status_default : Z;
  sim_cmd : list Z
}.

Definition seqZ (a : Z) (n : nat) : list Z :=
  map (fun i => a + Z.of_nat i) (seq 0 n).

Definition sim_transfer (p : sim_probe) (ep : Z) (out : list Z) (n : Z)
  : sim_probe * list Z :=
  let c := sim_cmd p in
  let idle := mk_sim (sim_mem p) (sim_core_id p) (sim_status p)
                     (sim_status_default p) [] in
  if ep =? USB_PIPE_OUT then
    match c with
    | [] => (mk_sim (sim_mem p) (sim_core_id p) (sim_status p)
                    (sim_status_default p) out, [])
    | _ => (idle, [])
    end
  else if byte_at c 1 =? STLinkDebugReadMem32bit then
    (idle, map (fun a => sim_mem p (u32 a))
               (seqZ (le_combine (load_bytes 2 4 c))
                     (Z.to_nat (le_combine (load_bytes 6 2 c)))))
  else if byte_at c 1 =? STLinkDebugGetStatus then
    match sim_status p with
    | [] => (idle, le_split 2 (sim_status_default p))
    | s :: rest => (mk_sim (sim_mem p) (sim_core_id p) rest
                           (sim_status_default p) [], le_split 2 s)
    end
  else if byte_at c 1 =? STLinkDebugReadCoreID then
    (idle, le_split 4 (sim_core_id p))
  else (idle, le_split (Z.to_nat n) 0x80).

#[export] Instance sim_transport : Transport sim_probe :=
  {| libusb_bulk_transfer := sim_transfer |}.

(** A fresh session on a simulated probe: [memset (sl, 0, sizeof *sl)]. *)
Definition sim_session (verb chip : Z) (p : sim_probe) : stlink sim_probe :=
  mk_stlink verb chip 0 STLinkParamToDev 0
            (repeat 0 (Z.to_nat CDB_SIZE)) 0 (repeat 0 (Z.to_nat Q_BUF_LEN))
            p [].

(** ** Vocabulary of the statements *)

(** [frame sl sl' ops]: going from [sl] to [sl'] the operations [ops], and
    no others, went over the wire, in this order; the buffers kept their
    sizes and the configuration of the session did not change. *)
Definition frame {P : Type} (sl sl' : stlink P) (ops : list op) : Prop :=
  (exists evs, wire sl' = wire sl ++ evs /\ map decode evs = ops) /\
  wf_session sl' /\
  verbose sl' = verbose sl /\
  chip_index sl' = chip_index sl.

(** The value a 32-bit read of the target yields on a host of the given
    byte order, and the status word a 2-byte reply yields. *)
Definition rd32_value (be : bool) (got : list Z) : Z :=
  obj_value be (reply_bytes 4 got).
Definition status_value (be : bool) (got : list Z) : Z :=
  obj_value be (reply_bytes 2 got).

(** What [stl_wr32_cmd] puts on the wire for a transfer of [len] bytes:
    a 32-bit write when [len] is a multiple of 4, an 8-bit write when it is
    not and is under 64, and nothing otherwise. *)
Definition upload_ops (addr len : Z) (data : list Z) : list op :=
  if Z.land len 3 =? 0 then [OpWriteMem32 addr len data]
  else if len <? 64 then [OpWriteMem8 addr len data]
  else [].

(** The layout of the loader image: the program up to its parameter block,
    the four parameter words in host order, then the payload. *)
Definition loader_image (be : bool) (chip : stm_chip_params)
           (flash_addr : Z) (buf : list Z) (size : Z) : list Z :=
  let code := loader_program chip in
  let prog_len := sizeof16 code in
  firstn (Z.to_nat (prog_len - 16)) (array16 be code)
  ++ obj_repr be 4 (loader_ctrl_base chip flash_addr)
  ++ obj_repr be 4 (u32 (sram_base (devid 0) + prog_len))
  ++ obj_repr be 4 flash_addr
  ++ obj_repr be 4 (u32 (Z.shiftr size 1))
  ++ load_bytes 0 size buf.

(** The operations a flash write performs between its unlock sequence and
    its final status read: transfers to the SRAM base, register writes,
    run and status commands, and the diagnostic reads of the F1 status and
    control registers. *)
Definition loader_phase_op (o : op) : bool :=
  match o with
  | OpWriteMem32 a _ _ | OpWriteMem8 a _ _ => a =? sram_base (devid 0)
  | OpReadMem32 a _ _ => (a =? FLASH_SR) || (a =? FLASH_CR)
  | OpGetStatus _ | OpWriteReg _ _ | OpRunCore => true
  | _ => false
  end.

(** The chunks of a flash write as the specification describes them: full
    chunks of 2048 bytes, then a last chunk holding the rest, one byte
    longer when the rest is odd.  Each chunk is its offset in the caller's
    data and its size. *)
Fixpoint plan_from (n : nat) (size offset : Z) : list (Z * Z) :=
  match n with
  | O => [(offset, size + size mod 2)]
  | S n' => (offset, FLASH_WR_BLK_SIZE)
            :: plan_from n' (size - FLASH_WR_BLK_SIZE) (offset + FLASH_WR_BLK_SIZE)
  end.

Definition chunk_plan (size : Z) : list (Z * Z) :=
  plan_from (Z.to_nat ((size - 1) / FLASH_WR_BLK_SIZE)) size 0.

(** Running the loader over a list of chunks, giving up at the first
    chunk whose halt poll passes the limit. *)
Fixpoint run_chunks {P : Type} {T : Transport P} (be : bool) (fuel0 : nat)
         (sl : stlink P) (flash_addr : Z) (buf : list Z)
         (plan : list (Z * Z)) : option (option Z * stlink P) :=
  match plan with
  | [] => Some (None, sl)
  | (offset, this_size) :: rest =>
      let sl := snd (stl_loader be sl (u32 (flash_addr + offset))
                                (skipn (Z.to_nat offset) buf) this_size) in
      match flash_write_poll be fuel0 sl 0 with
      | None => None
      | Some (false, sl) => Some (Some 0, sl)
      | Some (true, sl) => run_chunks be fuel0 sl flash_addr buf rest
      end
  end.

(** The status an erase poll sees in a reply: the host-order word read
    from [data_buf], converted to [int]. *)
Definition sr_value (be : bool) (got : list Z) : Z :=
  int_of_u32 (rd32_value be got).

(** A 32-bit read of one word of the target. *)
Definition Rd32 (addr : Z) (got : list Z) : op := OpReadMem32 addr 4 got.

(** The statuses the host read from the target address [addr]. *)
Definition reads_of (be : bool) (addr : Z) (ops : list op) : list Z :=
  flat_map (fun o => match o with
                     | OpReadMem32 a _ got =>
                         if a =? addr then [sr_value be got] else []
                     | _ => []
                     end) ops.

(** The status words the probe returned to get-status commands. *)
Definition statuses_of (be : bool) (ops : list op) : list Z :=
  flat_map (fun o => match o with
                     | OpGetStatus got => [status_value be got]
                     | _ => []
                     end) ops.

(** The operations of a run that returned. *)
Definition ops_of_run {P A : Type} (sl : stlink P)
           (r : option (A * stlink P)) : list op :=
  match r with
  | Some (_, sl') => ops_since sl sl'
  | None => []
  end.

(** ** Scenarios on the simulated probe *)

(** Target memory holding the given 32-bit words, little-endian, and zero
    elsewhere. *)
Definition mem_of_words (ws : list (Z * Z)) (a : Z) : Z :=
  match find (fun w => (fst w <=? a) && (a <? fst w + 4)) ws with
  | Some (base, v) => byte_of v (a - base)
  | None => 0
  end.

(** The core halts at once after every run; the flash status is clean. *)
Definition probe_halting : sim_probe :=
  mk_sim (mem_of_words []) 0x1ba01477 [] STLINK_CORE_HALTED [].

(** The core never reports the halted state. *)
Definition probe_running : sim_probe :=
  mk_sim (mem_of_words []) 0x1ba01477 [] STLINK_CORE_RUNNING [].

(** The status register of every flash controller keeps its busy bit set
    and never shows EOP. *)
Definition probe_busy : sim_probe :=
  mk_sim (mem_of_words [(FLASH_SR, FLASH_SR_BSY); (F4_FLASH_SR, F4_FLASH_SR_BSY);
                        (L15_FLASH_SR, FLASH_SR_BSY)])
         0x2ba01477 [] STLINK_CORE_HALTED [].

(** An F1 target whose status register shows EOP with the busy bit clear. *)
Definition probe_erasing : sim_probe :=
  mk_sim (mem_of_words [(FLASH_SR, FLASH_SR_EOP)])
         0x1ba01477 [] STLINK_CORE_HALTED [].

(** A Cortex-M0 core on which the debug ID-code register reads non-zero. *)
Definition probe_m0 : sim_probe :=
  mk_sim (mem_of_words [(DBGMCU_IDCODE, 0x10016410); (0x40015800, 0x20006440)])
         0x0bb11477 [] STLINK_CORE_HALTED [].

(** A Cortex-M3 core on which the debug ID-code register reads zero. *)
Definition probe_m3_blank : sim_probe :=
  mk_sim (mem_of_words [(0x40015800, 0x20006440)])
         0x1ba01477 [] STLINK_CORE_HALTED [].

(** Target memory whose byte at address [a] is [a mod 251]. *)
Definition probe_pattern : sim_probe :=
  mk_sim (fun a => a mod 251) 0x1ba01477 [] STLINK_CORE_HALTED [].

(** ** Further operations *)

Definition STLinkGetCurrentMode : Z := 0xF5.
Definition STLinkDFUCommand : Z := 0xF3.
Definition STLinkDevMode_Mass : Z := 1.
Definition STLinkDevMode_Debug : Z := 2.
Definition STLinkDFUModeExit : Z := 7.
Definition STLinkDebugEnterSWD : Z := 0xA3.
Definition STLinkDebugEnterMode : Z := 0x20.
Definition STLinkDebugSetFP : Z := 0x0B.

Definition GPIOC : Z := 0x40011000.
Definition GPIOC_CRH : Z := GPIOC + 0x04.
Definition GPIOC_ODR : Z := GPIOC + 0x0c.
Definition LED_BLUE : Z := Z.shiftl 1 8.
Definition LED_GREEN : Z := Z.shiftl 1 9.

(** The fields of [struct stlink] that the mode manager uses beside the
    session proper: the descriptor [fd] and the cached [core_state]; and
    the number of calls of [open] made so far, which selects what the next
    call returns. *)
Record host (P : Type) := mk_host {
  h_sl : stlink P;
  h_fd : Z;
  h_core_state : Z;
  h_opens : nat
}.

Arguments mk_host {P} _ _ _ _.
Arguments h_sl {P} _.
Arguments h_fd {P} _.
Arguments h_core_state {P} _.
Arguments h_opens {P} _.

Section MoreOperations.

Context {P : Type} {T : Transport P}.
Variable is_bigendian : bool.

(** [st_gcmd]: a command to the probe itself. *)
Definition st_gcmd (sl : stlink P) (st_cmd0 st_cmd1 resp_len : Z) : stlink P :=
  let sl := set_cmd_byte sl 0 st_cmd0 in
  let sl := set_cmd_byte sl 1 st_cmd1 in
  let sl := set_cmd_len sl 2 in
  let sl := set_data_len sl resp_len in
  let sl := set_xfer_dir sl STLinkParamFromDev in
  stl_do_cmd sl.

(** [stl_mode (sl)]: the command, then [*(uint16_t * ) sl->data_buf]. *)
Definition stl_mode (sl : stlink P) : Z * stlink P :=
  let sl := st_gcmd sl STLinkGetCurrentMode 0 2 in
  (cast_uint16 is_bigendian (data_buf sl), sl).

Definition stl_exit_dfu_mode (sl : stlink P) : stlink P :=
  st_gcmd sl STLinkDFUCommand STLinkDFUModeExit 0.

Definition stl_enter_SWD_mode (sl : stlink P) : Z * stlink P :=
  stlink_cmd is_bigendian sl STLinkDebugEnterMode STLinkDebugEnterSWD 0.

(** [open (sl->dev_path, O_RDWR)]: the descriptor the [k]-th call returns,
    negative when it fails. *)
Variable open_result : nat -> Z.

(** The [for (i = 0; i < 10; i++)] loop of [stl_kick_mode], with [n]
    rounds left.  [sleep] and the messages change nothing. *)
Fixpoint kick_reopen (n : nat) (h : host P) : Z * host P :=
  match n with
  | O => (-1, h)
  | S n' =>
      let fd := open_result (h_opens h) in
      let opens := S (h_opens h) in
      if fd >=? 0 then
        let sl := snd (stl_enter_SWD_mode (h_sl h)) in
        let '(st, sl) := stl_get_status is_bigendian sl in
        if (st =? STLINK_CORE_RUNNING) || (st =? STLINK_CORE_HALTED)
        then (0, mk_host sl fd st opens)
        else kick_reopen n' (mk_host sl (-1) st opens)
      else kick_reopen n' (mk_host (h_sl h) fd (h_core_state h) opens)
  end.

(** [stl_kick_mode].  [close] leaves the value of [sl->fd] as it is. *)
Definition stl_kick_mode (h : host P) : Z * host P :=
  let '(stlink_mode, sl) := stl_mode (h_sl h) in
  if (stlink_mode =? STLinkDevMode_Debug) || (stlink_mode =? STLinkDevMode_Mass)
  then (0, mk_host sl (h_fd h) (h_core_state h) (h_opens h))
  else
    let sl := stl_exit_dfu_mode sl in
    kick_reopen 10 (mk_host sl (h_fd h) (h_core_state h) (h_opens h)).

(** [stl_set_fp] and [stl_set_breakpoint]; the latter stores the address
    and the selector into [data_buf]. *)
Definition stl_set_fp (sl : stlink P) (fp_nr : Z) : Z * stlink P :=
  stlink_cmd is_bigendian sl STLinkDebugSetFP fp_nr 2.

Definition stl_set_breakpoint (sl : stlink P) (fp_nr addr fp : Z)
  : Z * stlink P :=
  let sl := set_data_buf sl
              (write_uint32 is_bigendian (data_buf sl) 3 (u32 addr)) in
  let sl := set_data_buf sl (store_bytes 7 [u8 fp] (data_buf sl)) in
  stl_set_fp sl fp_nr.

(** The macro [stl_set_breakpoint1], which stores them into [cmd_buf]. *)
Definition stl_set_breakpoint1 (sl : stlink P) (fp_nr addr fptype : Z)
  : Z * stlink P :=
  let sl := set_cmd_buf sl
              (write_uint32 is_bigendian (cmd_buf sl) 3 (u32 addr)) in
  let sl := set_cmd_byte sl 7 fptype in
  stlink_cmd is_bigendian sl STLinkDebugSetFP fp_nr 2.

(** The [for (i = 0; i < 10; i++)] loop of [stm_discovery_blink], with
    [n] rounds left. *)
Fixpoint blink_rounds (n : nat) (sl : stlink P) : stlink P :=
  match n with
  | O => sl
  | S n' =>
      let sl := sl_wr32 is_bigendian sl GPIOC_ODR LED_GREEN in
      let sl := sl_wr32 is_bigendian sl GPIOC_ODR LED_BLUE in
      blink_rounds n' sl
  end.

(** [stm_discovery_blink].  [APBnENR_orig] is a local array of two words
    that is only printed; it starts here as zeros. *)
Definition stm_discovery_blink (fuel : nat) (sl : stlink P)
  : option (stlink P) :=
  let '(PortC_hi_iocfg, sl) := sl_rd32 is_bigendian sl GPIOC_CRH in
  match stl_read is_bigendian fuel sl 0x40021018 (repeat 0 8) 8 with
  | None => None
  | Some (_, APBnENR_orig, sl) =>
      let sl :=
        if negb (Z.land PortC_hi_iocfg 0xCC =? 0x00)
        then sl_wr32 is_bigendian sl GPIOC_CRH
                     (Z.lor (Z.land PortC_hi_iocfg (Z.lnot 0xff)) 0x11)
        else sl in
      let sl := blink_rounds 10 sl in
      let sl :=
        if negb (Z.land PortC_hi_iocfg 0xCC =? 0x00)
        then sl_wr32 is_bigendian sl GPIOC_CRH PortC_hi_iocfg
        else sl in
      Some sl
  end.

(** [stm_info].  [flash_mem_size] is the field of that name, which the
    session record does not carry: it is passed in, and its value
    afterwards is the result.  The reads in the arguments of a [printf]
    are taken from left to right. *)
Definition stm_info (sl : stlink P) (flash_mem_size : Z) : Z * stlink P :=
  let chip_dev_id := Z.land (cpu_idcode sl) 0x0FFF in
  let '(cpu_id, sl) := sl_rd32 is_bigendian sl 0xe000ed00 in
  if (chip_dev_id =? 0x416) || (chip_dev_id =? 0x427) then
    let '(devparam, sl) := sl_rd32 is_bigendian sl 0x1FF8004C in
    (Z.land devparam 0xffff, sl)
  else if chip_dev_id =? 0x436 then
    let '(devparam, sl) := sl_rd32 is_bigendian sl 0x1FF8004C in
    (if negb (Z.land devparam 1 =? 0) then 256 else 384, sl)
  else
    let '(devparam, sl) := sl_rd32 is_bigendian sl 0x1FFFf7e0 in
    if negb (0xffffffff =? devparam) then
      (Z.land devparam 0xffff,
       diag_reads is_bigendian sl
                  [0x1FFFf800; 0x1FFFf804; 0x1FFFf808; 0x1FFFf80c])
    else
      let '(devparam, sl) := sl_rd32 is_bigendian sl 0x1FFF7A20 in
      if negb (0xffffffff =? devparam) then
        (Z.shiftr devparam 16,
         diag_reads is_bigendian sl
                    [0x1FFFC000; 0x1FFFC004; 0x1FFFC008; 0x1FFFC00c])
      else
        let '(devparam, sl) := sl_rd32 is_bigendian sl 0x1FFFF7CC in
        if negb (0xffffffff =? devparam) then
          (Z.land devparam 0xFFFF,
           diag_reads is_bigendian sl
                      [0x1FFFF800; 0x1FFFF804; 0x1FFFF808; 0x1FFFF80c])
        else (flash_mem_size, sl).

End MoreOperations.

(** ** A probe that serves a fixed target memory

    The state is the command awaiting its data phase; read-memory commands
    are answered with the bytes of a memory whose byte at address [a] is
    [a mod 251], every other command with zeros. *)
Record pattern_probe := mk_pattern { pp_cmd : list Z }.

Definition pattern_mem (a : Z) : Z := a mod 251.

Definition pattern_transfer (p : pattern_probe) (ep : Z) (out : list Z) (n : Z)
  : pattern_probe * list Z :=
  if ep =? USB_PIPE_OUT then (mk_pattern out, [])
  else if (byte_at (pp_cmd p) 0 =? STLinkDebugCommand)
          && (byte_at (pp_cmd p) 1 =? STLinkDebugReadMem32bit) then
    (p, map pattern_mem
            (seqZ (le_combine (load_bytes 2 4 (pp_cmd p)))
                  (Z.to_nat (le_combine (load_bytes 6 2 (pp_cmd p))))))
  else (p, repeat 0 (Z.to_nat n)).

#[export] Instance pattern_transport : Transport pattern_probe :=
  {| libusb_bulk_transfer := pattern_transfer |}.

Definition pattern_session : stlink pattern_probe :=
  mk_stlink 0 0 0 STLinkParamToDev 0
            (repeat 0 (Z.to_nat CDB_SIZE)) 0 (repeat 0 (Z.to_nat Q_BUF_LEN))
            (mk_pattern []) [].

(** A transport answers every read-memory command with the bytes of the
    memory [mem], whatever went before. *)
Definition serves_memory {P : Type} {T : Transport P} (mem : Z -> Z) : Prop :=
  forall (h : P) (c : list Z) (k n : Z),
    byte_at c 0 = STLinkDebugCommand ->
    byte_at c 1 = STLinkDebugReadMem32bit ->
    snd (libusb_bulk_transfer
           (fst (libusb_bulk_transfer h USB_PIPE_OUT c k)) USB_PIPE_IN [] n)
    = map mem (seqZ (le_combine (load_bytes 2 4 c))
                    (Z.to_nat (le_combine (load_bytes 6 2 c)))).

(** ** Vocabulary of the further statements *)

(** A read command at a word-aligned address, for a whole number of words
    that fits one block. *)
Definition aligned_read (o : op) : bool :=
  match o with
  | OpReadMem32 a l _ =>
      (a mod 4 =? 0) && (l mod 4 =? 0) && (l <=? READ_BLK_SIZE)
  | _ => false
  end.

(** A read of one word. *)
Definition is_word_read (o : op) : bool :=
  match o with
  | OpReadMem32 _ l _ => l =? 4
  | _ => false
  end.

(** The number of block commands a read of [size] bytes takes: the blocks
    of 1024 bytes that cover it when [size] is a multiple of 4, and one
    otherwise. *)
Definition read_block_count (size : Z) : Z :=
  if size mod 4 =? 0
  then Z.max 1 ((size + (READ_BLK_SIZE - 1)) / READ_BLK_SIZE)
  else 1.

(** The exchanges of the reopen rounds of [stl_kick_mode]: pairs of an
    enter-SWD command and a status command. *)
Fixpoint swd_status_rounds (l : list xfer) : bool :=
  match l with
  | [] => true
  | a :: b :: l' =>
      (byte_at (x_cmd a) 0 =? STLinkDebugCommand)
      && (byte_at (x_cmd a) 1 =? STLinkDebugEnterMode)
      && (byte_at (x_cmd a) 2 =? STLinkDebugEnterSWD)
      && match decode b with OpGetStatus _ => true | _ => false end
      && swd_status_rounds l'
  | _ => false
  end.

(** What the host does for one chunk [c] (offset and size) of a flash
    write: the upload of [prog_len + size] bytes that begin with the
    loader image of the chunk, the write of the SRAM base to r15, the run
    command, and the halt poll.  The poll sees the statuses [seen], none
    of them halted, and then [last].  With [halted] the status [last]
    reads as halted; without it the poll gave up at its 201st status, and
    in verbose mode made the three exchanges of its message, [extra],
    whose order is left open. *)
Definition chunk_ops (be : bool) (chip : stm_chip_params) (verb : Z)
           (flash_addr : Z) (buf : list Z) (c : Z * Z) (halted : bool)
           (ops : list op) : Prop :=
  let prog_base := sram_base (devid 0) in
  let prog_len := sizeof16 (loader_program chip) in
  let image := loader_image be chip (u32 (flash_addr + fst c))
                            (skipn (Z.to_nat (fst c)) buf) (snd c) in
  exists data seen last extra,
    ops = upload_ops prog_base (prog_len + snd c) data
          ++ [OpWriteReg 15 prog_base; OpRunCore]
          ++ map OpGetStatus seen ++ [OpGetStatus last] ++ extra /\
    firstn (length image) data = image /\
    Forall (fun g => status_value be g <> STLINK_CORE_HALTED) seen /\
    if halted then
      status_value be last = STLINK_CORE_HALTED /\
      (length seen <= 200)%nat /\ extra = []
    else
      status_value be last <> STLINK_CORE_HALTED /\
      length seen = 200%nat /\
      (verb = 0 -> extra = []) /\
      (verb <> 0 ->
       exists a b s,
         length extra = 3%nat /\ In (Rd32 FLASH_SR a) extra /\
         In (Rd32 FLASH_CR b) extra /\ In (OpGetStatus s) extra).

(** The chunks of a flash write in their order: every chunk is loaded and
    polled until the plan is done, or until the halt poll of one chunk
    gives up, which ends the run. *)
Inductive write_run (chunk : Z * Z -> bool -> list op -> Prop) :
  list (Z * Z) -> list op -> bool -> Prop :=
| run_done : write_run chunk [] [] true
| run_chunk c plan ops rest done :
    chunk c true ops -> write_run chunk plan rest done ->
    write_run chunk (c :: plan) (ops ++ rest) done
| run_gave_up c plan ops :
    chunk c false ops -> write_run chunk (c :: plan) ops false.

(** ** Verification against a file *)

(** [memcmp (a, b, n) == 0] on two byte strings of the same length. *)
Fixpoint memcmp_eq (a b : list Z) : bool :=
  match a, b with
  | [], [] => true
  | x :: a', y :: b' => (x =? y) && memcmp_eq a' b'
  | _, _ => false
  end.

Section FileTransfer.

Context {P : Type} {T : Transport P}.
Variable is_bigendian : bool.

(** The [while ((file_rdsize = read (fd, filebuf, sizeof filebuf)) > 0)]
    loop of [stlink_fverify].  [chunks] are the bytes the successive calls
    of [read] deliver and [last] is what [read] returns after them, 0 at
    the end of the file and negative on an error; [flashbuf] is the local
    buffer the target memory is read into. *)
Fixpoint fverify_chunks (fuel : nat) (sl : stlink P) (addr : Z)
         (chunks : list (list Z)) (last : Z) (flashbuf : list Z)
  : option (Z * stlink P) :=
  match chunks with
  | [] => Some (if last <? 0 then -1 else 0, sl)
  | filebuf :: rest =>
      let file_rdsize := Z.of_nat (length filebuf) in
      if file_rdsize >? 0 then
        match stl_read is_bigendian fuel sl addr flashbuf file_rdsize with
        | None => None
        | Some (flash_rdsize, flashbuf, sl) =>
            if negb (flash_rdsize =? 0) && negb (flash_rdsize =? file_rdsize)
            then Some (-1, sl)
            else if negb (memcmp_eq filebuf (load_bytes 0 file_rdsize flashbuf))
            then Some (-1, sl)
            else fverify_chunks fuel sl (u32 (addr + file_rdsize)) rest last
                                flashbuf
        end
      else Some (0, sl)
  end.

(** [stlink_fverify]: [file] is [None] when [open] fails. *)
Definition stlink_fverify (fuel : nat) (sl : stlink P)
           (file : option (list (list Z) * Z)) (addr : Z) (flashbuf : list Z)
  : option (Z * stlink P) :=
  match file with
  | None => Some (-1, sl)
  | Some (chunks, last) => fverify_chunks fuel sl addr chunks last flashbuf
  end.

End FileTransfer.

(** ** Peripheral display *)

(** The display functions of the peripheral tables.  They print the words
    read; [stm_show_CAN] alone sends further commands. *)
Inductive show_func :=
| arm_show_systick | stm_show_CAN | stm_show_DMA | stm_show_dev
| stm_show_LCD | stm_show_SPI | stm_show_timer | stm_show_USART.

(** [struct dev_peripheral], with the fields the tables initialise. *)
Record dev_peripheral := mk_dev {
  dp_name : string;
  dp_addr : Z;
  unit_num : Z;
  show_func1 : show_func;
  extent : Z
}.

Definition dev_per : list dev_peripheral := [
  mk_dev "SysTick" 0xE000E010 0 arm_show_systick 16;
  mk_dev "CAN1" 0x40006400 1 stm_show_CAN 32;
  mk_dev "CAN2" 0x40006800 2 stm_show_CAN 32;
  mk_dev "DMA1" 0x40020000 1 stm_show_DMA (8 + 20 * 7);
  mk_dev "DMA2" 0x40020400 2 stm_show_DMA (8 + 20 * 7);
  mk_dev "PORTA" 0x40010800 0 stm_show_dev 28;
  mk_dev "PORTB" 0x40010C00 0 stm_show_dev 28;
  mk_dev "PORTC" 0x40011000 0 stm_show_dev 28;
  mk_dev "PORTD" 0x40011400 0 stm_show_dev 28;
  mk_dev "PORTE" 0x40011800 0 stm_show_dev 28;
  mk_dev "PORTF" 0x40011C00 0 stm_show_dev 28;
  mk_dev "PORTG" 0x40012000 0 stm_show_dev 28;
  mk_dev "SPI1" 0x40013000 1 stm_show_SPI 36;
  mk_dev "SPI2" 0x40003800 2 stm_show_SPI 36;
  mk_dev "SPI3" 0x40003C00 3 stm_show_SPI 36;
  mk_dev "TIM1" 0x40012C00 1 stm_show_timer 76;
  mk_dev "TIM1a" 0x40010000 1 stm_show_timer 76;
  mk_dev "TIM2" 0x40000000 2 stm_show_timer 76;
  mk_dev "TIM3" 0x40000400 3 stm_show_timer 76;
  mk_dev "TIM4" 0x40000800 4 stm_show_timer 76;
  mk_dev "TIM5" 0x40000C00 5 stm_show_timer 76;
  mk_dev "TIM6" 0x40001000 6 stm_show_timer 76;
  mk_dev "TIM7" 0x40001400 7 stm_show_timer 76;
  mk_dev "TIM8" 0x40010400 8 stm_show_timer 76;
  mk_dev "TIM9" 0x40014000 9 stm_show_timer 76;
  mk_dev "TIM10" 0x40014400 10 stm_show_timer 76;
  mk_dev "TIM11" 0x40014800 11 stm_show_timer 76;
  mk_dev "TIM12" 0x40001800 12 stm_show_timer 76;
  mk_dev "TIM13" 0x40001C00 13 stm_show_timer 76;
  mk_dev "TIM14" 0x40002000 14 stm_show_timer 76;
  mk_dev "TIM15" 0x40014000 15 stm_show_timer 76;
  mk_dev "TIM16" 0x40014400 16 stm_show_timer 76;
  mk_dev "TIM17" 0x40014800 17 stm_show_timer 76;
  mk_dev "USART1" 0x40013800 1 stm_show_USART (7 * 4);
  mk_dev "USART2" 0x40004400 2 stm_show_USART (7 * 4);
  mk_dev "USART3" 0x40004800 3 stm_show_USART (7 * 4);
  mk_dev "USART4" 0x40004C00 4 stm_show_USART (7 * 4);
  mk_dev "USART5" 0x40005000 5 stm_show_USART (7 * 4);
  mk_dev "USART1a" 0x40011000 1 stm_show_USART (7 * 4);
  mk_dev "USART6" 0x40011400 6 stm_show_USART (7 * 4);
  mk_dev "I2C1" 0x40005400 1 stm_show_dev 36;
  mk_dev "I2C2" 0x40005800 2 stm_show_dev 36;
  mk_dev "I2C3" 0x40005C00 3 stm_show_dev 36;
  mk_dev "DAC" 0x40007400 3 stm_show_dev 56;
  mk_dev "GPIOA" 0x48000000 0 stm_show_dev 44;
  mk_dev "GPIOB" 0x48000400 0 stm_show_dev 44;
  mk_dev "GPIOC" 0x48000800 0 stm_show_dev 44;
  mk_dev "GPIOD" 0x48000C00 0 stm_show_dev 44;
  mk_dev "GPIOE" 0x48001000 0 stm_show_dev 44;
  mk_dev "GPIOF" 0x48001400 0 stm_show_dev 44
].

Definition dev_per_L1 : list dev_peripheral := [
  mk_dev "SysTick" 0xE000E010 0 arm_show_systick 16;
  mk_dev "LCD" 0x40002400 0 stm_show_LCD 84;
  mk_dev "PWR" 0x40007000 0 stm_show_dev 32;
  mk_dev "RI" 0x40007C00 0 stm_show_dev 32;
  mk_dev "OPAMP" 0x40007C5C 0 stm_show_dev 32;
  mk_dev "SYSCFG" 0x40010000 0 stm_show_dev 32;
  mk_dev "EXTI" 0x40010400 0 stm_show_dev 32;
  mk_dev "TIM9" 0x40010800 9 stm_show_timer 76;
  mk_dev "TIM10" 0x40010C00 10 stm_show_timer 76;
  mk_dev "TIM11" 0x40011000 11 stm_show_timer 76;
  mk_dev "ADC" 0x40012400 1 stm_show_dev 32;
  mk_dev "SDIO" 0x40012C00 1 stm_show_dev 32;
  mk_dev "CRC" 0x40023000 0 stm_show_dev 32;
  mk_dev "RCC" 0x40023800 0 stm_show_dev 56;
  mk_dev "FLASH" 0x40023C00 0 stm_show_dev 32;
  mk_dev "DMA1" 0x40026000 1 stm_show_DMA (8 + 20 * 7);
  mk_dev "DMA2" 0x40026400 2 stm_show_DMA (8 + 20 * 7);
  mk_dev "AES" 0x50060000 0 stm_show_dev 32;
  mk_dev "GPIOA" 0x40020000 0 stm_show_dev 44;
  mk_dev "GPIOB" 0x40020400 0 stm_show_dev 44;
  mk_dev "GPIOC" 0x40020800 0 stm_show_dev 44;
  mk_dev "GPIOD" 0x40020C00 0 stm_show_dev 44;
  mk_dev "GPIOE" 0x40021000 0 stm_show_dev 44;
  mk_dev "GPIOF" 0x40021800 0 stm_show_dev 44;
  mk_dev "GPIOG" 0x40021C00 0 stm_show_dev 44;
  mk_dev "GPIOH" 0x40021400 0 stm_show_dev 44
].

(** What the read commands rely on in a table entry: a word-aligned
    address with room for the FIFO offset below 2^32, and an extent of
    whole words that fits one block. *)
Definition dev_entry_ok (dp : dev_peripheral) : bool :=
  (0 <=? dp_addr dp) && (dp_addr dp + 0x180 <? 2 ^ 32)
  && (dp_addr dp mod 4 =? 0)
  && (0 <? extent dp) && (extent dp <=? READ_BLK_SIZE)
  && (extent dp mod 4 =? 0).

(** [tolower] and [strcasecmp (a, b) == 0] in the C locale. *)
Definition tolower (c : Ascii.ascii) : Ascii.ascii :=
  let n := Ascii.nat_of_ascii c in
  if (65 <=? n)%nat && (n <=? 90)%nat
  then Ascii.ascii_of_nat (n + 32) else c.

Fixpoint strcasecmp_eq (a b : string) : bool :=
  match a, b with
  | EmptyString, EmptyString => true
  | String x a', String y b' =>
      Ascii.eqb (tolower x) (tolower y) && strcasecmp_eq a' b'
  | _, _ => false
  end.

(** The first entry of a table whose name matches. *)
Fixpoint dev_find (tbl : list dev_peripheral) (cmd_name : string)
  : option dev_peripheral :=
  match tbl with
  | [] => None
  | dp :: tbl' =>
      if strcasecmp_eq (dp_name dp) cmd_name then Some dp
      else dev_find tbl' cmd_name
  end.

Section PeripheralDisplay.

Context {P : Type} {T : Transport P}.
Variable is_bigendian : bool.

(** The commands [dp->show_func1 (sl, dp, result)] sends. *)
Definition run_show_func (sl : stlink P) (dp : dev_peripheral) : stlink P :=
  match show_func1 dp with
  | stm_show_CAN =>
      let sl := snd (stl_rd32_cmd is_bigendian sl (u32 (dp_addr dp + 0x180)) 80) in
      let sl := snd (stl_rd32_cmd is_bigendian sl 0x40006600 32) in
      snd (stl_rd32_cmd is_bigendian sl 0x40006640 32)
  | _ => sl
  end.

(** The body shared by the two loops of [stm32_dev_show] once the name
    has matched. *)
Definition dev_show_entry (sl : stlink P) (dp : dev_peripheral)
  : Z * stlink P :=
  let sl := if negb (extent dp =? 0)
            then snd (stl_rd32_cmd is_bigendian sl (dp_addr dp)
                                   (u16 (extent dp)))
            else sl in
  (0, run_show_func sl dp).

Definition stm32_dev_show (sl : stlink P) (cmd_name : string)
  : Z * stlink P :=
  let l1 :=
    if negb (Z.land (cap_flags (devid (chip_index sl))) ChipCapL1Addrs =? 0)
    then dev_find dev_per_L1 cmd_name else None in
  match l1 with
  | Some dp => dev_show_entry sl dp
  | None =>
      match dev_find dev_per cmd_name with
      | Some dp => dev_show_entry sl dp
      | None => (-1, sl)
      end
  end.

End PeripheralDisplay.

(** * Properties *)

(** ** Bytes and byte order *)

Lemma le_combine_split (n : nat) (v : Z) :
  le_combine (le_split n v) = v mod 2 ^ (8 * Z.of_nat n).
Proof.
  revert v; induction n as [|n IH]; intros v.
  - cbn. now rewrite Z.mod_1_r.
  - cbn [le_split le_combine]. rewrite IH.
    replace (8 * Z.of_nat (S n)) with (8 + 8 * Z.of_nat n) by lia.
    rewrite Z.pow_add_r by lia.
    change (2 ^ 8) with 256.
    rewrite Z.shiftr_div_pow2 by lia. change (2 ^ 8) with 256.
    change 255 with (Z.ones 8). rewrite Z.land_ones by lia.
    change (2 ^ 8) with 256.
    rewrite (Z.rem_mul_r v 256 (2 ^ (8 * Z.of_nat n))); lia.
Qed.

Lemma le_split_length (n : nat) (v : Z) : length (le_split n v) = n.
Proof. revert v; induction n; intros; cbn; auto. Qed.

Lemma write_uint32_le (be : bool) (buf : list Z) (off ui : Z) :
  write_uint32 be buf off ui = store_bytes off (le_split 4 ui) buf.
Proof. destruct be; reflexivity. Qed.

Lemma write_uint16_le (be : bool) (buf : list Z) (off ui : Z) :
  write_uint16 be buf off ui = store_bytes off (le_split 2 ui) buf.
Proof. destruct be; reflexivity. Qed.

Lemma read_uint32_le (be : bool) (c : list Z) (pt : Z) :
  read_uint32 be c pt =
  le_combine [byte_at c pt; byte_at c (pt + 1); byte_at c (pt + 2);
              byte_at c (pt + 3)].
Proof. destruct be; reflexivity. Qed.

Lemma obj_value_repr (be : bool) (n : nat) (v : Z) :
  obj_value be (obj_repr be n v) = v mod 2 ^ (8 * Z.of_nat n).
Proof.
  unfold obj_value, obj_repr; destruct be.
  - rewrite rev_involutive. apply le_combine_split.
  - apply le_combine_split.
Qed.

Lemma shiftr_clear_low2 (a n : Z) :
  2 <= n -> Z.shiftr (clear_low2 a) n = Z.shiftr a n.
Proof.
  intros Hn. unfold clear_low2. apply Z.bits_inj'. intros k Hk.
  rewrite !Z.shiftr_spec, Z.land_spec, Z.lnot_spec by lia.
  change 3 with (Z.ones 2). rewrite Z.ones_spec_high by lia.
  cbn. apply andb_true_r.
Qed.

(** The address a read command carries: [stl_rd32_cmd] writes [addr & ~3]
    and [stlink_cmd] then overwrites its low byte with that of [addr]. *)
Lemma rd32_wire_address (a : Z) :
  0 <= a < 2 ^ 32 ->
  le_combine (u8 a :: skipn 1 (le_split 4 (clear_low2 a))) = a.
Proof.
  intros Ha.
  assert (E : le_combine (le_split 4 a) = a).
  { rewrite le_combine_split. apply Z.mod_small. exact Ha. }
  transitivity (le_combine (le_split 4 a)); [|exact E].
  cbn [le_split skipn].
  rewrite (shiftr_clear_low2 a 8) by lia.
  unfold u8. change 255 with (Z.ones 8). rewrite (Z.land_ones a 8) by lia.
  reflexivity.
Qed.

Lemma u32_small (a : Z) : 0 <= a < 2 ^ 32 -> u32 a = a.
Proof. intros; unfold u32; apply Z.mod_small; assumption. Qed.

Lemma u32_range (a : Z) : 0 <= u32 a < 2 ^ 32.
Proof. unfold u32. apply Z.mod_pos_bound. reflexivity. Qed.

Lemma u16_range (a : Z) : 0 <= u16 a < 2 ^ 16.
Proof. unfold u16. apply Z.mod_pos_bound. reflexivity. Qed.

(** ** The primitives, one exchange at a time *)

Ltac split_cmd_buf H :=
  match type of H with
  | length ?c = _ =>
      do 10 (destruct c as [|? c]; [discriminate H|]);
      destruct c; [|discriminate H]
  end.

Ltac name_bytes n v :=
  let H := fresh "Hlen" in
  let E := fresh "Ebytes" in
  pose proof (le_split_length n v) as H;
  destruct (le_split n v) as [|? [|? [|? [|? [|? ?]]]]] eqn:E;
  try discriminate H; clear H.

Ltac open_session sl Hwf :=
  let cb := fresh "cb" in
  destruct sl as [? ? ? ? ? cb ? ? ? ?];
  unfold wf_session in Hwf; cbn [cmd_buf] in Hwf; split_cmd_buf Hwf.

Ltac norm_app := repeat (progress (cbn [app]; rewrite <- ?app_assoc)).

Ltac session_fields :=
  cbn [set_cmd_byte set_cmd_buf set_cmd_len set_data_len set_data_buf
       set_xfer_dir set_link verbose chip_index cpu_idcode xfer_dir cmd_len
       cmd_buf data_len data_buf usb_hand wire fst snd].

Section Primitives.

Context {P : Type} {T : Transport P}.
Variable be : bool.

Lemma frame_refl (sl : stlink P) : wf_session sl -> frame sl sl [].
Proof.
  intros H; repeat split; auto. exists []. now rewrite app_nil_r.
Qed.

Lemma frame_trans (a b c : stlink P) (o1 o2 : list op) :
  frame a b o1 -> frame b c o2 -> frame a c (o1 ++ o2).
Proof.
  intros ((e1 & W1 & D1) & _ & V1 & C1) ((e2 & W2 & D2) & F2 & V2 & C2).
  repeat split; auto; try congruence.
  exists (e1 ++ e2). rewrite W2, W1, <- app_assoc, map_app. now subst.
Qed.

Lemma frame_ops_since (a b : stlink P) (ops : list op) :
  frame a b ops -> ops_since a b = ops.
Proof.
  intros ((e & W & D) & _). unfold ops_since. rewrite W.
  rewrite skipn_app, skipn_all, Nat.sub_diag. exact D.
Qed.

Lemma frame_wf (a b : stlink P) (ops : list op) :
  frame a b ops -> wf_session b.
Proof. intros (_ & H & _); exact H. Qed.

Lemma sl_wr32_frame (sl : stlink P) (addr val : Z) :
  wf_session sl -> 0 <= addr < 2 ^ 32 ->
  frame sl (sl_wr32 be sl addr val) [Wr32 addr (u32 val)].
Proof.
  intros Hwf Ha. open_session sl Hwf.
  unfold frame, sl_wr32, stl_wr32_cmd, Wr32.
  rewrite !write_uint32_le, !write_uint16_le, (u32_small addr Ha).
  assert (Ea : le_combine (le_split 4 addr) = addr).
  { rewrite le_combine_split. apply Z.mod_small; exact Ha. }
  name_bytes 4%nat addr. name_bytes 4%nat (u32 val).
  repeat split.
  eexists [_]; split; [reflexivity|].
  rewrite <- Ea. reflexivity.
Qed.

Lemma sl_rd32_frame (sl : stlink P) (addr : Z) :
  wf_session sl -> 0 <= addr < 2 ^ 32 ->
  exists got,
    frame sl (snd (sl_rd32 be sl addr)) [OpReadMem32 addr 4 got] /\
    fst (sl_rd32 be sl addr) = rd32_value be got.
Proof.
  intros Hwf Ha. open_session sl Hwf.
  unfold frame, sl_rd32, stl_rd32_cmd, stlink_cmd, stl_do_cmd.
  rewrite !write_uint32_le, !write_uint16_le, (u32_small addr Ha).
  pose proof (rd32_wire_address addr Ha) as Ea.
  name_bytes 4%nat (clear_low2 addr).
  cbn [skipn] in Ea.
  session_fields.
  change (4 =? 0) with false. cbv iota.
  destruct (libusb_bulk_transfer _ USB_PIPE_IN [] 4) as [h2 reply].
  exists (load_bytes 0 4 reply).
  repeat split.
  - eexists [_]; split; [reflexivity|]. rewrite <- Ea at 2. reflexivity.
  - destruct reply as [|r0 [|r1 [|r2 [|r3 r]]]]; reflexivity.
Qed.

(** A status-returning command leaves [data_buf] alone from byte 14 on. *)
Lemma stl_get_status_frame (sl : stlink P) :
  wf_session sl ->
  exists got,
    frame sl (snd (stl_get_status be sl)) [OpGetStatus got] /\
    fst (stl_get_status be sl) = status_value be got /\
    skipn 14 (data_buf (snd (stl_get_status be sl))) = skipn 14 (data_buf sl).
Proof.
  intros Hwf. open_session sl Hwf.
  unfold frame, stl_get_status, stlink_cmd, stl_do_cmd.
  session_fields.
  change (2 =? 0) with false. cbv iota.
  destruct (libusb_bulk_transfer _ USB_PIPE_IN [] 2) as [h2 reply].
  exists (load_bytes 0 2 reply).
  repeat split.
  - eexists [_]; split; reflexivity.
  - destruct reply as [|r0 [|r1 r]]; reflexivity.
  - destruct reply as [|r0 [|r1 r]]; reflexivity.
Qed.

Lemma stl_state_run_frame (sl : stlink P) :
  wf_session sl ->
  frame sl (snd (stl_state_run be sl)) [OpRunCore] /\
  skipn 14 (data_buf (snd (stl_state_run be sl))) = skipn 14 (data_buf sl).
Proof.
  intros Hwf. open_session sl Hwf.
  unfold frame, stl_state_run, stlink_cmd, stl_do_cmd.
  session_fields.
  change (2 =? 0) with false. cbv iota.
  destruct (libusb_bulk_transfer _ USB_PIPE_IN [] 2) as [h2 reply].
  repeat split.
  - eexists [_]; split; reflexivity.
  - destruct reply as [|r0 [|r1 r]]; reflexivity.
Qed.

Lemma stl_write_reg_frame (sl : stlink P) (val idx : Z) :
  wf_session sl -> 0 <= val < 2 ^ 32 -> 0 <= idx < 256 ->
  frame sl (stl_write_reg be sl val idx) [OpWriteReg idx val] /\
  skipn 14 (data_buf (stl_write_reg be sl val idx)) = skipn 14 (data_buf sl).
Proof.
  intros Hwf Hv Hi. open_session sl Hwf.
  unfold frame, stl_write_reg, stlink_cmd, stl_do_cmd.
  rewrite !write_uint32_le, (u32_small val Hv).
  assert (Ev : le_combine (le_split 4 val) = val).
  { rewrite le_combine_split. apply Z.mod_small; exact Hv. }
  assert (Ei : u8 idx = idx) by (unfold u8; apply Z.mod_small; exact Hi).
  name_bytes 4%nat val.
  session_fields.
  change (2 =? 0) with false. cbv iota.
  destruct (libusb_bulk_transfer _ USB_PIPE_IN [] 2) as [h2 reply].
  repeat split.
  - eexists [_]; split; [reflexivity|].
    rewrite Ei, <- Ev. reflexivity.
  - destruct reply as [|r0 [|r1 r]]; reflexivity.
Qed.

Lemma stl_get_core_id_frame (sl : stlink P) :
  wf_session sl ->
  exists got,
    frame sl (snd (stl_get_core_id be sl)) [OpReadCoreID got] /\
    fst (stl_get_core_id be sl) = int_of_u32 (le_combine (reply_bytes 4 got)).
Proof.
  intros Hwf. open_session sl Hwf.
  unfold frame, stl_get_core_id, stlink_cmd, stl_do_cmd.
  rewrite read_uint32_le.
  session_fields.
  change (4 =? 0) with false. cbv iota.
  destruct (libusb_bulk_transfer _ USB_PIPE_IN [] 4) as [h2 reply].
  exists (load_bytes 0 4 reply).
  repeat split.
  - eexists [_]; split; reflexivity.
  - destruct reply as [|r0 [|r1 [|r2 [|r3 r]]]]; reflexivity.
Qed.

(** [stl_wr32_cmd] sends the first [len] bytes of [data_buf], or nothing
    at all, and does not touch [data_buf]. *)
Lemma stl_wr32_cmd_frame (sl : stlink P) (addr len : Z) :
  wf_session sl -> 0 <= addr < 2 ^ 32 -> 0 <= len < 2 ^ 16 ->
  frame sl (snd (stl_wr32_cmd be sl addr len))
        (upload_ops addr len (load_bytes 0 len (data_buf sl))) /\
  data_buf (snd (stl_wr32_cmd be sl addr len)) = data_buf sl.
Proof.
  intros Hwf Ha Hl.
  unfold stl_wr32_cmd, upload_ops.
  destruct (Z.land len 3 =? 0); [|destruct (len <? 64)].
  3: { open_session sl Hwf. unfold frame. repeat split.
       exists []. cbn. now rewrite app_nil_r. }
  all: open_session sl Hwf; unfold frame;
    rewrite !write_uint32_le, !write_uint16_le;
    assert (Ea : le_combine (le_split 4 addr) = addr)
      by (rewrite le_combine_split; apply Z.mod_small; exact Ha);
    assert (El : le_combine (le_split 2 len) = len)
      by (rewrite le_combine_split; apply Z.mod_small; exact Hl);
    name_bytes 4%nat addr; name_bytes 2%nat len;
    repeat split;
    eexists [_]; (split; [reflexivity|]);
    cbn [map]; f_equal;
    match goal with
    | |- _ = ?c _ _ ?d =>
        transitivity (c (le_combine [z9; z10; z11; z12])
                        (le_combine [z13; z14]) d);
        [reflexivity | rewrite Ea, El; reflexivity]
    end.
Qed.

End Primitives.

(** ** The loader builder *)

Section Loader.

Context {P : Type} {T : Transport P}.
Variable be : bool.

Lemma loader_program_cases (chip : stm_chip_params) :
  loader_program chip = db_loader_code \/ loader_program chip = f4_loader_code.
Proof.
  unfold loader_program.
  destruct (negb (Z.land (cap_flags chip) ChipCapF4Flash =? 0)); auto.
Qed.

(** Both programs are 60 bytes long, parameter block included. *)
Lemma loader_program_size (chip : stm_chip_params) :
  sizeof16 (loader_program chip) = 60.
Proof. destruct (loader_program_cases chip) as [E|E]; rewrite E; reflexivity. Qed.

(** The send buffer after [stl_loader] has laid out the image. *)
Lemma loader_layout (chip : stm_chip_params) (flash_addr size : Z)
      (buf db : list Z) :
  let code := loader_program chip in
  let offset := sizeof16 code in
  store_bytes offset (load_bytes 0 size buf)
    (store_bytes (offset - 4) (obj_repr be 4 (u32 (Z.shiftr size 1)))
      (store_bytes (offset - 8) (obj_repr be 4 flash_addr)
        (store_bytes (offset - 12)
           (obj_repr be 4 (u32 (sram_base (devid 0) + offset)))
          (store_bytes (offset - 16)
             (obj_repr be 4 (loader_ctrl_base chip flash_addr))
            (store_bytes 0 (load_bytes 0 offset (array16 be code)) db)))))
  = loader_image be chip flash_addr buf size
    ++ skipn (length (loader_image be chip flash_addr buf size)) db.
Proof.
  intros code offset. subst code offset. unfold loader_image.
  rewrite !loader_program_size.
  generalize (loader_ctrl_base chip flash_addr); intros ctrl.
  generalize (load_bytes 0 size buf); intros pl.
  unfold obj_repr.
  name_bytes 4%nat ctrl. name_bytes 4%nat flash_addr.
  name_bytes 4%nat (u32 (Z.shiftr size 1)).
  name_bytes 4%nat (u32 (sram_base (devid 0) + 60)).
  assert (S : forall n, skipn n (skipn 60 db) = skipn (60 + n) db).
  { intros n. rewrite skipn_skipn. f_equal. lia. }
  change (60 - 4) with 56; change (60 - 8) with 52;
  change (60 - 12) with 48; change (60 - 16) with 44.
  unfold store_bytes, load_bytes.
  change (Z.to_nat 0) with 0%nat; change (Z.to_nat 44) with 44%nat;
  change (Z.to_nat 48) with 48%nat; change (Z.to_nat 52) with 52%nat;
  change (Z.to_nat 56) with 56%nat; change (Z.to_nat 60) with 60%nat.
  destruct (loader_program_cases chip) as [E|E]; rewrite E;
    destruct be;
    match goal with
    | |- context [array16 ?b ?c] =>
        let v := eval vm_compute in (array16 b c) in
        change (array16 b c) with v
    end;
    cbn [firstn skipn app length Nat.add rev];
    rewrite S; reflexivity.
Qed.

Lemma frame_set_data_buf (sl : stlink P) (db : list Z) :
  wf_session sl -> frame sl (set_data_buf sl db) [].
Proof.
  intros H. destruct sl. unfold frame, wf_session in *. cbn in *.
  repeat split; auto. exists []. now rewrite app_nil_r.
Qed.

(** What one call of [stl_loader] sends, and what it leaves in the send
    buffer past the bytes the status replies overwrite. *)
Lemma stl_loader_spec (sl : stlink P) (flash_addr size : Z) (buf : list Z) :
  wf_session sl -> 0 <= flash_addr < 2 ^ 32 -> 0 <= size <= 4096 ->
  let chip := devid (chip_index sl) in
  let prog_base := sram_base (devid 0) in
  let laid := loader_image be chip flash_addr buf size
              ++ skipn (length (loader_image be chip flash_addr buf size))
                       (data_buf sl) in
  frame sl (snd (stl_loader be sl flash_addr buf size))
        (upload_ops prog_base (60 + size) (load_bytes 0 (60 + size) laid)
         ++ [OpWriteReg 15 prog_base; OpRunCore]) /\
  skipn 14 (data_buf (snd (stl_loader be sl flash_addr buf size)))
  = skipn 14 laid.
Proof.
  intros Hwf Ha Hs chip prog_base laid.
  unfold stl_loader. fold chip. fold prog_base.
  set (code := loader_program chip).
  set (offset := sizeof16 code).
  assert (Eo : offset = 60) by apply loader_program_size.
  match goal with
  | |- context [stl_wr32_cmd be ?s _ _] => set (sl1 := s)
  end.
  assert (E1 : sl1 = set_data_buf sl laid).
  { subst sl1 laid. rewrite <- (loader_layout chip flash_addr size buf).
    fold code. fold offset. destruct sl. reflexivity. }
  clearbody sl1. subst sl1.
  assert (F1 : frame sl (set_data_buf sl laid) [])
    by (apply frame_set_data_buf; exact Hwf).
  assert (El : u16 (offset + size) = 60 + size).
  { rewrite Eo. unfold u16. apply Z.mod_small. lia. }
  rewrite El.
  assert (Hb : 0 <= prog_base < 2 ^ 32) by (subst prog_base; cbn; lia).
  destruct (stl_wr32_cmd_frame be (set_data_buf sl laid) prog_base (60 + size))
    as [F2 D2]; [eapply frame_wf; eauto | exact Hb | lia |].
  set (sl2 := snd (stl_wr32_cmd be (set_data_buf sl laid) prog_base (60 + size))) in *.
  destruct (stl_write_reg_frame be sl2 prog_base 15) as [F3 D3];
    [eapply frame_wf; eauto | exact Hb | lia |].
  set (sl3 := stl_write_reg be sl2 prog_base 15) in *.
  destruct (stl_state_run_frame be sl3) as [F4 D4];
    [eapply frame_wf; eauto |].
  cbn [snd]. split.
  - replace (data_buf (set_data_buf sl laid)) with laid in F2
      by (destruct sl; reflexivity).
    pose proof (frame_trans _ _ _ _ _ F1
                 (frame_trans _ _ _ _ _ F2 (frame_trans _ _ _ _ _ F3 F4))) as F.
    cbn [app] in F. exact F.
  - rewrite D4, D3, D2. destruct sl; reflexivity.
Qed.

End Loader.

(** ** The polling loops *)

Section Loops.

Context {P : Type} {T : Transport P}.
Variable be : bool.

(** Diagnostic reads put only reads on the wire. *)
Lemma diag_reads_frame (addrs : list Z) (sl : stlink P) :
  wf_session sl -> Forall (fun a => 0 <= a < 2 ^ 32) addrs ->
  exists gots,
    frame sl (diag_reads be sl addrs)
          (map (fun ag => Rd32 (fst ag) (snd ag)) (combine addrs gots)) /\
    length gots = length addrs.
Proof.
  revert sl. induction addrs as [|a addrs IH]; intros sl Hwf Hr.
  - exists []. split; [apply frame_refl; exact Hwf | reflexivity].
  - inversion Hr as [|? ? Ha Hr']; subst.
    destruct (sl_rd32_frame be sl a Hwf Ha) as (got & F & _).
    destruct (IH (snd (sl_rd32 be sl a)) (frame_wf _ _ _ F) Hr')
      as (gots & F' & L).
    exists (got :: gots). split; [|cbn; now rewrite L].
    cbn [diag_reads fold_left combine map fst snd].
    exact (frame_trans _ _ _ _ _ F F').
Qed.

(** The erase poll returns within its cap: it reads the status register
    at least once and at most until the check count reaches 1000; every
    status read before the last has the busy bit set, and the last one
    either has it clear or is the 1000th check. *)
Lemma erase_poll_spec (fuel : nat) (sl : stlink P) (sr bsy i : Z) :
  wf_session sl -> 0 <= sr < 2 ^ 32 -> 0 <= i < 1000 ->
  1000 - i <= Z.of_nat fuel ->
  exists busy final sl',
    erase_poll be fuel sl sr bsy i
    = Some (sr_value be final, i + Z.of_nat (length busy) + 1, sl') /\
    frame sl sl' (map (Rd32 sr) busy ++ [Rd32 sr final]) /\
    Forall (fun g => Z.land (sr_value be g) bsy <> 0) busy /\
    i + Z.of_nat (length busy) + 1 <= 1000 /\
    (Z.land (sr_value be final) bsy = 0 \/
     i + Z.of_nat (length busy) + 1 = 1000).
Proof.
  revert sl i. induction fuel as [|fuel IH]; intros sl i Hwf Hsr Hi Hf.
  - lia.
  - cbn [erase_poll].
    destruct (sl_rd32_frame be sl sr Hwf Hsr) as (got & F & V).
    destruct (sl_rd32 be sl sr) as [v sl1] eqn:E. cbn [fst snd] in F, V.
    fold (rd32_value be got) in V. subst v. fold (sr_value be got).
    destruct (negb (Z.land (sr_value be got) bsy =? 0) && (i + 1 <? 1000))
             eqn:C.
    + apply andb_true_iff in C. destruct C as [C1 C2].
      apply negb_true_iff, Z.eqb_neq in C1. apply Z.ltb_lt in C2.
      destruct (IH sl1 (i + 1) (frame_wf _ _ _ F) Hsr ltac:(lia) ltac:(lia))
        as (busy & final & sl' & R & F' & B & L & D).
      exists (got :: busy), final, sl'.
      rewrite R. cbn [length map app]. rewrite Nat2Z.inj_succ.
      split; [|split; [|split; [|split]]].
      * do 3 f_equal. lia.
      * exact (frame_trans _ _ _ _ _ F F').
      * constructor; assumption.
      * lia.
      * destruct D as [D|D]; [left; exact D | right; lia].
    + exists [], got, sl1. cbn [length map app].
      replace (i + Z.of_nat 0 + 1) with (i + 1) by lia.
      split; [reflexivity|]. split; [exact F|].
      split; [constructor|]. split; [lia|].
      apply andb_false_iff in C. destruct C as [C|C].
      * left. apply negb_false_iff, Z.eqb_eq in C. exact C.
      * right. apply Z.ltb_ge in C. lia.
Qed.

End Loops.

(** ** Flash controller drivers *)

Section Erase.

Context {P : Type} {T : Transport P}.
Variable be : bool.

Lemma diag_reads_no_write (addrs : list Z) (gots : list (list Z)) :
  filter is_write
         (map (fun ag : Z * list Z => Rd32 (fst ag) (snd ag))
              (combine addrs gots)) = [].
Proof.
  revert gots; induction addrs as [|a addrs IH]; intros [|g gots]; cbn; auto.
Qed.

(** The diagnostic reads that [verbose] switches on. *)
Lemma optional_diag_frame (c : bool) (addrs : list Z) (sl : stlink P) :
  wf_session sl -> Forall (fun a => 0 <= a < 2 ^ 32) addrs ->
  exists diag,
    frame sl (if c then diag_reads be sl addrs else sl) diag /\
    filter is_write diag = [] /\
    forallb (fun o => match o with
                      | OpReadMem32 a _ _ => existsb (Z.eqb a) addrs
                      | _ => false
                      end) diag = true.
Proof.
  intros Hwf Hr. destruct c.
  - destruct (diag_reads_frame be addrs sl Hwf Hr) as (gots & F & L).
    eexists. split; [exact F|]. split; [apply diag_reads_no_write|].
    clear F Hr. revert gots L.
    assert (G : forall pre gots,
               forallb (fun o => match o with
                                 | OpReadMem32 a _ _ =>
                                     existsb (Z.eqb a) (pre ++ addrs)
                                 | _ => false
                                 end)
                       (map (fun ag : Z * list Z => Rd32 (fst ag) (snd ag))
                            (combine addrs gots)) = true).
    { induction addrs as [|a addrs IH]; intros pre [|g gots]; cbn; auto.
      rewrite existsb_app. cbn. rewrite Z.eqb_refl, orb_true_r. cbn.
      specialize (IH (pre ++ [a]) gots). rewrite <- app_assoc in IH.
      exact IH. }
    intros gots _. apply (G [] gots).
  - exists []. split; [apply frame_refl; exact Hwf|]. split; reflexivity.
Qed.

(** C6.  An F1 page erase at an address other than the mass-erase
    sentinel sends, as its only writes and in this order, KEY1 and KEY2 to
    FLASH_KEYR, EOP|WRPRTERR|PGERR to FLASH_SR, the page address to
    FLASH_AR, PER to FLASH_CR and STRT|PER to FLASH_CR.  It then reads
    FLASH_SR until the busy bit is clear, at most 1000 times, and returns
    0 (success) exactly when EOP is set in the last status read, and 1
    otherwise.  The function returns for every probe. *)
Theorem stl_f1_flash_erase_page_sequence
        (fuel : nat) (sl : stlink P) (addr_page : Z) :
  wf_session sl -> 0 <= addr_page < 2 ^ 32 -> addr_page <> 0xa11 ->
  (1000 <= fuel)%nat ->
  exists ret sl' diag busy final tail,
    stl_f1_flash_erase be fuel sl addr_page = Some (ret, sl') /\
    ops_since sl sl' =
      [Wr32 FLASH_KEYR FLASH_KEY1; Wr32 FLASH_KEYR FLASH_KEY2;
       Wr32 FLASH_SR (Z.lor (Z.lor FLASH_SR_EOP FLASH_SR_WRPRTERR)
                            FLASH_SR_PGERR)]
      ++ diag
      ++ [Wr32 FLASH_AR addr_page; Wr32 FLASH_CR FLASH_CR_PER;
          Wr32 FLASH_CR (Z.lor FLASH_CR_STRT FLASH_CR_PER)]
      ++ map (Rd32 FLASH_SR) busy ++ [Rd32 FLASH_SR final] ++ tail /\
    filter is_write diag = [] /\
    filter is_write tail = [] /\
    Forall (fun g => Z.land (sr_value be g) FLASH_SR_BSY <> 0) busy /\
    (length busy < 1000)%nat /\
    (Z.land (sr_value be final) FLASH_SR_BSY = 0 \/ length busy = 999%nat) /\
    (ret = 0 \/ ret = 1) /\
    (ret = 0 <-> Z.land (sr_value be final) FLASH_SR_EOP <> 0).
Proof.
  intros Hwf Ha Hn Hf.
  unfold stl_f1_flash_erase.
  assert (RK : 0 <= FLASH_KEYR < 2 ^ 32) by (cbn; lia).
  assert (RS : 0 <= FLASH_SR < 2 ^ 32) by (cbn; lia).
  assert (RC : 0 <= FLASH_CR < 2 ^ 32) by (cbn; lia).
  assert (RA : 0 <= FLASH_AR < 2 ^ 32) by (cbn; lia).
  pose proof (sl_wr32_frame be sl FLASH_KEYR FLASH_KEY1 Hwf RK) as F1.
  set (sl1 := sl_wr32 be sl FLASH_KEYR FLASH_KEY1) in *.
  pose proof (sl_wr32_frame be sl1 FLASH_KEYR FLASH_KEY2 (frame_wf _ _ _ F1) RK)
    as F2.
  set (sl2 := sl_wr32 be sl1 FLASH_KEYR FLASH_KEY2) in *.
  pose proof (sl_wr32_frame be sl2 FLASH_SR
                (Z.lor (Z.lor FLASH_SR_EOP FLASH_SR_WRPRTERR) FLASH_SR_PGERR)
                (frame_wf _ _ _ F2) RS) as F3.
  set (sl3 := sl_wr32 be sl2 FLASH_SR _) in *.
  destruct (optional_diag_frame (verbose sl3 >? 1) [FLASH_SR; FLASH_CR] sl3
              (frame_wf _ _ _ F3)) as (diag & F4 & W4 & _).
  { repeat constructor; cbn; lia. }
  set (sl4 := if verbose sl3 >? 1 then _ else sl3) in *.
  apply Z.eqb_neq in Hn. rewrite Hn.
  pose proof (sl_wr32_frame be sl4 FLASH_AR addr_page (frame_wf _ _ _ F4) RA)
    as F5.
  set (sl5 := sl_wr32 be sl4 FLASH_AR addr_page) in *.
  pose proof (sl_wr32_frame be sl5 FLASH_CR FLASH_CR_PER (frame_wf _ _ _ F5) RC)
    as F6.
  set (sl6 := sl_wr32 be sl5 FLASH_CR FLASH_CR_PER) in *.
  pose proof (sl_wr32_frame be sl6 FLASH_CR (Z.lor FLASH_CR_STRT FLASH_CR_PER)
                (frame_wf _ _ _ F6) RC) as F7.
  set (sl7 := sl_wr32 be sl6 FLASH_CR _) in *.
  destruct (erase_poll_spec be fuel sl7 FLASH_SR FLASH_SR_BSY 0
              (frame_wf _ _ _ F7) RS ltac:(lia) ltac:(lia))
    as (busy & final & sl8 & R & F8 & B & L & D).
  rewrite R.
  rewrite (u32_small addr_page Ha) in F5.
  pose proof (frame_trans _ _ _ _ _ F1
               (frame_trans _ _ _ _ _ F2
                 (frame_trans _ _ _ _ _ F3
                   (frame_trans _ _ _ _ _ F4
                     (frame_trans _ _ _ _ _ F5
                       (frame_trans _ _ _ _ _ F6
                         (frame_trans _ _ _ _ _ F7 F8))))))) as F.
  cbn [app] in F.
  destruct (Z.land (sr_value be final) FLASH_SR_EOP =? 0) eqn:C.
  - destruct (diag_reads_frame be [FLASH_SR] sl8 (frame_wf _ _ _ F8))
      as (gots & F9 & L9).
    { repeat constructor; cbn; lia. }
    pose proof (frame_trans _ _ _ _ _ F F9) as F'.
    exists 1, (diag_reads be sl8 [FLASH_SR]), diag, busy, final.
    exists (map (fun ag : Z * list Z => Rd32 (fst ag) (snd ag))
                (combine [FLASH_SR] gots)).
    split; [reflexivity|]. split.
    + rewrite (frame_ops_since _ _ _ F'). cbn [app].
      norm_app. reflexivity.
    + split; [exact W4|]. split; [apply diag_reads_no_write|].
      split; [exact B|]. split; [lia|].
      split; [destruct D; [left; assumption | right; lia]|].
      split; [right; reflexivity|].
      apply Z.eqb_eq in C. split; intros H; [discriminate H | contradiction].
  - exists 0, sl8, diag, busy, final, [].
    split; [reflexivity|]. split.
    + rewrite (frame_ops_since _ _ _ F). cbn [app].
      norm_app. reflexivity.
    + split; [exact W4|]. split; [reflexivity|].
      split; [exact B|]. split; [lia|].
      split; [destruct D; [left; assumption | right; lia]|].
      split; [left; reflexivity|].
      apply Z.eqb_neq in C. split; intros H; [exact C | reflexivity].
Qed.

(** The F4 and L1 drivers return 0 whatever the probe answers: the status
    they polled never reaches their result. *)
Lemma stl_f4_flash_erase_returns_0
      (fuel : nat) (sl : stlink P) (addr_page : Z) :
  wf_session sl -> (1000 <= fuel)%nat ->
  exists sl', stl_f4_flash_erase be fuel sl addr_page = Some (0, sl').
Proof.
  intros Hwf Hf. unfold stl_f4_flash_erase.
  assert (RK : 0 <= F4_FLASH_KEYR < 2 ^ 32) by (cbn; lia).
  assert (RS : 0 <= F4_FLASH_SR < 2 ^ 32) by (cbn; lia).
  assert (RC : 0 <= F4_FLASH_CR < 2 ^ 32) by (cbn; lia).
  assert (RD : Forall (fun a => 0 <= a < 2 ^ 32) [F4_FLASH_SR; F4_FLASH_CR])
    by (repeat constructor; cbn; lia).
  destruct (optional_diag_frame (verbose sl >? 1) [F4_FLASH_SR; F4_FLASH_CR] sl
              Hwf RD) as (d0 & F0 & _).
  set (sl0 := if verbose sl >? 1 then _ else sl) in *.
  pose proof (sl_wr32_frame be sl0 F4_FLASH_KEYR FLASH_KEY1 (frame_wf _ _ _ F0) RK)
    as F1.
  set (sl1 := sl_wr32 be sl0 F4_FLASH_KEYR FLASH_KEY1) in *.
  pose proof (sl_wr32_frame be sl1 F4_FLASH_KEYR FLASH_KEY2 (frame_wf _ _ _ F1) RK)
    as F2.
  set (sl2 := sl_wr32 be sl1 F4_FLASH_KEYR FLASH_KEY2) in *.
  pose proof (sl_wr32_frame be sl2 F4_FLASH_SR 0xF3 (frame_wf _ _ _ F2) RS) as F3.
  set (sl3 := sl_wr32 be sl2 F4_FLASH_SR 0xF3) in *.
  destruct (optional_diag_frame (verbose sl3 >? 1) [F4_FLASH_SR; F4_FLASH_CR] sl3
              (frame_wf _ _ _ F3) RD) as (d4 & F4 & _).
  set (sl4 := if verbose sl3 >? 1 then _ else sl3) in *.
  assert (W : wf_session
                (if addr_page =? 0xa11
                 then sl_wr32 be (sl_wr32 be sl4 F4_FLASH_CR FLASH_CR_MER)
                              F4_FLASH_CR (Z.lor F4_FLASH_CR_STRT FLASH_CR_MER)
                 else sl_wr32 be
                        (sl_wr32 be sl4 F4_FLASH_CR
                           (Z.lor 0x00202 (Z.shiftl (Z.land addr_page 0x0f) 3)))
                        F4_FLASH_CR
                        (Z.lor 0x10202 (Z.shiftl (Z.land addr_page 0x0f) 3)))).
  { destruct (addr_page =? 0xa11);
      eapply frame_wf; apply sl_wr32_frame; [|exact RC| |exact RC];
      eapply frame_wf; apply sl_wr32_frame;
      [eapply frame_wf; exact F4 | exact RC
      |eapply frame_wf; exact F4 | exact RC]. }
  destruct (erase_poll_spec be fuel _ F4_FLASH_SR F4_FLASH_SR_BSY 0 W RS
              ltac:(lia) ltac:(lia)) as (busy & final & sl' & R & _).
  cbv zeta. rewrite R. exists sl'. reflexivity.
Qed.

Lemma stl_L1_flash_erase_returns_0
      (fuel : nat) (sl : stlink P) (addr_page : Z) :
  wf_session sl -> (1000 <= fuel)%nat ->
  exists sl', stl_L1_flash_erase be fuel sl addr_page = Some (0, sl').
Proof.
  intros Hwf Hf. unfold stl_L1_flash_erase.
  assert (RP : 0 <= L15_FLASH_PEKEYR < 2 ^ 32) by (cbn; lia).
  assert (RG : 0 <= L15_FLASH_PRGKEYR < 2 ^ 32) by (cbn; lia).
  assert (RS : 0 <= L15_FLASH_SR < 2 ^ 32) by (cbn; lia).
  assert (RO : 0 <= L15_FLASH_OBR < 2 ^ 32) by (cbn; lia).
  assert (RC : 0 <= F4_FLASH_CR < 2 ^ 32) by (cbn; lia).
  destruct (optional_diag_frame (verbose sl >? 1) [L15_FLASH_ACR; L15_FLASH_ACR]
              sl Hwf) as (d0 & F0 & _).
  { repeat constructor; vm_compute; (discriminate || reflexivity). }
  set (sl0 := if verbose sl >? 1 then _ else sl) in *.
  pose proof (sl_wr32_frame be sl0 L15_FLASH_PEKEYR L15_FLASH_PEKEY1
                (frame_wf _ _ _ F0) RP) as F1.
  set (sl1 := sl_wr32 be sl0 L15_FLASH_PEKEYR L15_FLASH_PEKEY1) in *.
  pose proof (sl_wr32_frame be sl1 L15_FLASH_PEKEYR L15_FLASH_PEKEY2
                (frame_wf _ _ _ F1) RP) as F2.
  set (sl2 := sl_wr32 be sl1 L15_FLASH_PEKEYR L15_FLASH_PEKEY2) in *.
  pose proof (sl_wr32_frame be sl2 L15_FLASH_PRGKEYR L15_FLASH_PRGKEY1
                (frame_wf _ _ _ F2) RG) as F3.
  set (sl3 := sl_wr32 be sl2 L15_FLASH_PRGKEYR L15_FLASH_PRGKEY1) in *.
  pose proof (sl_wr32_frame be sl3 L15_FLASH_PRGKEYR L15_FLASH_PRGKEY2
                (frame_wf _ _ _ F3) RG) as F4.
  set (sl4 := sl_wr32 be sl3 L15_FLASH_PRGKEYR L15_FLASH_PRGKEY2) in *.
  destruct (optional_diag_frame (verbose sl4 >? 1)
              [L15_FLASH_PECR; L15_FLASH_ACR; L15_FLASH_OBR] sl4
              (frame_wf _ _ _ F4)) as (d5 & F5 & _).
  { repeat constructor; vm_compute; (discriminate || reflexivity). }
  set (sl5 := if verbose sl4 >? 1 then _ else sl4) in *.
  assert (W : wf_session
                (if addr_page =? 0xa11
                 then sl_wr32 be (sl_wr32 be sl5 L15_FLASH_OBR 0x01)
                              L15_FLASH_OBR 0xAA
                 else sl_wr32 be
                        (sl_wr32 be sl5 F4_FLASH_CR
                           (Z.lor 0x00202 (Z.shiftl (Z.land addr_page 0x0f) 3)))
                        F4_FLASH_CR
                        (Z.lor 0x10202 (Z.shiftl (Z.land addr_page 0x0f) 3)))).
  { destruct (addr_page =? 0xa11);
      eapply frame_wf; apply sl_wr32_frame; [|exact RO| |exact RC];
      eapply frame_wf; apply sl_wr32_frame;
      [eapply frame_wf; exact F5 | exact RO
      |eapply frame_wf; exact F5 | exact RC]. }
  destruct (erase_poll_spec be fuel _ L15_FLASH_SR FLASH_SR_BSY 0 W RS
              ltac:(lia) ltac:(lia)) as (busy & final & sl' & R & _).
  cbv zeta. rewrite R. exists sl'. reflexivity.
Qed.

End Erase.

(** ** The flash writer *)

Section FlashWrite.

Context {P : Type} {T : Transport P}.
Variable be : bool.

Lemma chunk_size_range (size : Z) :
  0 <= size ->
  0 <= chunk_size size <= FLASH_WR_BLK_SIZE /\
  (0 < size -> 0 < chunk_size size) /\
  (size <= FLASH_WR_BLK_SIZE -> chunk_size size = size + size mod 2) /\
  (FLASH_WR_BLK_SIZE < size -> chunk_size size = FLASH_WR_BLK_SIZE).
Proof.
  intros Hs. unfold chunk_size, FLASH_WR_BLK_SIZE.
  assert (E : Z.land size 1 = size mod 2).
  { change 1 with (Z.ones 1). rewrite Z.land_ones by lia. reflexivity. }
  rewrite E.
  pose proof (Z.mod_pos_bound size 2 ltac:(lia)) as M.
  destruct (size >? 2048) eqn:C.
  - apply Z.gtb_lt in C. repeat split; lia.
  - rewrite Z.gtb_ltb in C. apply Z.ltb_ge in C.
    destruct (size mod 2 =? 0) eqn:O; cbn [negb].
    + apply Z.eqb_eq in O. repeat split; lia.
    + apply Z.eqb_neq in O.
      assert (size <> 2048) by (intros ->; apply O; reflexivity).
      repeat split; lia.
Qed.

Lemma upload_ops_loader_phase (len : Z) (data : list Z) :
  forallb loader_phase_op (upload_ops (sram_base (devid 0)) len data) = true.
Proof.
  unfold upload_ops.
  destruct (Z.land len 3 =? 0); [reflexivity|].
  destruct (len <? 64); reflexivity.
Qed.

(** The chunk loop is the run of the loader over [plan_from]. *)
Lemma flash_write_blocks_plan (n : nat) :
  forall (fuel0 fuel : nat) (sl : stlink P) (flash_addr size offset : Z)
         (buf : list Z),
    0 <= size -> n = Z.to_nat ((size - 1) / FLASH_WR_BLK_SIZE) ->
    (n < fuel)%nat ->
    flash_write_blocks be fuel0 fuel sl flash_addr buf size offset
    = run_chunks be fuel0 sl flash_addr buf (plan_from n size offset).
Proof.
  unfold FLASH_WR_BLK_SIZE.
  induction n as [|n IH]; intros fuel0 fuel sl flash_addr size offset buf
                                 Hs Hn Hf.
  - destruct fuel as [|fuel]; [lia|].
    assert (Hle : size <= 2048).
    { assert ((size - 1) / 2048 <= 0) by lia.
      Z.div_mod_to_equations. lia. }
    destruct (chunk_size_range size Hs) as (_ & _ & R & _).
    unfold FLASH_WR_BLK_SIZE in R. specialize (R Hle).
    cbn [flash_write_blocks plan_from run_chunks]. rewrite R.
    destruct (flash_write_poll be fuel0 _ 0) as [[[|] sl2]|]; try reflexivity.
    assert (C : (size - (size + size mod 2) >? 0) = false).
    { rewrite Z.gtb_ltb. apply Z.ltb_ge.
      pose proof (Z.mod_pos_bound size 2 ltac:(lia)). lia. }
    rewrite C. reflexivity.
  - destruct fuel as [|fuel]; [lia|].
    assert (Hgt : 2048 < size).
    { assert (1 <= (size - 1) / 2048) by lia.
      Z.div_mod_to_equations. lia. }
    destruct (chunk_size_range size Hs) as (_ & _ & _ & R).
    unfold FLASH_WR_BLK_SIZE in R. specialize (R Hgt).
    cbn [flash_write_blocks plan_from run_chunks]. rewrite R.
    unfold FLASH_WR_BLK_SIZE.
    destruct (flash_write_poll be fuel0 _ 0) as [[[|] sl2]|]; try reflexivity.
    assert (C : (size - 2048 >? 0) = true) by (apply Z.gtb_lt; lia).
    rewrite C. apply IH; [lia| |lia].
    replace (size - 2048 - 1) with (size - 1 + (-1) * 2048) by lia.
    rewrite Z.div_add by lia. lia.
Qed.

Lemma plan_from_sum (n : nat) (size offset : Z) :
  fold_right Z.add 0 (map snd (plan_from n size offset)) = size + size mod 2.
Proof.
  revert size offset; induction n as [|n IH]; intros size offset.
  - cbn. lia.
  - cbn [plan_from map fold_right snd]. rewrite IH.
    unfold FLASH_WR_BLK_SIZE.
    replace (size - 2048) with (size + (-1024) * 2) by lia.
    rewrite Z.mod_add by lia. lia.
Qed.

Lemma plan_from_bound (n : nat) (size offset : Z) :
  0 <= size -> n = Z.to_nat ((size - 1) / FLASH_WR_BLK_SIZE) ->
  Forall (fun c => 0 <= snd c <= FLASH_WR_BLK_SIZE /\ snd c mod 2 = 0)
         (plan_from n size offset).
Proof.
  unfold FLASH_WR_BLK_SIZE.
  revert size offset; induction n as [|n IH]; intros size offset Hs Hn.
  - assert (Hle : size <= 2048).
    { assert ((size - 1) / 2048 <= 0) by lia.
      Z.div_mod_to_equations. lia. }
    constructor; [|constructor]. cbn [snd].
    Z.div_mod_to_equations. lia.
  - assert (Hgt : 2048 < size).
    { assert (1 <= (size - 1) / 2048) by lia.
      Z.div_mod_to_equations. lia. }
    cbn [plan_from]. constructor.
    + cbn [snd]. unfold FLASH_WR_BLK_SIZE. split; [lia | reflexivity].
    + apply IH; [unfold FLASH_WR_BLK_SIZE; lia|].
      unfold FLASH_WR_BLK_SIZE.
      replace (size - 2048 - 1) with (size - 1 + (-1) * 2048) by lia.
      rewrite Z.div_add by lia. lia.
Qed.

(** C4.  The chunk loop of the flash writer is the run of the loader
    over the chunks of the plan, one after the other, until the data is
    consumed or a halt poll gives up: every chunk has at most 2048 bytes
    and an even size, so that its half-word count is exact; the sizes add
    up to the size of the write, plus one when that size is odd; 2048
    bytes make one chunk, 2049 bytes two, and one byte a chunk of two. *)
Theorem flash_write_chunking
        (fuel0 fuel : nat) (sl : stlink P) (flash_addr size : Z)
        (buf : list Z) :
  0 <= size -> (length (chunk_plan size) <= fuel)%nat ->
  flash_write_blocks be fuel0 fuel sl flash_addr buf size 0
  = run_chunks be fuel0 sl flash_addr buf (chunk_plan size) /\
  Forall (fun c => 0 <= snd c <= 2048 /\ 2 * Z.shiftr (snd c) 1 = snd c)
         (chunk_plan size) /\
  fold_right Z.add 0 (map snd (chunk_plan size)) = size + size mod 2 /\
  chunk_plan 2048 = [(0, 2048)] /\
  chunk_plan 2049 = [(0, 2048); (2048, 2)] /\
  chunk_plan 1 = [(0, 2)].
Proof.
  intros Hs Hf. unfold chunk_plan in *.
  set (n := Z.to_nat ((size - 1) / FLASH_WR_BLK_SIZE)) in *.
  assert (L : forall m sz off, length (plan_from m sz off) = S m).
  { induction m; intros; cbn; auto. }
  rewrite L in Hf.
  split; [apply flash_write_blocks_plan; [exact Hs | reflexivity | lia]|].
  split.
  - eapply Forall_impl; [|apply (plan_from_bound n size 0 Hs eq_refl)].
    intros c [B E]. split; [exact B|].
    rewrite Z.shiftr_div_pow2 by lia. change (2 ^ 1) with 2.
    Z.div_mod_to_equations. lia.
  - split; [apply plan_from_sum|]. repeat split; reflexivity.
Qed.

End FlashWrite.

(** ** The loader image *)

Section LoaderImage.

Context {P : Type} {T : Transport P}.
Variable be : bool.

Lemma array16_length (code : list Z) :
  length (array16 be code) = (2 * length code)%nat.
Proof.
  unfold array16, obj_repr.
  induction code as [|c code IH]; [reflexivity|].
  cbn [map concat]. rewrite length_app, IH.
  destruct be; cbn; lia.
Qed.

Lemma obj_repr_length (n : nat) (v : Z) : length (obj_repr be n v) = n.
Proof.
  unfold obj_repr. destruct be; [rewrite length_rev|]; apply le_split_length.
Qed.

Lemma loader_head_length (chip : stm_chip_params) :
  length (firstn (Z.to_nat (sizeof16 (loader_program chip) - 16))
                 (array16 be (loader_program chip))) = 44%nat.
Proof.
  rewrite length_firstn, array16_length, loader_program_size.
  destruct (loader_program_cases chip) as [E|E]; rewrite E; reflexivity.
Qed.

(** The parameter block sits in bytes 44..59 of the laid-out buffer. *)
Lemma loader_image_ctrl_word (chip : stm_chip_params) (flash_addr size : Z)
      (buf rest : list Z) :
  load_bytes 44 4 (loader_image be chip flash_addr buf size ++ rest)
  = obj_repr be 4 (loader_ctrl_base chip flash_addr).
Proof.
  unfold loader_image, load_bytes.
  rewrite <- !app_assoc.
  change (Z.to_nat 44) with 44%nat. change (Z.to_nat 4) with 4%nat.
  rewrite skipn_app, loader_head_length.
  rewrite skipn_all2 by (rewrite loader_head_length; lia).
  change (44 - 44)%nat with 0%nat. rewrite skipn_O. cbn [app].
  rewrite firstn_app, obj_repr_length.
  change (4 - 4)%nat with 0%nat. rewrite firstn_O, app_nil_r.
  apply firstn_all2. rewrite obj_repr_length. lia.
Qed.

Lemma loader_ctrl_base_range (chip : stm_chip_params) (flash_addr : Z) :
  0 <= loader_ctrl_base chip flash_addr < 2 ^ 32.
Proof.
  unfold loader_ctrl_base.
  unfold F4_FLASH_REGS, FLASH_REGS_ADDR.
  destruct (negb _); [lia|].
  destruct (_ && _); lia.
Qed.

(** C5.  The flash-controller base that [stl_loader] leaves in the
    parameter block of the send buffer (the first of the four words before
    the end of the program, read in host order) is F4_FLASH_REGS,
    0x40023C00, for a personality with the F4 capability; for every other
    personality it is 0x40022040 exactly when the table flash size exceeds
    256 KB and the destination address is at least 0x08080000, and the F1
    base 0x40022000 otherwise. *)
Theorem stl_loader_ctrl_base
        (sl : stlink P) (flash_addr size : Z) (buf : list Z) :
  wf_session sl -> 0 <= flash_addr < 2 ^ 32 -> 0 <= size <= 4096 ->
  let chip := devid (chip_index sl) in
  let prog_len := sizeof16 (loader_program chip) in
  let base :=
    obj_value be
      (load_bytes (prog_len - 16) 4
         (data_buf (snd (stl_loader be sl flash_addr buf size)))) in
  (Z.land (cap_flags chip) ChipCapF4Flash <> 0 -> base = 0x40023C00) /\
  (Z.land (cap_flags chip) ChipCapF4Flash = 0 ->
   (base = 0x40022040 <->
    flash_size chip > 256 * 1024 /\ flash_addr >= 0x08080000) /\
   (base <> 0x40022040 -> base = 0x40022000)).
Proof.
  intros Hwf Ha Hs chip prog_len base.
  destruct (stl_loader_spec be sl flash_addr size buf Hwf Ha Hs) as [_ D].
  fold chip in D.
  assert (E : base = loader_ctrl_base chip flash_addr).
  { subst base prog_len. rewrite loader_program_size.
    change (60 - 16) with 44.
    assert (S : forall l, load_bytes 44 4 l = firstn 4 (skipn 30 (skipn 14 l))).
    { intros l. unfold load_bytes. rewrite skipn_skipn. reflexivity. }
    rewrite S, D, <- S, loader_image_ctrl_word, obj_value_repr.
    apply Z.mod_small. apply loader_ctrl_base_range. }
  rewrite E. unfold loader_ctrl_base.
  destruct (Z.land (cap_flags chip) ChipCapF4Flash =? 0) eqn:C; cbn [negb].
  - apply Z.eqb_eq in C. split; [intros H; contradiction|]. intros _.
    destruct (flash_size chip >? 256 * 1024) eqn:C1;
      destruct (flash_addr >=? 0x08080000) eqn:C2; cbn [andb];
      try apply Z.gtb_lt in C1; try apply Z.geb_le in C2;
      try (rewrite Z.gtb_ltb in C1; apply Z.ltb_ge in C1);
      try (rewrite Z.geb_leb in C2; apply Z.leb_gt in C2);
      unfold FLASH_REGS_ADDR;
      (split; [split; [intros H; try discriminate H; lia | lia]
              | intros H; try reflexivity; try contradiction ]).
  - apply Z.eqb_neq in C. split; [intros _; reflexivity|].
    intros H; contradiction.
Qed.

Lemma land3_mod4 (x : Z) : Z.land x 3 = x mod 4.
Proof. change 3 with (Z.ones 2). rewrite Z.land_ones by lia. reflexivity. Qed.

End LoaderImage.

(** ** Runs on the simulated probe *)


Lemma stl_loader_ctrl_base_witness :
  let sl := sim_session 0 8 probe_halting in
  obj_value false
    (load_bytes 44 4
       (data_buf (snd (stl_loader false sl 0x08080000 [0xDE; 0xAD; 0xBE; 0xEF] 4))))
  = 0x40022040.
Proof.
  intros sl.
  destruct (stl_loader_ctrl_base false sl 0x08080000 4 [0xDE; 0xAD; 0xBE; 0xEF])
    as [_ H]; [reflexivity | lia | lia |].
  destruct (H eq_refl) as [[_ H1] _].
  apply H1. split; [reflexivity | vm_compute; discriminate].
Defined.

Lemma flash_write_chunking_witness :
  let sl := sim_session 0 0 probe_halting in
  flash_write_blocks false 201 2 sl 0x08000000 (repeat 0xA5 2049) 2049 0
  = run_chunks false 201 sl 0x08000000 (repeat 0xA5 2049)
               [(0, 2048); (2048, 2)].
Proof.
  intros sl.
  destruct (flash_write_chunking false 201 2 sl 0x08000000 2049 (repeat 0xA5 2049))
    as [H _]; [lia | vm_compute; lia |].
  exact H.
Defined.

Lemma stl_f1_flash_erase_page_sequence_witness :
  let sl := sim_session 0 4 probe_erasing in
  wf_session sl /\
  exists ret sl',
    stl_f1_flash_erase false 1000 sl 0x08000400 = Some (ret, sl') /\
    filter is_write (ops_since sl sl')
    = [Wr32 FLASH_KEYR FLASH_KEY1; Wr32 FLASH_KEYR FLASH_KEY2;
       Wr32 FLASH_SR 0x34; Wr32 FLASH_AR 0x08000400;
       Wr32 FLASH_CR FLASH_CR_PER; Wr32 FLASH_CR 0x42].
Proof.
  intros sl. split; [reflexivity|].
  destruct (stl_f1_flash_erase_page_sequence false 1000 sl 0x08000400)
    as (ret & sl' & diag & busy & final & tail & R & O & Wd & Wt & _);
    [reflexivity | lia | lia | lia |].
  exists ret, sl'. split; [exact R|].
  assert (E : filter is_write (map (Rd32 FLASH_SR) busy) = []).
  { clear. induction busy; cbn; auto. }
  rewrite O, !filter_app, Wd, Wt, E. reflexivity.
Defined.

(** C1.  When the core never reports the halted state, the flash write
    gives up after 201 status polls, without reading the flash status and
    without re-locking the flash, and returns 0: the very value it returns
    for a write that went through. *)
Theorem stl_flash_write_poll_timeout_returns_0 :
  let data := [0xDE; 0xAD; 0xBE; 0xEF] in
  let stuck := sim_session 0 0 probe_running in
  let good := sim_session 0 0 probe_halting in
  let r_stuck := stl_flash_write false 201 stuck 0x08000000 data 4 in
  let r_good := stl_flash_write false 201 good 0x08000000 data 4 in
  option_map fst r_stuck = Some 0 /\
  statuses_of false (ops_of_run stuck r_stuck)
  = repeat STLINK_CORE_RUNNING 201 /\
  reads_of false FLASH_SR (ops_of_run stuck r_stuck) = [] /\
  existsb (fun o => match o with
                    | OpWriteMem32 a _ _ => a =? FLASH_CR
                    | _ => false
                    end) (ops_of_run stuck r_stuck) = false /\
  option_map fst r_good = Some 0 /\
  statuses_of false (ops_of_run good r_good) = [STLINK_CORE_HALTED].
Proof. vm_compute. repeat split; reflexivity. Qed.

(** C2.  On target memory whose byte at address [a] is [a mod 251]:
    a read of 1025 bytes at the aligned address 0x20000000 issues a single
    read command, of 1024 bytes, and copies 1025 bytes out of the receive
    buffer, so that the last byte handed to the caller is the 0x55 filling
    and not the target byte; a read of 1 byte at 0x20000001 stores 4 bytes
    into the caller's 1-byte buffer. *)
Theorem stl_read_copies_wrong_bytes :
  let sl := sim_session 0 0 probe_pattern in
  let r := stl_read false 2 sl 0x20000000 (repeat 0 1025) 1025 in
  let r1 := stl_read false 2 sl 0x20000001 [0] 1 in
  map (fun o => match o with
                | OpReadMem32 a len _ => (a, len)
                | _ => (0, 0)
                end) (ops_of_run sl r) = [(0x20000000, 1024)] /\
  option_map (fun x => nth 1024 (snd (fst x)) 0) r = Some 0x55 /\
  sim_mem probe_pattern (0x20000000 + 1024) = 4 /\
  option_map (fun x => firstn 1024 (snd (fst x))) r
  = Some (map (sim_mem probe_pattern) (seqZ 0x20000000 1024)) /\
  option_map (fun x => snd (fst x)) r1
  = Some (map (sim_mem probe_pattern) (seqZ 0x20000001 4)) /\
  option_map (fun x => length (snd (fst x))) r1 = Some 4%nat.
Proof. vm_compute. repeat split; reflexivity. Qed.

(** C7.  With the status register of the flash controller stuck busy, the
    F4 and the L1 erase poll it 1000 times, every reading with the busy bit
    set, and then return 0; the F1 erase returns 1 there. *)
Theorem stl_f4_L1_flash_erase_ignore_busy :
  let f4 := sim_session 0 13 probe_busy in
  let l1 := sim_session 0 11 probe_busy in
  let f1 := sim_session 0 4 probe_busy in
  let r4 := stl_flash_erase_page false 1000 f4 0x08000000 in
  let rl := stl_flash_erase_page false 1000 l1 0xa11 in
  let r1 := stl_flash_erase_page false 1000 f1 0x08000000 in
  option_map fst r4 = Some 0 /\
  length (reads_of false F4_FLASH_SR (ops_of_run f4 r4)) = 1000%nat /\
  forallb (fun s => negb (Z.land s F4_FLASH_SR_BSY =? 0))
          (reads_of false F4_FLASH_SR (ops_of_run f4 r4)) = true /\
  option_map fst rl = Some 0 /\
  length (reads_of false L15_FLASH_SR (ops_of_run l1 rl)) = 1000%nat /\
  forallb (fun s => negb (Z.land s FLASH_SR_BSY =? 0))
          (reads_of false L15_FLASH_SR (ops_of_run l1 rl)) = true /\
  option_map fst r1 = Some 1.
Proof. vm_compute. repeat split; reflexivity. Qed.

(** C8.  The identification reads the MCU ID-code at 0xE0042000 whatever
    the core ID is, and reads 0x40015800 only when that first value is
    zero: on a Cortex-M0 core whose 0xE0042000 reads non-zero the stored
    ID-code comes from 0xE0042000 and 0x40015800 is never read; on a
    Cortex-M3 core whose 0xE0042000 reads zero it comes from 0x40015800. *)
Theorem stm_id_chip_reads_debug_idcode_first :
  let m0 := sim_session 0 0 probe_m0 in
  let m3 := sim_session 0 0 probe_m3_blank in
  ops_since m0 (snd (stm_id_chip false m0))
  = [OpReadCoreID (le_split 4 0x0bb11477);
     Rd32 0xE0042000 (le_split 4 0x10016410)] /\
  cpu_idcode (snd (stm_id_chip false m0)) = 0x10016410 /\
  ops_since m3 (snd (stm_id_chip false m3))
  = [OpReadCoreID (le_split 4 0x1ba01477);
     Rd32 0xE0042000 (le_split 4 0);
     Rd32 0x40015800 (le_split 4 0x20006440)] /\
  cpu_idcode (snd (stm_id_chip false m3)) = 0x20006440.
Proof. vm_compute. repeat split; reflexivity. Qed.

(** C9.  A 4-byte reply is decoded through [read_uint32], little-endian on
    every host.  A 2-byte reply is read through a pointer cast: the status
    reply 81 00 is returned as 0x0081 on a little-endian host and as 0x8100
    on a big-endian one. *)
Theorem stlink_cmd_status_depends_on_host :
  (forall (be : bool) (c : list Z) (pt : Z),
      read_uint32 be c pt
      = le_combine [byte_at c pt; byte_at c (pt + 1); byte_at c (pt + 2);
                    byte_at c (pt + 3)]) /\
  (forall (P : Type) (T : Transport P) (sl : stlink P) (c1 c2 : Z),
      stlink_cmd true sl c1 c2 4 = stlink_cmd false sl c1 c2 4) /\
  let sl := sim_session 0 0 probe_halting in
  ops_since sl (snd (stlink_cmd true sl STLinkDebugGetStatus 0 2))
  = [OpGetStatus [0x81; 0x00]] /\
  fst (stlink_cmd false sl STLinkDebugGetStatus 0 2) = 0x0081 /\
  fst (stlink_cmd true sl STLinkDebugGetStatus 0 2) = 0x8100.
Proof.
  split; [exact read_uint32_le|]. split.
  - intros P T sl c1 c2. unfold stlink_cmd.
    change (4 =? 2) with false. change (4 =? 4) with true. cbv iota.
    rewrite !read_uint32_le. reflexivity.
  - vm_compute. repeat split; reflexivity.
Qed.

(** * Further properties *)

(** ** Byte buffers and the endian codec *)

Lemma store_bytes_load (off : Z) (bs buf : list Z) :
  0 <= off <= Z.of_nat (length buf) ->
  load_bytes off (Z.of_nat (length bs)) (store_bytes off bs buf) = bs.
Proof.
  intros H. unfold load_bytes, store_bytes.
  rewrite skipn_app, length_firstn, Nat2Z.id.
  replace (Nat.min (Z.to_nat off) (length buf)) with (Z.to_nat off) by lia.
  rewrite skipn_all2 by (rewrite length_firstn; lia).
  rewrite Nat.sub_diag, skipn_O. cbn [app].
  rewrite firstn_app, Nat.sub_diag, firstn_O, app_nil_r.
  apply firstn_all.
Qed.

Lemma byte_at_load (l : list Z) (off : Z) (k n : nat) :
  0 <= off -> (k < n)%nat ->
  byte_at l (off + Z.of_nat k) = nth k (load_bytes off (Z.of_nat n) l) 0.
Proof.
  intros H Hk. unfold byte_at, load_bytes.
  rewrite Nat2Z.id, nth_firstn.
  assert (E : (k <? n)%nat = true) by (apply Nat.ltb_lt; exact Hk).
  rewrite E, nth_skipn. f_equal. lia.
Qed.

Lemma byte_at_store_other (off i : Z) (bs buf : list Z) :
  0 <= off -> off + Z.of_nat (length bs) <= Z.of_nat (length buf) ->
  0 <= i -> i < off \/ off + Z.of_nat (length bs) <= i ->
  byte_at (store_bytes off bs buf) i = byte_at buf i.
Proof.
  intros Ho Hl Hi Hd. unfold byte_at, store_bytes.
  assert (Lf : length (firstn (Z.to_nat off) buf) = Z.to_nat off)
    by (rewrite length_firstn; lia).
  destruct Hd as [Hd|Hd].
  - rewrite app_nth1 by lia. rewrite nth_firstn.
    assert (E : (Z.to_nat i <? Z.to_nat off)%nat = true) by (apply Nat.ltb_lt; lia).
    rewrite E. reflexivity.
  - rewrite app_nth2 by lia. rewrite app_nth2 by lia.
    rewrite nth_skipn. f_equal. lia.
Qed.

(** X1.  On a host of either byte order, [write_uint32] stores the four
    little-endian bytes of the value at the given offset, keeps the length
    of the buffer and every other byte of it, and [read_uint32] at the same
    offset gives the value back modulo 2^32. *)
Theorem write_read_uint32_roundtrip (be : bool) (buf : list Z) (off v : Z) :
  0 <= off -> off + 4 <= Z.of_nat (length buf) ->
  read_uint32 be (write_uint32 be buf off v) off = v mod 2 ^ 32 /\
  load_bytes off 4 (write_uint32 be buf off v) = le_split 4 v /\
  length (write_uint32 be buf off v) = length buf /\
  (forall i, 0 <= i -> i < off \/ off + 4 <= i ->
             byte_at (write_uint32 be buf off v) i = byte_at buf i).
Proof.
  intros Ho Hl. rewrite write_uint32_le, read_uint32_le.
  assert (L : load_bytes off 4 (store_bytes off (le_split 4 v) buf) = le_split 4 v).
  { apply (store_bytes_load off (le_split 4 v) buf). lia. }
  split; [|split; [exact L|split]].
  - set (c := store_bytes off (le_split 4 v) buf) in *.
    pose proof (byte_at_load c off 0 4 Ho ltac:(lia)) as B0.
    pose proof (byte_at_load c off 1 4 Ho ltac:(lia)) as B1.
    pose proof (byte_at_load c off 2 4 Ho ltac:(lia)) as B2.
    pose proof (byte_at_load c off 3 4 Ho ltac:(lia)) as B3.
    change (Z.of_nat 4) with 4 in *. rewrite L in *.
    change (off + Z.of_nat 0) with (off + 0) in B0. rewrite Z.add_0_r in B0.
    change (Z.of_nat 1) with 1 in B1. change (Z.of_nat 2) with 2 in B2.
    change (Z.of_nat 3) with 3 in B3.
    rewrite B0, B1, B2, B3.
    transitivity (le_combine (le_split 4 v)); [reflexivity|].
    rewrite le_combine_split. reflexivity.
  - unfold store_bytes. rewrite !length_app, length_firstn, length_skipn.
    rewrite le_split_length. lia.
  - intros i Hi Hd. apply byte_at_store_other; rewrite ?le_split_length; cbn; lia.
Qed.

Lemma write_read_uint32_roundtrip_witness :
  read_uint32 true (write_uint32 true [1; 2; 3; 4; 5; 6; 7] 2 0x11223344) 2
  = 0x11223344 /\
  write_uint32 true [1; 2; 3; 4; 5; 6; 7] 2 0x11223344
  = [1; 2; 0x44; 0x33; 0x22; 0x11; 7].
Proof.
  destruct (write_read_uint32_roundtrip true [1; 2; 3; 4; 5; 6; 7] 2 0x11223344)
    as (R & _); [lia | cbn; lia |].
  split; [exact R | reflexivity].
Defined.

(** ** Commands, one exchange at a time *)

Lemma clear_low2_div (x : Z) : clear_low2 x = 4 * (x / 4).
Proof.
  unfold clear_low2. rewrite <- Z.ldiff_land.
  change 3 with (Z.ones 2). rewrite Z.ldiff_ones_r by lia.
  rewrite Z.shiftl_mul_pow2, Z.shiftr_div_pow2 by lia.
  change (2 ^ 2) with 4. lia.
Qed.

Lemma decode_read_mem (c : list Z) (d : STLinkParamDirection) (got : list Z) :
  byte_at c 0 = STLinkDebugCommand ->
  byte_at c 1 = STLinkDebugReadMem32bit ->
  decode (mk_xfer c d got)
  = OpReadMem32 (le_combine (load_bytes 2 4 c)) (le_combine (load_bytes 6 2 c))
                got.
Proof.
  intros H0 H1. unfold decode. cbn [x_cmd x_data]. rewrite H0, H1. reflexivity.
Qed.

Section MorePrimitives.

Context {P : Type} {T : Transport P}.
Variable be : bool.

(** The session a regular-form debug command leaves behind. *)
Lemma stlink_cmd_session (v ci id cl dl : Z) (xd : STLinkParamDirection)
      (c0 c1 c2 : Z) (rest db : list Z) (h : P) (w : list xfer)
      (st1 st2 n : Z) :
  let cmd := STLinkDebugCommand :: u8 st1 :: u8 st2 :: rest in
  let sent := load_bytes 0 16 cmd in
  let h1 := fst (libusb_bulk_transfer h USB_PIPE_OUT sent 16) in
  let db1 := memset db 0x55555555 (n + 12) in
  let got := if n =? 0 then []
             else load_bytes 0 n (snd (libusb_bulk_transfer h1 USB_PIPE_IN [] n)) in
  let h2 := if n =? 0 then h1
            else fst (libusb_bulk_transfer h1 USB_PIPE_IN [] n) in
  snd (stlink_cmd be (mk_stlink v ci id xd cl (c0 :: c1 :: c2 :: rest) dl db h w)
                  st1 st2 n)
  = mk_stlink v ci id STLinkParamFromDev 16 cmd n
              (store_bytes 0 got db1) h2
              (w ++ [mk_xfer sent STLinkParamFromDev got]).
Proof.
  intros cmd sent h1 db1 got h2.
  unfold stlink_cmd.
  assert (E : forall (a b c : Z) (s : stlink P),
             snd (if n =? 2 then (a, s) else if n =? 4 then (b, s) else (c, s)) = s).
  { intros. destruct (n =? 2); [reflexivity|]. destruct (n =? 4); reflexivity. }
  rewrite E. clear E.
  unfold stl_do_cmd. session_fields.
  change (store_bytes 2 [u8 st2]
            (store_bytes 1 [u8 st1]
               (store_bytes 0 [u8 STLinkDebugCommand] (c0 :: c1 :: c2 :: rest))))
    with cmd.
  fold sent. fold h1. fold db1.
  subst got h2.
  destruct (n =? 0) eqn:C.
  - reflexivity.
  - destruct (libusb_bulk_transfer h1 USB_PIPE_IN [] n) as [h2 reply].
    reflexivity.
Qed.

(** The command buffer as [stl_rd32_cmd] fills it before it calls
    [stlink_cmd]. *)
Lemma rd32_cmd_buf (c : list Z) (a l : Z) :
  length c = Z.to_nat CDB_SIZE ->
  exists c0 c1 c8 c9,
    write_uint16 be (write_uint32 be c 2 a) 6 l
    = c0 :: c1 :: Z.land a 255
         :: skipn 1 (le_split 4 a) ++ le_split 2 l ++ [c8; c9].
Proof.
  intros H. rewrite write_uint32_le, write_uint16_le.
  split_cmd_buf H.
  exists z, z0, z7, z8. reflexivity.
Qed.

(** One read command: what goes to the probe, what comes back, and the
    session afterwards. *)
Lemma stl_rd32_cmd_exchange (sl : stlink P) (addr len : Z) :
  wf_session sl -> 0 <= addr < 2 ^ 32 ->
  exists sent,
    byte_at sent 0 = STLinkDebugCommand /\
    byte_at sent 1 = STLinkDebugReadMem32bit /\
    le_combine (load_bytes 2 4 sent) = addr /\
    le_combine (load_bytes 6 2 sent) = u16 (clear_low2 (len + 3)) /\
    let h1 := fst (libusb_bulk_transfer (usb_hand sl) USB_PIPE_OUT sent 16) in
    let got :=
      if len =? 0 then []
      else load_bytes 0 len (snd (libusb_bulk_transfer h1 USB_PIPE_IN [] len)) in
    let sl' := snd (stl_rd32_cmd be sl addr len) in
    wire sl' = wire sl ++ [mk_xfer sent STLinkParamFromDev got] /\
    data_buf sl' = store_bytes 0 got (memset (data_buf sl) 0x55555555 (len + 12)) /\
    usb_hand sl'
    = (if len =? 0 then h1
       else fst (libusb_bulk_transfer h1 USB_PIPE_IN [] len)) /\
    wf_session sl' /\ verbose sl' = verbose sl /\ chip_index sl' = chip_index sl.
Proof.
  intros Hwf Ha.
  destruct sl as [v ci id xd cl cb dl db h w].
  unfold wf_session in Hwf; cbn [cmd_buf] in Hwf.
  destruct (rd32_cmd_buf cb (clear_low2 addr) (u16 (clear_low2 (len + 3))) Hwf)
    as (c0 & c1 & c8 & c9 & Ecb).
  set (tail := skipn 1 (le_split 4 (clear_low2 addr))
                ++ le_split 2 (u16 (clear_low2 (len + 3))) ++ [c8; c9]) in Ecb.
  assert (Es : snd (stl_rd32_cmd be (mk_stlink v ci id xd cl cb dl db h w) addr len)
               = snd (stlink_cmd be
                        (mk_stlink v ci id xd cl
                           (c0 :: c1 :: Z.land (clear_low2 addr) 255 :: tail)
                           dl db h w)
                        STLinkDebugReadMem32bit addr len)).
  { unfold stl_rd32_cmd. session_fields. rewrite Ecb. reflexivity. }
  rewrite stlink_cmd_session in Es.
  exists (load_bytes 0 16
            (STLinkDebugCommand :: u8 STLinkDebugReadMem32bit :: u8 addr :: tail)).
  cbn zeta. rewrite Es. session_fields.
  split; [reflexivity|]. split; [reflexivity|].
  split.
  { transitivity (le_combine (u8 addr :: skipn 1 (le_split 4 (clear_low2 addr)))).
    - reflexivity.
    - apply rd32_wire_address. exact Ha. }
  split.
  { transitivity (le_combine (le_split 2 (u16 (clear_low2 (len + 3))))).
    - reflexivity.
    - rewrite le_combine_split. apply Z.mod_small.
      change (2 ^ (8 * Z.of_nat 2)) with (2 ^ 16). apply u16_range. }
  split; [reflexivity|]. split; [reflexivity|]. split; [reflexivity|].
  split; [reflexivity|]. split; reflexivity.
Qed.

Lemma stl_rd32_cmd_frame (sl : stlink P) (addr len : Z) :
  wf_session sl -> 0 <= addr < 2 ^ 32 ->
  exists got,
    frame sl (snd (stl_rd32_cmd be sl addr len))
          [OpReadMem32 addr (u16 (clear_low2 (len + 3))) got] /\
    data_buf (snd (stl_rd32_cmd be sl addr len))
    = store_bytes 0 got (memset (data_buf sl) 0x55555555 (len + 12)) /\
    (length got <= Z.to_nat len)%nat /\
    (len = 0 -> got = []).
Proof.
  intros Hwf Ha.
  destruct (stl_rd32_cmd_exchange sl addr len Hwf Ha)
    as (sent & B0 & B1 & EA & EL & Hw & Hd & _ & Hwf' & Hv & Hc).
  cbn zeta in Hw, Hd.
  set (got := if len =? 0 then []
              else load_bytes 0 len
                     (snd (libusb_bulk_transfer
                             (fst (libusb_bulk_transfer (usb_hand sl) USB_PIPE_OUT
                                                        sent 16))
                             USB_PIPE_IN [] len))) in *.
  exists got. split; [|split; [exact Hd|split]].
  - split; [|split; [exact Hwf'|split; assumption]].
    exists [mk_xfer sent STLinkParamFromDev got]. split; [exact Hw|].
    cbn [map]. rewrite (decode_read_mem sent _ got B0 B1), EA, EL. reflexivity.
  - subst got. destruct (len =? 0); [cbn; lia|].
    unfold load_bytes. rewrite length_firstn. lia.
  - intros ->. reflexivity.
Qed.

Lemma stlink_cmd_snd_host (b1 b2 : bool) (sl : stlink P) (st1 st2 n : Z) :
  snd (stlink_cmd b1 sl st1 st2 n) = snd (stlink_cmd b2 sl st1 st2 n).
Proof.
  unfold stlink_cmd.
  destruct (n =? 2); [reflexivity|]. destruct (n =? 4); reflexivity.
Qed.

Lemma stl_rd32_cmd_snd_host (sl : stlink P) (addr len : Z) :
  snd (stl_rd32_cmd true sl addr len) = snd (stl_rd32_cmd false sl addr len).
Proof.
  destruct sl as [v ci id xd cl cb dl db h w].
  unfold stl_rd32_cmd. session_fields.
  rewrite !write_uint32_le, !write_uint16_le.
  apply stlink_cmd_snd_host.
Qed.

Lemma sl_wr32_host (sl : stlink P) (addr val : Z) :
  sl_wr32 true sl addr val = sl_wr32 false sl addr val.
Proof.
  destruct sl as [v ci id xd cl cb dl db h w].
  unfold sl_wr32, stl_wr32_cmd. session_fields.
  rewrite !write_uint32_le, !write_uint16_le. reflexivity.
Qed.

(** X2.  [stl_wr32_cmd] chooses the command by the length alone: a
    multiple of 4 goes out as one 32-bit write, any other length under 64
    as one 8-bit write, and any other length from 64 on is refused with -1
    and nothing is sent.  The command carries the address and the length
    given, the payload is the head of [data_buf], and [data_buf] is left
    as it was. *)
Theorem stl_wr32_cmd_dispatch (sl : stlink P) (addr len : Z) :
  wf_session sl -> 0 <= addr < 2 ^ 32 -> 0 <= len < 2 ^ 16 ->
  let r := stl_wr32_cmd be sl addr len in
  let data := load_bytes 0 len (data_buf sl) in
  data_buf (snd r) = data_buf sl /\
  (len mod 4 = 0 ->
   fst r = 0 /\ ops_since sl (snd r) = [OpWriteMem32 addr len data]) /\
  (len mod 4 <> 0 -> len < 64 ->
   fst r = 0 /\ ops_since sl (snd r) = [OpWriteMem8 addr len data]) /\
  (len mod 4 <> 0 -> 64 <= len ->
   fst r = -1 /\ ops_since sl (snd r) = []).
Proof.
  intros Hwf Ha Hl r data.
  destruct (stl_wr32_cmd_frame be sl addr len Hwf Ha Hl) as [F D].
  apply frame_ops_since in F. fold r in F, D. fold data in F.
  assert (R : fst r = if Z.land len 3 =? 0 then 0
                      else if len <? 64 then 0 else -1).
  { subst r. unfold stl_wr32_cmd.
    destruct (Z.land len 3 =? 0); [reflexivity|].
    destruct (len <? 64); reflexivity. }
  unfold upload_ops in F. rewrite land3_mod4 in F, R.
  split; [exact D|].
  split; [|split].
  - intros M. rewrite M in F, R. cbn in F, R. split; assumption.
  - intros M L.
    apply Z.eqb_neq in M. rewrite M in F, R.
    apply Z.ltb_lt in L. rewrite L in F, R. split; assumption.
  - intros M L.
    apply Z.eqb_neq in M. rewrite M in F, R.
    apply Z.ltb_ge in L. rewrite L in F, R. split; assumption.
Qed.

(** The one exchange of [sl_wr32], byte for byte. *)
Lemma sl_wr32_wire (b : bool) (sl : stlink P) (addr val : Z) :
  wf_session sl -> 0 <= addr < 2 ^ 32 ->
  wire (sl_wr32 b sl addr val)
  = wire sl ++ [mk_xfer ([STLinkDebugCommand; STLinkDebugWriteMem32bit]
                         ++ le_split 4 addr ++ [4; 0])
                        STLinkParamToDev (le_split 4 (u32 val))].
Proof.
  intros Hwf Ha. open_session sl Hwf.
  unfold sl_wr32, stl_wr32_cmd.
  rewrite !write_uint32_le, !write_uint16_le, (u32_small addr Ha).
  name_bytes 4%nat addr. name_bytes 4%nat (u32 val).
  reflexivity.
Qed.

(** X3.  [sl_wr32] puts the same bytes on the wire on a host of either
    byte order: a command transfer of the eight bytes 0xF2, 0x08, the
    address and the length 4, both little-endian, and a data transfer of
    the four bytes of the value, little-endian.  [sl_rd32] leaves the same
    session, and so the same ten command bytes in [cmd_buf], on either
    host, and its exchange is the same read of the address given with the
    same reply; what it returns does depend on the host: the little-endian
    value of the reply on a little-endian host, the value of the reversed
    reply on a big-endian one.  (The command transfer of [sl_rd32] is 16
    bytes long and so runs on past [cmd_buf]; the six bytes that follow
    [cmd_buf] in memory are not recorded and the statement says nothing
    about them.) *)
Theorem sl_rd32_host_order (sl : stlink P) (addr val : Z) :
  wf_session sl -> 0 <= addr < 2 ^ 32 ->
  sl_wr32 true sl addr val = sl_wr32 false sl addr val /\
  wire (sl_wr32 false sl addr val)
  = wire sl ++ [mk_xfer ([0xF2; 0x08] ++ le_split 4 addr ++ [4; 0])
                        STLinkParamToDev (le_split 4 (u32 val))] /\
  snd (sl_rd32 true sl addr) = snd (sl_rd32 false sl addr) /\
  exists got,
    ops_since sl (snd (sl_rd32 true sl addr)) = [Rd32 addr got] /\
    ops_since sl (snd (sl_rd32 false sl addr)) = [Rd32 addr got] /\
    fst (sl_rd32 false sl addr) = le_combine (reply_bytes 4 got) /\
    fst (sl_rd32 true sl addr) = le_combine (rev (reply_bytes 4 got)).
Proof.
  intros Hwf Ha. split; [apply sl_wr32_host|].
  split; [exact (sl_wr32_wire false sl addr val Hwf Ha)|].
  destruct (sl_rd32_frame false sl addr Hwf Ha) as (got & F & V).
  destruct (sl_rd32_frame true sl addr Hwf Ha) as (got' & F' & V').
  apply frame_ops_since in F. apply frame_ops_since in F'.
  assert (E : snd (sl_rd32 true sl addr) = snd (sl_rd32 false sl addr)).
  { unfold sl_rd32. cbn [snd]. apply stl_rd32_cmd_snd_host. }
  split; [exact E|].
  rewrite E in F'. rewrite F in F'. injection F' as G. subst got'.
  exists got. rewrite E.
  split; [exact F|]. split; [exact F|]. split; [exact V|exact V'].
Qed.

(** X4.  A read command carries the address it was given, byte for byte:
    the alignment [stl_rd32_cmd] forces on it is undone when [stlink_cmd]
    stores the low byte of the address over the first address byte.  The
    length in the command is the length given rounded up to a multiple of
    4; the data phase asks for the length given, and what arrives is at
    the head of [data_buf]. *)
Theorem stl_rd32_cmd_wire (sl : stlink P) (addr len : Z) :
  wf_session sl -> 0 <= addr < 2 ^ 32 -> 0 <= len < 2 ^ 16 ->
  exists got,
    ops_since sl (snd (stl_rd32_cmd be sl addr len))
    = [OpReadMem32 addr (4 * ((len + 3) / 4) mod 2 ^ 16) got] /\
    (length got <= Z.to_nat len)%nat /\
    firstn (length got) (data_buf (snd (stl_rd32_cmd be sl addr len))) = got.
Proof.
  intros Hwf Ha Hl.
  destruct (stl_rd32_cmd_frame sl addr len Hwf Ha) as (got & F & D & L & _).
  exists got. apply frame_ops_since in F.
  rewrite clear_low2_div in F. unfold u16 in F.
  split; [exact F|]. split; [exact L|].
  rewrite D. unfold store_bytes. cbn [firstn Z.to_nat app].
  rewrite firstn_app, firstn_all, Nat.sub_diag. cbn [firstn].
  apply app_nil_r.
Qed.

End MorePrimitives.

Lemma stl_wr32_cmd_dispatch_witness :
  let sl := sim_session 0 0 probe_halting in
  fst (stl_wr32_cmd false sl 0x20000000 66) = -1 /\
  ops_since sl (snd (stl_wr32_cmd false sl 0x20000000 66)) = [].
Proof.
  intros sl.
  pose proof (stl_wr32_cmd_dispatch false sl 0x20000000 66) as H.
  apply H; [reflexivity | lia | lia | vm_compute; discriminate | lia].
Defined.

Lemma sl_rd32_host_order_witness :
  let sl := sim_session 0 0 probe_pattern in
  exists got,
    ops_since sl (snd (sl_rd32 true sl 0x20000000)) = [Rd32 0x20000000 got] /\
    ops_since sl (snd (sl_rd32 false sl 0x20000000)) = [Rd32 0x20000000 got] /\
    fst (sl_rd32 false sl 0x20000000) = le_combine (reply_bytes 4 got) /\
    fst (sl_rd32 true sl 0x20000000) = le_combine (rev (reply_bytes 4 got)).
Proof.
  intros sl.
  apply (sl_rd32_host_order sl 0x20000000 0 eq_refl); lia.
Defined.

Lemma stl_rd32_cmd_wire_witness :
  let sl := sim_session 0 0 probe_pattern in
  exists got,
    ops_since sl (snd (stl_rd32_cmd false sl 0x20000001 5))
    = [OpReadMem32 0x20000001 8 got] /\
    (length got <= 5)%nat /\
    firstn (length got) (data_buf (snd (stl_rd32_cmd false sl 0x20000001 5)))
    = got.
Proof.
  intros sl.
  apply (stl_rd32_cmd_wire false sl 0x20000001 5); [reflexivity | lia | lia].
Defined.

(** ** Erase drivers and the halt poll *)

Lemma filter_is_write_reads (a : Z) (l : list (list Z)) :
  filter is_write (map (Rd32 a) l) = [].
Proof. induction l as [|g l IH]; cbn; auto. Qed.

(** The sector-erase control words of the F4 driver. *)
Lemma f4_sector_word (base a : Z) :
  base = 0x00202 \/ base = 0x10202 ->
  u32 (Z.lor base (Z.shiftl (Z.land a 0x0f) 3)) = base + 8 * (a mod 16).
Proof.
  intros Hb.
  change 0x0f with (Z.ones 4). rewrite Z.land_ones by lia.
  change (2 ^ 4) with 16.
  assert (H : 0 <= a mod 16 < 16) by (apply Z.mod_pos_bound; lia).
  assert (C : a mod 16 = 0 \/ a mod 16 = 1 \/ a mod 16 = 2 \/ a mod 16 = 3 \/
              a mod 16 = 4 \/ a mod 16 = 5 \/ a mod 16 = 6 \/ a mod 16 = 7 \/
              a mod 16 = 8 \/ a mod 16 = 9 \/ a mod 16 = 10 \/ a mod 16 = 11 \/
              a mod 16 = 12 \/ a mod 16 = 13 \/ a mod 16 = 14 \/ a mod 16 = 15)
    by lia.
  destruct Hb as [-> | ->];
    repeat (destruct C as [C|C]; [rewrite C; reflexivity|]);
    rewrite C; reflexivity.
Qed.

Section MoreErase.

Context {P : Type} {T : Transport P}.
Variable be : bool.

(** Two word writes in a row. *)
Lemma sl_wr32_twice (sl : stlink P) (a1 v1 a2 v2 : Z) :
  wf_session sl -> 0 <= a1 < 2 ^ 32 -> 0 <= a2 < 2 ^ 32 ->
  frame sl (sl_wr32 be (sl_wr32 be sl a1 v1) a2 v2)
        [Wr32 a1 (u32 v1); Wr32 a2 (u32 v2)].
Proof.
  intros Hwf H1 H2.
  pose proof (sl_wr32_frame be sl a1 v1 Hwf H1) as F1.
  pose proof (sl_wr32_frame be _ a2 v2 (frame_wf _ _ _ F1) H2) as F2.
  exact (frame_trans _ _ _ _ _ F1 F2).
Qed.

(** X5.  The F4 erase driver unlocks the controller, clears the error
    bits and then writes the control register twice: for the sentinel
    0xa11 MER and then MER with the start bit, and for every other address
    the sector-erase word without and with the start bit, where the sector
    number is the address modulo 16.  These are its only writes; it reads
    the status register between 1 and 1000 times and returns 0. *)
Theorem stl_f4_flash_erase_writes
        (fuel : nat) (sl : stlink P) (addr_page : Z) :
  wf_session sl -> (1000 <= fuel)%nat ->
  exists sl',
    stl_f4_flash_erase be fuel sl addr_page = Some (0, sl') /\
    filter is_write (ops_since sl sl')
    = [Wr32 F4_FLASH_KEYR FLASH_KEY1; Wr32 F4_FLASH_KEYR FLASH_KEY2;
       Wr32 F4_FLASH_SR 0xF3;
       Wr32 F4_FLASH_CR (if addr_page =? 0xa11 then FLASH_CR_MER
                         else 0x00202 + 8 * (addr_page mod 16));
       Wr32 F4_FLASH_CR (if addr_page =? 0xa11 then 0x10004
                         else 0x10202 + 8 * (addr_page mod 16))] /\
    (1 <= length (reads_of be F4_FLASH_SR (ops_since sl sl')) )%nat.
Proof.
  intros Hwf Hf. unfold stl_f4_flash_erase.
  assert (RK : 0 <= F4_FLASH_KEYR < 2 ^ 32) by (cbn; lia).
  assert (RS : 0 <= F4_FLASH_SR < 2 ^ 32) by (cbn; lia).
  assert (RC : 0 <= F4_FLASH_CR < 2 ^ 32) by (cbn; lia).
  assert (RD : Forall (fun a => 0 <= a < 2 ^ 32) [F4_FLASH_SR; F4_FLASH_CR])
    by (repeat constructor; cbn; lia).
  destruct (optional_diag_frame be (verbose sl >? 1) [F4_FLASH_SR; F4_FLASH_CR] sl
              Hwf RD) as (d0 & F0 & W0 & _).
  set (sl0 := if verbose sl >? 1 then _ else sl) in *.
  pose proof (sl_wr32_twice sl0 F4_FLASH_KEYR FLASH_KEY1 F4_FLASH_KEYR FLASH_KEY2
                (frame_wf _ _ _ F0) RK RK) as F2.
  set (sl2 := sl_wr32 be (sl_wr32 be sl0 F4_FLASH_KEYR FLASH_KEY1)
                      F4_FLASH_KEYR FLASH_KEY2) in *.
  pose proof (sl_wr32_frame be sl2 F4_FLASH_SR 0xF3 (frame_wf _ _ _ F2) RS) as F3.
  set (sl3 := sl_wr32 be sl2 F4_FLASH_SR 0xF3) in *.
  destruct (optional_diag_frame be (verbose sl3 >? 1) [F4_FLASH_SR; F4_FLASH_CR] sl3
              (frame_wf _ _ _ F3) RD) as (d4 & F4 & W4 & _).
  set (sl4 := if verbose sl3 >? 1 then _ else sl3) in *.
  cbv zeta.
  set (sl5 := if addr_page =? 0xa11 then _ else _).
  assert (F5 : frame sl4 sl5
                 [Wr32 F4_FLASH_CR (if addr_page =? 0xa11 then FLASH_CR_MER
                                    else 0x00202 + 8 * (addr_page mod 16));
                  Wr32 F4_FLASH_CR (if addr_page =? 0xa11 then 0x10004
                                    else 0x10202 + 8 * (addr_page mod 16))]).
  { subst sl5. destruct (addr_page =? 0xa11).
    - exact (sl_wr32_twice sl4 _ _ _ _ (frame_wf _ _ _ F4) RC RC).
    - rewrite <- (f4_sector_word 0x00202 addr_page) by (left; reflexivity).
      rewrite <- (f4_sector_word 0x10202 addr_page) by (right; reflexivity).
      exact (sl_wr32_twice sl4 _ _ _ _ (frame_wf _ _ _ F4) RC RC). }
  destruct (erase_poll_spec be fuel sl5 F4_FLASH_SR F4_FLASH_SR_BSY 0
              (frame_wf _ _ _ F5) RS ltac:(lia) ltac:(lia))
    as (busy & final & sl' & R & F6 & _).
  rewrite R. exists sl'. split; [reflexivity|].
  pose proof (frame_trans _ _ _ _ _ F0
               (frame_trans _ _ _ _ _ F2
                 (frame_trans _ _ _ _ _ F3
                   (frame_trans _ _ _ _ _ F4
                     (frame_trans _ _ _ _ _ F5 F6))))) as F.
  rewrite (frame_ops_since _ _ _ F).
  split.
  - rewrite !filter_app, W0, W4, filter_is_write_reads. reflexivity.
  - unfold reads_of. rewrite !flat_map_app, !length_app.
    cbn [flat_map Rd32 length app]. rewrite Z.eqb_refl. cbn [length app]. lia.
Qed.

(** X6.  The L1 erase driver writes both key pairs and then, for the
    sentinel 0xa11, 0x01 and 0xAA to the option byte register.  For every
    other address it writes the sector-erase words of the F4 controller
    to the F4 control-register address, which on this controller is the
    program key register; the sector number is again the address modulo
    16.  These are its only writes, and it returns 0. *)
Theorem stl_L1_flash_erase_writes
        (fuel : nat) (sl : stlink P) (addr_page : Z) :
  wf_session sl -> (1000 <= fuel)%nat ->
  F4_FLASH_CR = L15_FLASH_PRGKEYR /\
  exists sl',
    stl_L1_flash_erase be fuel sl addr_page = Some (0, sl') /\
    filter is_write (ops_since sl sl')
    = [Wr32 L15_FLASH_PEKEYR L15_FLASH_PEKEY1;
       Wr32 L15_FLASH_PEKEYR L15_FLASH_PEKEY2;
       Wr32 L15_FLASH_PRGKEYR L15_FLASH_PRGKEY1;
       Wr32 L15_FLASH_PRGKEYR L15_FLASH_PRGKEY2]
      ++ (if addr_page =? 0xa11
          then [Wr32 L15_FLASH_OBR 0x01; Wr32 L15_FLASH_OBR 0xAA]
          else [Wr32 F4_FLASH_CR (0x00202 + 8 * (addr_page mod 16));
                Wr32 F4_FLASH_CR (0x10202 + 8 * (addr_page mod 16))]).
Proof.
  intros Hwf Hf. split; [reflexivity|]. unfold stl_L1_flash_erase.
  assert (RP : 0 <= L15_FLASH_PEKEYR < 2 ^ 32) by (cbn; lia).
  assert (RG : 0 <= L15_FLASH_PRGKEYR < 2 ^ 32) by (cbn; lia).
  assert (RS : 0 <= L15_FLASH_SR < 2 ^ 32) by (cbn; lia).
  assert (RO : 0 <= L15_FLASH_OBR < 2 ^ 32) by (cbn; lia).
  assert (RC : 0 <= F4_FLASH_CR < 2 ^ 32) by (cbn; lia).
  destruct (optional_diag_frame be (verbose sl >? 1) [L15_FLASH_ACR; L15_FLASH_ACR]
              sl Hwf) as (d0 & F0 & W0 & _).
  { repeat constructor; vm_compute; (discriminate || reflexivity). }
  set (sl0 := if verbose sl >? 1 then _ else sl) in *.
  pose proof (sl_wr32_twice sl0 L15_FLASH_PEKEYR L15_FLASH_PEKEY1
                L15_FLASH_PEKEYR L15_FLASH_PEKEY2 (frame_wf _ _ _ F0) RP RP) as F2.
  set (sl2 := sl_wr32 be (sl_wr32 be sl0 L15_FLASH_PEKEYR L15_FLASH_PEKEY1)
                      L15_FLASH_PEKEYR L15_FLASH_PEKEY2) in *.
  pose proof (sl_wr32_twice sl2 L15_FLASH_PRGKEYR L15_FLASH_PRGKEY1
                L15_FLASH_PRGKEYR L15_FLASH_PRGKEY2 (frame_wf _ _ _ F2) RG RG) as F4.
  set (sl4 := sl_wr32 be (sl_wr32 be sl2 L15_FLASH_PRGKEYR L15_FLASH_PRGKEY1)
                      L15_FLASH_PRGKEYR L15_FLASH_PRGKEY2) in *.
  destruct (optional_diag_frame be (verbose sl4 >? 1)
              [L15_FLASH_PECR; L15_FLASH_ACR; L15_FLASH_OBR] sl4
              (frame_wf _ _ _ F4)) as (d5 & F5 & W5 & _).
  { repeat constructor; vm_compute; (discriminate || reflexivity). }
  set (sl5 := if verbose sl4 >? 1 then _ else sl4) in *.
  cbv zeta.
  set (sl6 := if addr_page =? 0xa11 then _ else _).
  assert (F6 : frame sl5 sl6
                 (if addr_page =? 0xa11
                  then [Wr32 L15_FLASH_OBR 0x01; Wr32 L15_FLASH_OBR 0xAA]
                  else [Wr32 F4_FLASH_CR (0x00202 + 8 * (addr_page mod 16));
                        Wr32 F4_FLASH_CR (0x10202 + 8 * (addr_page mod 16))])).
  { subst sl6. destruct (addr_page =? 0xa11).
    - exact (sl_wr32_twice sl5 _ _ _ _ (frame_wf _ _ _ F5) RO RO).
    - rewrite <- (f4_sector_word 0x00202 addr_page) by (left; reflexivity).
      rewrite <- (f4_sector_word 0x10202 addr_page) by (right; reflexivity).
      exact (sl_wr32_twice sl5 _ _ _ _ (frame_wf _ _ _ F5) RC RC). }
  destruct (erase_poll_spec be fuel sl6 L15_FLASH_SR FLASH_SR_BSY 0
              (frame_wf _ _ _ F6) RS ltac:(lia) ltac:(lia))
    as (busy & final & sl' & R & F7 & _).
  rewrite R. exists sl'. split; [reflexivity|].
  pose proof (frame_trans _ _ _ _ _ F0
               (frame_trans _ _ _ _ _ F2
                 (frame_trans _ _ _ _ _ F4
                   (frame_trans _ _ _ _ _ F5
                     (frame_trans _ _ _ _ _ F6 F7))))) as F.
  rewrite (frame_ops_since _ _ _ F).
  rewrite !filter_app, W0, W5, filter_is_write_reads.
  destruct (addr_page =? 0xa11); reflexivity.
Qed.

(** X7.  An F1 mass erase (the sentinel 0xa11) sends, as its only writes
    and in this order, the two keys, the error-clear word, MER and then
    STRT|MER to the control register; it never writes the address
    register.  It then reads the status register for as long as the busy
    bit is set, at most 1000 times: every read but the last shows the busy
    bit, and the last one either shows it clear or is the 1000th.  The
    result is 0 exactly when EOP is set in the last status read, and 1
    otherwise. *)
Theorem stl_f1_flash_mass_erase_sequence (fuel : nat) (sl : stlink P) :
  wf_session sl -> (1000 <= fuel)%nat ->
  exists ret sl' diag busy final tail,
    stl_f1_flash_erase be fuel sl 0xa11 = Some (ret, sl') /\
    ops_since sl sl' =
      [Wr32 FLASH_KEYR FLASH_KEY1; Wr32 FLASH_KEYR FLASH_KEY2;
       Wr32 FLASH_SR 0x34]
      ++ diag
      ++ [Wr32 FLASH_CR FLASH_CR_MER; Wr32 FLASH_CR 0x44]
      ++ map (Rd32 FLASH_SR) busy ++ [Rd32 FLASH_SR final] ++ tail /\
    filter is_write diag = [] /\
    filter is_write tail = [] /\
    Forall (fun g => Z.land (sr_value be g) FLASH_SR_BSY <> 0) busy /\
    (length busy < 1000)%nat /\
    (Z.land (sr_value be final) FLASH_SR_BSY = 0 \/ length busy = 999%nat) /\
    (ret = 0 \/ ret = 1) /\
    (ret = 0 <-> Z.land (sr_value be final) FLASH_SR_EOP <> 0).
Proof.
  intros Hwf Hf. unfold stl_f1_flash_erase.
  assert (RK : 0 <= FLASH_KEYR < 2 ^ 32) by (cbn; lia).
  assert (RS : 0 <= FLASH_SR < 2 ^ 32) by (cbn; lia).
  assert (RC : 0 <= FLASH_CR < 2 ^ 32) by (cbn; lia).
  pose proof (sl_wr32_twice sl FLASH_KEYR FLASH_KEY1 FLASH_KEYR FLASH_KEY2
                Hwf RK RK) as F2.
  set (sl2 := sl_wr32 be (sl_wr32 be sl FLASH_KEYR FLASH_KEY1)
                      FLASH_KEYR FLASH_KEY2) in *.
  pose proof (sl_wr32_frame be sl2 FLASH_SR
                (Z.lor (Z.lor FLASH_SR_EOP FLASH_SR_WRPRTERR) FLASH_SR_PGERR)
                (frame_wf _ _ _ F2) RS) as F3.
  set (sl3 := sl_wr32 be sl2 FLASH_SR _) in *.
  destruct (optional_diag_frame be (verbose sl3 >? 1) [FLASH_SR; FLASH_CR] sl3
              (frame_wf _ _ _ F3)) as (diag & F4 & W4 & _).
  { repeat constructor; cbn; lia. }
  set (sl4 := if verbose sl3 >? 1 then _ else sl3) in *.
  change (0xa11 =? 0xa11) with true. cbv iota zeta.
  pose proof (sl_wr32_twice sl4 FLASH_CR FLASH_CR_MER FLASH_CR
                (Z.lor FLASH_CR_STRT FLASH_CR_MER) (frame_wf _ _ _ F4) RC RC) as F6.
  set (sl6 := sl_wr32 be (sl_wr32 be sl4 FLASH_CR FLASH_CR_MER) FLASH_CR _) in *.
  destruct (erase_poll_spec be fuel sl6 FLASH_SR FLASH_SR_BSY 0
              (frame_wf _ _ _ F6) RS ltac:(lia) ltac:(lia))
    as (busy & final & sl8 & R & F8 & B & L & D).
  rewrite R.
  pose proof (frame_trans _ _ _ _ _ F2
               (frame_trans _ _ _ _ _ F3
                 (frame_trans _ _ _ _ _ F4
                   (frame_trans _ _ _ _ _ F6 F8)))) as F.
  cbn [app] in F.
  destruct (Z.land (sr_value be final) FLASH_SR_EOP =? 0) eqn:C.
  - destruct (diag_reads_frame be [FLASH_SR] sl8 (frame_wf _ _ _ F8))
      as (gots & F9 & L9).
    { repeat constructor; cbn; lia. }
    pose proof (frame_trans _ _ _ _ _ F F9) as F'.
    exists 1, (diag_reads be sl8 [FLASH_SR]), diag, busy, final.
    exists (map (fun ag : Z * list Z => Rd32 (fst ag) (snd ag))
                (combine [FLASH_SR] gots)).
    split; [reflexivity|]. split.
    + rewrite (frame_ops_since _ _ _ F'). cbn [app].
      norm_app. reflexivity.
    + split; [exact W4|]. split; [apply diag_reads_no_write|].
      split; [exact B|]. split; [lia|].
      split; [destruct D as [D|D]; [left; exact D | right; lia]|].
      split; [right; reflexivity|].
      apply Z.eqb_eq in C. split; intros H; [discriminate H | contradiction].
  - exists 0, sl8, diag, busy, final, [].
    split; [reflexivity|]. split.
    + rewrite (frame_ops_since _ _ _ F). cbn [app].
      norm_app. reflexivity.
    + split; [exact W4|]. split; [reflexivity|].
      split; [exact B|]. split; [lia|].
      split; [destruct D as [D|D]; [left; exact D | right; lia]|].
      split; [left; reflexivity|].
      apply Z.eqb_neq in C. split; intros H; [exact C | reflexivity].
Qed.

(** The halt poll from a fail count [fc] on. *)
Lemma flash_write_poll_trace (fuel : nat) (sl : stlink P) (fc : Z) :
  wf_session sl -> 0 <= fc <= FLASH_POLL_LIMIT ->
  FLASH_POLL_LIMIT + 1 - fc <= Z.of_nat fuel ->
  exists halted sl' seen last tail,
    flash_write_poll be fuel sl fc = Some (halted, sl') /\
    frame sl sl' (map OpGetStatus seen ++ [OpGetStatus last] ++ tail) /\
    Forall (fun g => status_value be g <> STLINK_CORE_HALTED) seen /\
    fc + Z.of_nat (length seen) <= FLASH_POLL_LIMIT /\
    (halted = true ->
     status_value be last = STLINK_CORE_HALTED /\ tail = []) /\
    (halted = false ->
     status_value be last <> STLINK_CORE_HALTED /\
     fc + Z.of_nat (length seen) = FLASH_POLL_LIMIT /\
     (verbose sl = 0 -> tail = []) /\
     (verbose sl <> 0 ->
      exists a b c,
        length tail = 3%nat /\ In (Rd32 FLASH_SR a) tail /\
        In (Rd32 FLASH_CR b) tail /\ In (OpGetStatus c) tail)).
Proof.
  revert sl fc.
  induction fuel as [|fuel IH]; intros sl fc Hwf Hfc Hf.
  - unfold FLASH_POLL_LIMIT in *. lia.
  - cbn [flash_write_poll].
    destruct (stl_get_status_frame be sl Hwf) as (got & F & V & _).
    destruct (stl_get_status be sl) as [st sl1] eqn:E. cbn [fst snd] in F, V.
    subst st.
    assert (Hv : verbose sl1 = verbose sl) by (destruct F as (_ & _ & Hv & _); exact Hv).
    destruct (status_value be got =? STLINK_CORE_HALTED) eqn:C; cbn [negb].
    + apply Z.eqb_eq in C.
      exists true, sl1, [], got, []. split; [reflexivity|].
      split; [exact F|]. split; [constructor|].
      split; [cbn; lia|]. split; [intros _; split; [exact C|reflexivity]|].
      discriminate.
    + apply Z.eqb_neq in C.
      destruct (fc + 1 >? FLASH_POLL_LIMIT) eqn:G.
      * rewrite Z.gtb_ltb in G. apply Z.ltb_lt in G.
        destruct (verbose sl1 =? 0) eqn:Vb; cbn [negb].
        -- apply Z.eqb_eq in Vb.
           exists false, sl1, [], got, []. split; [reflexivity|].
           split; [exact F|]. split; [constructor|].
           split; [cbn; lia|]. split; [discriminate|].
           intros _. split; [exact C|]. split; [cbn; lia|].
           split; [reflexivity|]. intros N. rewrite <- Hv in N. contradiction.
        -- apply Z.eqb_neq in Vb.
           destruct (diag_reads_frame be [FLASH_SR; FLASH_CR] sl1
                       (frame_wf _ _ _ F))
             as (gots & F' & L).
           { repeat constructor; cbn; lia. }
           destruct gots as [|g1 [|g2 [|]]]; try discriminate L.
           destruct (stl_get_status_frame be (diag_reads be sl1 [FLASH_SR; FLASH_CR])
                       (frame_wf _ _ _ F')) as (got' & F'' & _).
           exists false, (snd (stl_get_status be (diag_reads be sl1 [FLASH_SR; FLASH_CR]))),
                  [], got, [Rd32 FLASH_SR g1; Rd32 FLASH_CR g2; OpGetStatus got'].
           split; [reflexivity|].
           split; [exact (frame_trans _ _ _ _ _ F (frame_trans _ _ _ _ _ F' F''))|].
           split; [constructor|].
           split; [cbn; lia|]. split; [discriminate|].
           intros _. split; [exact C|]. split; [cbn; lia|].
           split; [intros N; rewrite <- Hv in N; contradiction|].
           intros _. exists g1, g2, got'. cbn [length In].
           repeat split; auto.
      * rewrite Z.gtb_ltb in G. apply Z.ltb_ge in G.
        destruct (IH sl1 (fc + 1) (frame_wf _ _ _ F) ltac:(lia) ltac:(lia))
          as (halted & sl' & seen & last & tail & R & F' & A & B & H1 & H2).
        exists halted, sl', (got :: seen), last, tail.
        split; [exact R|].
        split; [exact (frame_trans _ _ _ _ _ F F')|].
        split; [constructor; assumption|].
        cbn [length]. rewrite Nat2Z.inj_succ.
        split; [lia|]. split; [exact H1|].
        intros Hh. destruct (H2 Hh) as (L1 & L2 & L3 & L4).
        rewrite Hv in L3, L4.
        split; [exact L1|]. split; [lia|]. split; assumption.
Qed.

(** X8.  The wait for the loader to halt sends between 1 and 201 status
    commands and stops at the first status that reads as halted.  It
    gives up exactly when 201 statuses in a row read otherwise; only then,
    and only in verbose mode, does it make three more exchanges for its
    message: a read of FLASH_SR, a read of FLASH_CR and one more status
    command, in an order the statement leaves open (they are arguments of
    one [printf]). *)
Theorem flash_write_poll_bound (fuel : nat) (sl : stlink P) :
  wf_session sl -> (201 <= fuel)%nat ->
  exists halted sl' seen last tail,
    flash_write_poll be fuel sl 0 = Some (halted, sl') /\
    ops_since sl sl' = map OpGetStatus seen ++ [OpGetStatus last] ++ tail /\
    Forall (fun g => status_value be g <> STLINK_CORE_HALTED) seen /\
    (length seen <= 200)%nat /\
    (halted = true <-> status_value be last = STLINK_CORE_HALTED) /\
    (halted = false -> length seen = 200%nat) /\
    (halted = true \/ verbose sl = 0 -> tail = []) /\
    (halted = false -> verbose sl <> 0 ->
     exists a b c,
       length tail = 3%nat /\ In (Rd32 FLASH_SR a) tail /\
       In (Rd32 FLASH_CR b) tail /\ In (OpGetStatus c) tail).
Proof.
  intros Hwf Hf.
  destruct (flash_write_poll_trace fuel sl 0 Hwf)
    as (halted & sl' & seen & last & tail & R & F & A & B & H1 & H2).
  { unfold FLASH_POLL_LIMIT. lia. }
  { unfold FLASH_POLL_LIMIT. lia. }
  unfold FLASH_POLL_LIMIT in *.
  exists halted, sl', seen, last, tail.
  split; [exact R|]. split; [exact (frame_ops_since _ _ _ F)|].
  split; [exact A|]. split; [lia|].
  destruct halted.
  - destruct (H1 eq_refl) as [L1 L2].
    split; [split; intros _; [exact L1 | reflexivity]|].
    split; [discriminate|]. split; [intros _; exact L2|]. discriminate.
  - destruct (H2 eq_refl) as (L1 & L2 & L3 & L4).
    split; [split; [discriminate | intros N; contradiction]|].
    split; [intros _; lia|].
    split; [intros [N|N]; [discriminate N | exact (L3 N)]|].
    intros _. exact L4.
Qed.

End MoreErase.

Lemma stl_f4_flash_erase_writes_witness :
  let sl := sim_session 0 13 probe_halting in
  exists sl',
    stl_f4_flash_erase false 1000 sl 0x08004000 = Some (0, sl') /\
    filter is_write (ops_since sl sl')
    = [Wr32 F4_FLASH_KEYR FLASH_KEY1; Wr32 F4_FLASH_KEYR FLASH_KEY2;
       Wr32 F4_FLASH_SR 0xF3;
       Wr32 F4_FLASH_CR 0x00202; Wr32 F4_FLASH_CR 0x10202] /\
    (1 <= length (reads_of false F4_FLASH_SR (ops_since sl sl')))%nat.
Proof.
  intros sl.
  exact (stl_f4_flash_erase_writes false 1000 sl 0x08004000 eq_refl (le_n 1000)).
Defined.

Lemma stl_L1_flash_erase_writes_witness :
  let sl := sim_session 0 11 probe_halting in
  exists sl',
    stl_L1_flash_erase false 1000 sl 0x08000100 = Some (0, sl') /\
    filter is_write (ops_since sl sl')
    = [Wr32 L15_FLASH_PEKEYR L15_FLASH_PEKEY1;
       Wr32 L15_FLASH_PEKEYR L15_FLASH_PEKEY2;
       Wr32 L15_FLASH_PRGKEYR L15_FLASH_PRGKEY1;
       Wr32 L15_FLASH_PRGKEYR L15_FLASH_PRGKEY2;
       Wr32 L15_FLASH_PRGKEYR 0x00202; Wr32 L15_FLASH_PRGKEYR 0x10202].
Proof.
  intros sl.
  exact (proj2 (stl_L1_flash_erase_writes false 1000 sl 0x08000100 eq_refl
                  (le_n 1000))).
Defined.

Lemma stl_f1_flash_mass_erase_sequence_witness :
  let sl := sim_session 0 4 probe_erasing in
  exists ret sl',
    stl_f1_flash_erase false 1000 sl 0xa11 = Some (ret, sl') /\
    filter is_write (ops_since sl sl')
    = [Wr32 FLASH_KEYR FLASH_KEY1; Wr32 FLASH_KEYR FLASH_KEY2;
       Wr32 FLASH_SR 0x34; Wr32 FLASH_CR FLASH_CR_MER; Wr32 FLASH_CR 0x44].
Proof.
  intros sl.
  destruct (stl_f1_flash_mass_erase_sequence false 1000 sl eq_refl (le_n 1000))
    as (ret & sl' & diag & busy & final & tail & R & O & W1 & W2 & _).
  exists ret, sl'. split; [exact R|].
  rewrite O. rewrite !filter_app, W1, W2, filter_is_write_reads. reflexivity.
Defined.

Lemma flash_write_poll_bound_witness :
  let sl := sim_session 0 0 probe_running in
  exists halted sl' seen last,
    flash_write_poll false 201 sl 0 = Some (halted, sl') /\
    ops_since sl sl' = map OpGetStatus seen ++ [OpGetStatus last] /\
    (length seen <= 200)%nat.
Proof.
  intros sl.
  destruct (flash_write_poll_bound false 201 sl eq_refl (le_n 201))
    as (halted & sl' & seen & last & tail & R & O & _ & L & _ & _ & Tl & _).
  exists halted, sl', seen, last.
  rewrite (Tl (or_intror eq_refl)) in O.
  split; [exact R|]. split; [exact O | exact L].
Defined.

(** ** Reading target memory *)

Lemma seqZ_length (a : Z) (n : nat) : length (seqZ a n) = n.
Proof. unfold seqZ. now rewrite length_map, length_seq. Qed.

Lemma seqZ_shift (m : nat) :
  forall (a : Z) (k : nat),
    map (fun i => a + Z.of_nat i) (seq k m) = seqZ (a + Z.of_nat k) m.
Proof.
  unfold seqZ. induction m as [|m IH]; intros a k; [reflexivity|].
  cbn [seq map]. f_equal; [lia|].
  rewrite (IH a (S k)), (IH (a + Z.of_nat k) 1%nat).
  apply map_ext. intros i. lia.
Qed.

Lemma seqZ_app (a : Z) (n m : nat) :
  seqZ a (n + m) = seqZ a n ++ seqZ (a + Z.of_nat n) m.
Proof.
  unfold seqZ at 1 2. rewrite seq_app, map_app. f_equal.
  apply seqZ_shift.
Qed.

Lemma firstn_seqZ (a : Z) (k n : nat) :
  (k <= n)%nat -> firstn k (seqZ a n) = seqZ a k.
Proof.
  intros H. replace n with (k + (n - k))%nat by lia.
  rewrite seqZ_app, firstn_app, seqZ_length, Nat.sub_diag. cbn [firstn].
  rewrite app_nil_r. apply firstn_all2. rewrite seqZ_length. lia.
Qed.

Lemma store_bytes_mid (off : Z) (src pre mid post : list Z) :
  length pre = Z.to_nat off -> length mid = length src ->
  store_bytes off src (pre ++ mid ++ post) = pre ++ src ++ post.
Proof.
  intros Hp Hm. unfold store_bytes.
  rewrite firstn_app, <- Hp, firstn_all, Nat.sub_diag. cbn [firstn].
  rewrite app_nil_r. f_equal. f_equal.
  rewrite skipn_app, skipn_all2 by lia. cbn [app].
  replace (length pre + length src - length pre)%nat with (length mid) by lia.
  rewrite skipn_app, skipn_all, Nat.sub_diag. reflexivity.
Qed.

(** The size [stl_read] asks for in one block command. *)
Lemma read_xfer_size (size : Z) :
  0 <= size ->
  let x := if size >? READ_BLK_SIZE then READ_BLK_SIZE
           else clear_low2 (size + 3) in
  0 <= x <= 1024 /\ x mod 4 = 0 /\
  (size <= 1024 -> size <= x) /\
  (size mod 4 = 0 -> size <= 1024 -> x = size) /\
  (1024 < size -> x = 1024).
Proof.
  intros H x. subst x. unfold READ_BLK_SIZE.
  destruct (size >? 1024) eqn:C.
  - rewrite Z.gtb_ltb in C. apply Z.ltb_lt in C.
    repeat split; try lia. 
  - rewrite Z.gtb_ltb in C. apply Z.ltb_ge in C.
    rewrite clear_low2_div.
    repeat split; try (Z.to_euclidean_division_equations; lia).
Qed.

Lemma read_wire_length (x : Z) :
  0 <= x <= 1024 -> x mod 4 = 0 -> u16 (clear_low2 (u16 x + 3)) = x.
Proof.
  intros H M. unfold u16. rewrite (Z.mod_small x) by lia.
  rewrite clear_low2_div. rewrite Z.mod_small;
    Z.to_euclidean_division_equations; lia.
Qed.

Lemma u32_aligned (a : Z) : a mod 4 = 0 -> u32 a mod 4 = 0.
Proof.
  intros H. unfold u32. change (2 ^ 32) with 4294967296.
  Z.to_euclidean_division_equations. lia.
Qed.

Lemma read_block_count_step (size : Z) :
  1024 < size -> size mod 4 = 0 ->
  read_block_count size = 1 + read_block_count (size - 1024).
Proof.
  intros H M. unfold read_block_count, READ_BLK_SIZE.
  assert (M' : (size - 1024) mod 4 = 0)
    by (Z.to_euclidean_division_equations; lia).
  rewrite M, M'. cbn [Z.eqb].
  Z.to_euclidean_division_equations. lia.
Qed.

Lemma read_block_count_last (size : Z) :
  0 <= size -> size mod 4 <> 0 \/ size <= 1024 -> read_block_count size = 1.
Proof.
  intros H D. unfold read_block_count, READ_BLK_SIZE.
  destruct (size mod 4 =? 0) eqn:C; [|reflexivity].
  apply Z.eqb_eq in C. destruct D as [D|D]; [contradiction|].
  Z.to_euclidean_division_equations. lia.
Qed.

Lemma pattern_serves : serves_memory pattern_mem.
Proof.
  intros h c k n H0 H1.
  cbn [libusb_bulk_transfer pattern_transport]. unfold pattern_transfer.
  change (USB_PIPE_OUT =? USB_PIPE_OUT) with true. cbn [fst].
  change (USB_PIPE_IN =? USB_PIPE_OUT) with false. cbn [pp_cmd].
  rewrite H0, H1, !Z.eqb_refl. reflexivity.
Qed.

Section MoreRead.

Context {P : Type} {T : Transport P}.
Variable be : bool.

Lemma stl_read_blocks_commands (fuel : nat) :
  forall (sl : stlink P) (addr : Z) (buf : list Z) (size offset : Z),
    wf_session sl -> 0 <= size -> (addr + offset) mod 4 = 0 ->
    (0 < fuel)%nat -> size <= 1024 * Z.of_nat fuel ->
    exists buf' sl' ops,
      stl_read_blocks be fuel sl addr buf size offset = Some (0, buf', sl') /\
      frame sl sl' ops /\
      forallb aligned_read ops = true /\
      Z.of_nat (length ops) = read_block_count size.
Proof.
  induction fuel as [|fuel IH]; intros sl addr buf size offset Hwf Hs Hal Hf Hsz;
    [lia|].
  cbn [stl_read_blocks].
  pose proof (read_xfer_size size Hs) as X. cbv zeta in X.
  set (x := if size >? READ_BLK_SIZE then READ_BLK_SIZE
            else clear_low2 (size + 3)) in *.
  destruct X as (X1 & X2 & X3 & X4 & X5).
  destruct (stl_rd32_cmd_frame be sl (u32 (addr + offset)) (u16 x) Hwf
              (u32_range _)) as (got & F & _).
  rewrite (read_wire_length x X1 X2) in F.
  cbv zeta.
  set (sl1 := snd (stl_rd32_cmd be sl (u32 (addr + offset)) (u16 x))) in *.
  assert (A : aligned_read (OpReadMem32 (u32 (addr + offset)) x got) = true).
  { cbn [aligned_read]. rewrite (u32_aligned _ Hal), X2.
    unfold READ_BLK_SIZE.
    assert (E : (x <=? 1024) = true) by (apply Z.leb_le; lia).
    rewrite E. reflexivity. }
  rewrite land3_mod4.
  destruct (size mod 4 =? 0) eqn:M; cbn [negb].
  - apply Z.eqb_eq in M.
    destruct (size - x >? 0) eqn:C.
    + rewrite Z.gtb_ltb in C. apply Z.ltb_lt in C.
      assert (Hbig : 1024 < size) by lia.
      specialize (X5 Hbig).
      destruct (IH sl1 addr
                   (store_bytes offset (load_bytes 0 x (data_buf sl1)) buf)
                   (size - x) (offset + x))
        as (buf' & sl' & ops & R & F' & A' & L');
        [exact (frame_wf _ _ _ F) | lia
        | rewrite X5; Z.to_euclidean_division_equations; lia | lia | lia |].
      exists buf', sl', (OpReadMem32 (u32 (addr + offset)) x got :: ops).
      split; [exact R|].
      split; [exact (frame_trans _ _ _ _ _ F F')|].
      split; [cbn [forallb]; rewrite A; exact A'|].
      cbn [length]. rewrite Nat2Z.inj_succ, L', X5.
      rewrite (read_block_count_step size Hbig M). lia.
    + rewrite Z.gtb_ltb in C. apply Z.ltb_ge in C.
      assert (Hsm : size <= 1024) by lia.
      rewrite (X4 M Hsm) in *. rewrite Z.sub_diag.
      eexists _, sl1, _. split; [reflexivity|]. split; [exact F|].
      split; [cbn [forallb]; rewrite A; reflexivity|].
      rewrite read_block_count_last by lia. reflexivity.
  - apply Z.eqb_neq in M.
    rewrite Z.sub_diag. change (0 >? 0) with false. cbv iota.
    eexists _, sl1, _. split; [reflexivity|]. split; [exact F|].
    split; [cbn [forallb]; rewrite A; reflexivity|].
    rewrite read_block_count_last by lia. reflexivity.
Qed.

(** X9.  For a size from 0 to 2^31 - 1 that is a multiple of 4, or that
    is at most the 6148 bytes of the send buffer ([Q_BUF_LEN]), [stl_read]
    returns 0.  All it sends are read commands at word-aligned addresses
    for whole words, at most 1024 bytes each: one for the head of an
    unaligned address, then one per block of 1024 bytes when the size is a
    multiple of 4, and a single one when it is not, also when the size is
    above 1024.  (Other sizes make the source copy from beyond its send
    buffer, which [stl_read_blocks] does not model.) *)
Theorem stl_read_commands
        (fuel : nat) (sl : stlink P) (addr : Z) (buf : list Z) (size : Z) :
  wf_session sl -> 0 <= addr < 2 ^ 32 -> 0 <= size < 2 ^ 31 ->
  size mod 4 = 0 \/ size <= Q_BUF_LEN ->
  (0 < fuel)%nat -> size <= 1024 * Z.of_nat fuel ->
  exists buf' sl',
    stl_read be fuel sl addr buf size = Some (0, buf', sl') /\
    forallb aligned_read (ops_since sl sl') = true /\
    Z.of_nat (length (ops_since sl sl'))
    = read_block_count size + (if addr mod 4 =? 0 then 0 else 1).
Proof.
  intros Hwf Ha [Hs _] _ Hf Hsz. unfold stl_read. rewrite land3_mod4.
  destruct (addr mod 4 =? 0) eqn:M; cbn [negb].
  - apply Z.eqb_eq in M.
    destruct (stl_read_blocks_commands fuel sl addr buf size 0 Hwf Hs)
      as (buf' & sl' & ops & R & F & A & L); [rewrite Z.add_0_r; exact M|lia|lia|].
    exists buf', sl'. rewrite (frame_ops_since _ _ _ F).
    split; [exact R|]. split; [exact A|]. lia.
  - apply Z.eqb_neq in M. cbv zeta.
    assert (Hc : 0 <= clear_low2 addr < 2 ^ 32).
    { rewrite clear_low2_div. Z.to_euclidean_division_equations. lia. }
    destruct (stl_rd32_cmd_frame be sl (clear_low2 addr) 4 Hwf Hc)
      as (got & F & _).
    change (u16 (clear_low2 (4 + 3))) with 4 in F.
    set (sl1 := snd (stl_rd32_cmd be sl (clear_low2 addr) 4)) in *.
    destruct (stl_read_blocks_commands fuel sl1 addr
                (store_bytes 0 (load_bytes (addr mod 4) (4 - addr mod 4)
                                           (data_buf sl1)) buf)
                size (4 - addr mod 4) (frame_wf _ _ _ F) Hs)
      as (buf' & sl' & ops & R & F' & A & L);
      [Z.to_euclidean_division_equations; lia | lia | lia |].
    exists buf', sl'.
    rewrite (frame_ops_since _ _ _ (frame_trans _ _ _ _ _ F F')).
    split; [exact R|]. split.
    + cbn [app forallb aligned_read]. rewrite A.
      assert (E : clear_low2 addr mod 4 = 0).
      { rewrite clear_low2_div. Z.to_euclidean_division_equations. lia. }
      rewrite E. reflexivity.
    + cbn [app length]. rewrite Nat2Z.inj_succ. lia.
Qed.

(** What one block command leaves at the head of [data_buf] when the
    probe serves the memory [mem]. *)
Lemma read_block_data (mem : Z -> Z) (sl : stlink P) (a len k : Z) :
  serves_memory mem -> wf_session sl -> 0 <= a < 2 ^ 32 ->
  0 <= len <= 1024 -> len mod 4 = 0 -> 0 <= k <= len ->
  load_bytes 0 k (data_buf (snd (stl_rd32_cmd be sl a (u16 len))))
  = map mem (seqZ a (Z.to_nat k)).
Proof.
  intros Hm Hwf Ha Hl Hl4 Hk.
  assert (Eu : u16 len = len) by (unfold u16; apply Z.mod_small; lia).
  destruct (stl_rd32_cmd_exchange be sl a (u16 len) Hwf Ha)
    as (sent & B0 & B1 & EA & EL & _ & Hd & _).
  cbv zeta in Hd. rewrite Hd. clear Hd.
  rewrite (read_wire_length len Hl Hl4) in EL.
  rewrite (Hm (usb_hand sl) sent 16 (u16 len) B0 B1), EA, EL, Eu.
  assert (G : (if len =? 0 then []
               else load_bytes 0 len (map mem (seqZ a (Z.to_nat len))))
              = map mem (seqZ a (Z.to_nat len))).
  { destruct (len =? 0) eqn:C.
    - apply Z.eqb_eq in C. rewrite C. reflexivity.
    - unfold load_bytes. cbn [Z.to_nat skipn].
      apply firstn_all2. rewrite length_map, seqZ_length. lia. }
  rewrite G. unfold load_bytes, store_bytes. cbn [Z.to_nat skipn firstn app].
  rewrite firstn_app, length_map, seqZ_length.
  replace (Z.to_nat k - Z.to_nat len)%nat with 0%nat by lia.
  cbn [firstn]. rewrite app_nil_r, firstn_map, firstn_seqZ by lia.
  reflexivity.
Qed.

Lemma stl_read_blocks_correct (mem : Z -> Z) (fuel : nat) :
  forall (sl : stlink P) (addr : Z) (pre mid post : list Z) (size offset : Z),
    serves_memory mem -> wf_session sl ->
    0 <= size -> 0 <= offset -> 0 <= addr ->
    addr + offset < 2 ^ 32 -> addr + offset + size <= 2 ^ 32 ->
    size mod 4 = 0 \/ size <= 1024 ->
    length pre = Z.to_nat offset -> length mid = Z.to_nat size ->
    (0 < fuel)%nat -> size <= 1024 * Z.of_nat fuel ->
    exists sl',
      stl_read_blocks be fuel sl addr (pre ++ mid ++ post) size offset
      = Some (0, pre ++ map mem (seqZ (addr + offset) (Z.to_nat size)) ++ post,
              sl').
Proof.
  induction fuel as [|fuel IH];
    intros sl addr pre mid post size offset Hm Hwf Hs Ho Ha Hlo Hhi Hd Hp Hmid
           Hf Hsz; [lia|].
  cbn [stl_read_blocks].
  pose proof (read_xfer_size size Hs) as X. cbv zeta in X.
  set (x := if size >? READ_BLK_SIZE then READ_BLK_SIZE
            else clear_low2 (size + 3)) in *.
  destruct X as (X1 & X2 & X3 & X4 & X5).
  assert (Eu : u32 (addr + offset) = addr + offset)
    by (apply u32_small; lia).
  rewrite Eu.
  destruct (stl_rd32_cmd_frame be sl (addr + offset) (u16 x) Hwf
              ltac:(lia)) as (got & F & _).
  pose proof (fun k => read_block_data mem sl (addr + offset) x k Hm Hwf
                         ltac:(lia) X1 X2) as D.
  cbv zeta.
  set (sl1 := snd (stl_rd32_cmd be sl (addr + offset) (u16 x))) in *.
  rewrite land3_mod4.
  destruct (size mod 4 =? 0) eqn:M; cbn [negb].
  - apply Z.eqb_eq in M.
    destruct (size - x >? 0) eqn:C.
    + rewrite Z.gtb_ltb in C. apply Z.ltb_lt in C.
      assert (Hbig : 1024 < size) by lia.
      specialize (X5 Hbig). rewrite X5 in *.
      rewrite (D 1024) by lia.
      set (blk := map mem (seqZ (addr + offset) (Z.to_nat 1024))).
      assert (Lb : length blk = Z.to_nat 1024)
        by (subst blk; rewrite length_map, seqZ_length; reflexivity).
      rewrite <- (firstn_skipn (Z.to_nat 1024) mid), <- app_assoc.
      rewrite (store_bytes_mid offset blk pre (firstn (Z.to_nat 1024) mid))
        by (try rewrite length_firstn; lia).
      rewrite (app_assoc pre blk).
      destruct (IH sl1 addr (pre ++ blk) (skipn (Z.to_nat 1024) mid) post
                   (size - 1024) (offset + 1024) Hm (frame_wf _ _ _ F))
        as (sl' & R); try lia.
      { Z.to_euclidean_division_equations. lia. }
      { rewrite length_app. lia. }
      { rewrite length_skipn. lia. }
      exists sl'. rewrite R. do 2 f_equal. f_equal.
      rewrite <- app_assoc. f_equal. rewrite app_assoc. f_equal.
      subst blk. rewrite <- map_app. f_equal.
      replace (Z.to_nat size) with (Z.to_nat 1024 + Z.to_nat (size - 1024))%nat
        by lia.
      rewrite seqZ_app. do 2 f_equal. lia.
    + rewrite Z.gtb_ltb in C. apply Z.ltb_ge in C.
      assert (Hsm : size <= 1024) by lia.
      rewrite (X4 M Hsm) in *. rewrite Z.sub_diag.
      rewrite (D size) by lia.
      rewrite store_bytes_mid
        by (try rewrite length_map, seqZ_length; lia).
      exists sl1. reflexivity.
  - apply Z.eqb_neq in M.
    destruct Hd as [Hd|Hd]; [contradiction|].
    rewrite Z.sub_diag. change (0 >? 0) with false. cbv iota.
    rewrite (D size) by lia.
    rewrite store_bytes_mid
      by (try rewrite length_map, seqZ_length; lia).
    exists sl1. reflexivity.
Qed.

(** X10.  When the probe serves a target memory, a read from a
    word-aligned address whose size is a multiple of 4 or at most 1024
    returns 0 and leaves the [size] bytes of that memory from the address
    on at the head of the caller's buffer, and the rest of the buffer as it
    was. *)
Theorem stl_read_aligned_correct
        (mem : Z -> Z) (fuel : nat) (sl : stlink P) (addr : Z) (buf : list Z)
        (size : Z) :
  serves_memory mem -> wf_session sl ->
  0 <= addr < 2 ^ 32 -> addr mod 4 = 0 -> addr + size <= 2 ^ 32 ->
  0 <= size <= Z.of_nat (length buf) ->
  size mod 4 = 0 \/ size <= 1024 ->
  (0 < fuel)%nat -> size <= 1024 * Z.of_nat fuel ->
  exists sl',
    stl_read be fuel sl addr buf size
    = Some (0, map mem (seqZ addr (Z.to_nat size)) ++ skipn (Z.to_nat size) buf,
            sl').
Proof.
  intros Hm Hwf Ha Hal Hhi Hs Hd Hf Hsz.
  unfold stl_read. rewrite land3_mod4, Hal. cbn [Z.eqb negb].
  destruct (stl_read_blocks_correct mem fuel sl addr []
              (firstn (Z.to_nat size) buf) (skipn (Z.to_nat size) buf) size 0
              Hm Hwf) as (sl' & R); try lia; try reflexivity.
  { rewrite length_firstn. lia. }
  cbn [app] in R. rewrite firstn_skipn, Z.add_0_r in R.
  exists sl'. exact R.
Qed.

(** X18.  From an address that is not word-aligned, and for a size that
    is a multiple of 4 or at most 1024, [stl_read] first copies the bytes
    up to the next word boundary and then copies [size] more bytes: when
    the probe serves a target memory and the caller's buffer has room for
    them, it fills the buffer with the target memory over [size] plus that
    many bytes, up to three more than were asked for. *)
Theorem stl_read_unaligned_overrun
        (mem : Z -> Z) (fuel : nat) (sl : stlink P) (addr : Z) (buf : list Z)
        (size : Z) :
  serves_memory mem -> wf_session sl ->
  0 <= addr < 2 ^ 32 -> addr mod 4 <> 0 ->
  0 <= size -> size mod 4 = 0 \/ size <= 1024 ->
  let psz := 4 - addr mod 4 in
  addr + psz + size <= 2 ^ 32 -> addr + psz < 2 ^ 32 ->
  psz + size <= Z.of_nat (length buf) ->
  (0 < fuel)%nat -> size <= 1024 * Z.of_nat fuel ->
  exists sl',
    stl_read be fuel sl addr buf size
    = Some (0, map mem (seqZ addr (Z.to_nat (psz + size)))
               ++ skipn (Z.to_nat (psz + size)) buf, sl').
Proof.
  intros Hm Hwf Ha Hal Hs Hd psz Hhi Hlo Hb Hf Hsz.
  assert (Hm4 : 0 <= addr mod 4 < 4) by (apply Z.mod_pos_bound; lia).
  unfold stl_read. rewrite land3_mod4.
  assert (C : (addr mod 4 =? 0) = false) by (apply Z.eqb_neq; exact Hal).
  rewrite C. cbn [negb]. cbv zeta. fold psz.
  assert (Hc : clear_low2 addr = addr - addr mod 4).
  { rewrite clear_low2_div. Z.to_euclidean_division_equations. lia. }
  assert (Hr : 0 <= clear_low2 addr < 2 ^ 32)
    by (rewrite Hc; Z.to_euclidean_division_equations; lia).
  destruct (stl_rd32_cmd_frame be sl (clear_low2 addr) 4 Hwf Hr)
    as (got & F & _).
  pose proof (read_block_data mem sl (clear_low2 addr) 4 4 Hm Hwf
                Hr ltac:(lia) eq_refl ltac:(lia)) as D.
  change (u16 4) with 4 in D.
  set (sl1 := snd (stl_rd32_cmd be sl (clear_low2 addr) 4)) in *.
  assert (Head : load_bytes (addr mod 4) psz (data_buf sl1)
                 = map mem (seqZ addr (Z.to_nat psz))).
  { unfold load_bytes in *. rewrite firstn_skipn_comm.
    replace (Z.to_nat (addr mod 4) + Z.to_nat psz)%nat with (Z.to_nat 4)
      by (subst psz; lia).
    assert (D' : firstn (Z.to_nat 4) (data_buf sl1)
                 = map mem (seqZ (clear_low2 addr) (Z.to_nat 4))) by exact D.
    rewrite D'.
    replace (Z.to_nat 4)
      with (Z.to_nat (addr mod 4) + Z.to_nat psz)%nat by (subst psz; lia).
    rewrite seqZ_app, map_app, skipn_app, skipn_all2
      by (rewrite length_map, seqZ_length; lia).
    rewrite length_map, seqZ_length, Nat.sub_diag. cbn [app skipn].
    do 2 f_equal. rewrite Hc. lia. }
  rewrite Head.
  set (head := map mem (seqZ addr (Z.to_nat psz))).
  assert (Lh : length head = Z.to_nat psz)
    by (subst head; rewrite length_map, seqZ_length; reflexivity).
  assert (Eb : store_bytes 0 head buf
               = head ++ firstn (Z.to_nat size) (skipn (Z.to_nat psz) buf)
                 ++ skipn (Z.to_nat (psz + size)) buf).
  { rewrite <- (firstn_skipn (Z.to_nat psz) buf) at 1.
    pose proof (store_bytes_mid 0 head [] (firstn (Z.to_nat psz) buf)
                                (skipn (Z.to_nat psz) buf) eq_refl) as E.
    cbn [app] in E. rewrite E by (rewrite length_firstn; subst psz; lia).
    f_equal.
    rewrite <- (firstn_skipn (Z.to_nat size) (skipn (Z.to_nat psz) buf)) at 1.
    f_equal. rewrite skipn_skipn. f_equal. subst psz. lia. }
  rewrite Eb.
  destruct (stl_read_blocks_correct mem fuel sl1 addr head
              (firstn (Z.to_nat size) (skipn (Z.to_nat psz) buf))
              (skipn (Z.to_nat (psz + size)) buf) size psz Hm
              (frame_wf _ _ _ F)) as (sl' & R); try (subst psz; lia).
  { rewrite length_firstn, length_skipn. subst psz. lia. }
  exists sl'. rewrite R. do 2 f_equal. f_equal.
  rewrite app_assoc. f_equal. subst head. rewrite <- map_app. f_equal.
  replace (Z.to_nat (psz + size)) with (Z.to_nat psz + Z.to_nat size)%nat
    by (subst psz; lia).
  rewrite seqZ_app. do 2 f_equal. subst psz. lia.
Qed.

End MoreRead.

Lemma stl_read_commands_witness :
  let sl := sim_session 0 0 probe_pattern in
  exists buf' sl',
    stl_read false 2 sl 0x20000001 (repeat 0 2048) 1030 = Some (0, buf', sl') /\
    forallb aligned_read (ops_since sl sl') = true /\
    length (ops_since sl sl') = 2%nat.
Proof.
  intros sl.
  destruct (stl_read_commands false 2 sl 0x20000001 (repeat 0 2048) 1030)
    as (buf' & sl' & R & A & L);
    [reflexivity | lia | lia | right; unfold Q_BUF_LEN; lia | lia | lia |].
  exists buf', sl'. split; [exact R|]. split; [exact A|].
  apply Nat2Z.inj. rewrite L. reflexivity.
Defined.

Lemma stl_read_aligned_correct_witness :
  exists sl',
    stl_read false 1 pattern_session 0x20000000 (repeat 0 12) 6
    = Some (0, map pattern_mem (seqZ 0x20000000 6) ++ repeat 0 6, sl').
Proof.
  apply (stl_read_aligned_correct false pattern_mem 1 pattern_session 0x20000000
           (repeat 0 12) 6 pattern_serves);
    [reflexivity | lia | reflexivity | lia | cbn; lia | right; lia | lia | lia].
Defined.

Lemma stl_read_unaligned_overrun_witness :
  exists sl',
    stl_read false 1 pattern_session 0x20000001 (repeat 0 8) 4
    = Some (0, map pattern_mem (seqZ 0x20000001 7) ++ [0], sl').
Proof.
  apply (stl_read_unaligned_overrun false pattern_mem 1 pattern_session
           0x20000001 (repeat 0 8) 4 pattern_serves);
    [reflexivity | lia | vm_compute; discriminate | lia | left; reflexivity
    | vm_compute; discriminate | vm_compute; reflexivity
    | vm_compute; discriminate | lia | lia].
Defined.

(** ** Target lookup, breakpoints, mode recovery and the blink test *)

Lemma find_devid_spec (id : Z) (tbl : list stm_chip_params) :
  forall i : Z,
    match find_devid id tbl i with
    | Some j =>
        exists k : nat,
          j = i + Z.of_nat k /\ (k < length tbl)%nat /\
          dbgmcu_idcode (nth k tbl stm_devids_end) = id /\
          forall k' : nat,
            (k' < k)%nat -> dbgmcu_idcode (nth k' tbl stm_devids_end) <> id
    | None => forall c, In c tbl -> dbgmcu_idcode c <> id
    end.
Proof.
  induction tbl as [|c tbl IH]; intros i; cbn [find_devid].
  - intros c [].
  - destruct (id =? dbgmcu_idcode c) eqn:E.
    + apply Z.eqb_eq in E. exists 0%nat.
      split; [lia|]. split; [cbn; lia|]. split; [cbn; congruence|].
      intros k' Hk. lia.
    + apply Z.eqb_neq in E. specialize (IH (i + 1)).
      destruct (find_devid id tbl (i + 1)) as [j|].
      * destruct IH as (k & Ej & Hk & Hid & Hfirst).
        exists (S k). split; [lia|]. split; [cbn; lia|]. split; [exact Hid|].
        intros [|k'] Hk'; [cbn; congruence|].
        cbn [nth]. apply Hfirst. lia.
      * intros c' [<-|Hin]; [congruence|]. apply IH. exact Hin.
Qed.

Lemma skipn_store_bytes (n : nat) (off : Z) (src buf : list Z) :
  (Z.to_nat off + length src <= n)%nat ->
  (Z.to_nat off + length src <= length buf)%nat ->
  skipn n (store_bytes off src buf) = skipn n buf.
Proof.
  intros Hn Hl. unfold store_bytes.
  rewrite skipn_app, length_firstn.
  replace (Nat.min (Z.to_nat off) (length buf)) with (Z.to_nat off) by lia.
  rewrite skipn_all2 by (rewrite length_firstn; lia). cbn [app].
  rewrite skipn_app, skipn_all2 by lia. cbn [app].
  rewrite skipn_skipn. f_equal. lia.
Qed.

Lemma memset_store_bytes (off : Z) (src buf : list Z) (c n : Z) :
  (Z.to_nat off + length src <= Z.to_nat n)%nat ->
  (Z.to_nat off + length src <= length buf)%nat ->
  memset (store_bytes off src buf) c n = memset buf c n.
Proof.
  intros Hn Hl. unfold memset.
  set (r := repeat (u8 c) (Z.to_nat n)).
  assert (E : forall X, store_bytes 0 r X = r ++ skipn (length r) X)
    by reflexivity.
  rewrite !E. f_equal. apply skipn_store_bytes; [|exact Hl].
  subst r. rewrite repeat_length. exact Hn.
Qed.

Lemma store_bytes_length (off : Z) (src buf : list Z) :
  (Z.to_nat off + length src <= length buf)%nat ->
  length (store_bytes off src buf) = length buf.
Proof.
  intros H. unfold store_bytes.
  rewrite !length_app, length_firstn, length_skipn. lia.
Qed.

Lemma le_split_mod (n : nat) :
  forall (k : nat) (v : Z),
    (n <= k)%nat -> le_split n (v mod 2 ^ (8 * Z.of_nat k)) = le_split n v.
Proof.
  induction n as [|n IH]; intros k v H; [reflexivity|].
  cbn [le_split]. f_equal.
  - apply Z.bits_inj'. intros i Hi.
    rewrite !Z.land_spec, Z.testbit_mod_pow2 by lia.
    change 255 with (Z.ones 8). rewrite Z.testbit_ones_nonneg by lia.
    destruct (i <? 8) eqn:C; [|now rewrite !andb_false_r].
    apply Z.ltb_lt in C.
    assert (E : (i <? 8 * Z.of_nat k) = true) by (apply Z.ltb_lt; lia).
    now rewrite E.
  - transitivity (le_split n (Z.shiftr v 8 mod 2 ^ (8 * Z.of_nat (k - 1)))).
    + f_equal. apply Z.bits_inj'. intros i Hi.
      rewrite Z.shiftr_spec, !Z.testbit_mod_pow2, Z.shiftr_spec by lia.
      f_equal. apply eq_true_iff_eq. rewrite !Z.ltb_lt. lia.
    + apply IH. lia.
Qed.

Lemma Wr32_u32 (a v : Z) : Wr32 a (u32 v) = Wr32 a v.
Proof.
  unfold Wr32, u32. change (2 ^ 32) with (2 ^ (8 * Z.of_nat 4)).
  now rewrite le_split_mod.
Qed.

Lemma aligned_reads_no_write (ops : list op) :
  forallb aligned_read ops = true -> filter is_write ops = [].
Proof.
  induction ops as [|o ops IH]; [reflexivity|].
  cbn [forallb filter]. intros H. apply andb_true_iff in H. destruct H as [H1 H2].
  destruct o; try discriminate H1. cbn [is_write]. apply IH. exact H2.
Qed.

Section MoreTarget.

Context {P : Type} {T : Transport P}.
Variable be : bool.

(** X11.  [stm_id_chip] always returns 0.  It reads the core ID and the
    debug ID code, and the alternative ID register only when the first
    reads zero; the last value read becomes [cpu_idcode].  The chip index
    becomes the first table entry with that ID code, so entry 9, which
    shares its ID code with entry 5, is never selected; when no entry
    matches, the chip index keeps the value it had. *)
Theorem stm_id_chip_lookup (sl : stlink P) :
  wf_session sl ->
  let r := stm_id_chip be sl in
  let id := cpu_idcode (snd r) in
  let idx := chip_index (snd r) in
  fst r = 0 /\
  (exists core got1 tail,
      ops_since sl (snd r)
      = [OpReadCoreID core; Rd32 DBGMCU_IDCODE got1] ++ tail /\
      ((rd32_value be got1 <> 0 /\ tail = [] /\ id = rd32_value be got1) \/
       (rd32_value be got1 = 0 /\
        exists got2,
          tail = [Rd32 0x40015800 got2] /\ id = rd32_value be got2))) /\
  (((forall c, In c stm_devids -> dbgmcu_idcode c <> id) /\
    idx = chip_index sl) \/
   (0 <= idx < 15 /\ idx <> 9 /\ dbgmcu_idcode (devid idx) = id /\
    forall j, 0 <= j < idx -> dbgmcu_idcode (devid j) <> id)).
Proof.
  intros Hwf.
  assert (Tail : forall (s : stlink P) (v : Z),
             let s' := match find_devid v stm_devids 0 with
                       | Some i => set_chip_index (set_cpu_idcode s v) i
                       | None => set_cpu_idcode s v
                       end in
             wire s' = wire s /\ cpu_idcode s' = v /\
             (((forall c, In c stm_devids -> dbgmcu_idcode c <> v) /\
               chip_index s' = chip_index s) \/
              (0 <= chip_index s' < 15 /\ chip_index s' <> 9 /\
               dbgmcu_idcode (devid (chip_index s')) = v /\
               forall j, 0 <= j < chip_index s' ->
                         dbgmcu_idcode (devid j) <> v))).
  { intros s v. pose proof (find_devid_spec v stm_devids 0) as F.
    destruct (find_devid v stm_devids 0) as [i|]; cbv zeta.
    - destruct F as (k & Ei & Hk & Hid & Hfirst).
      split; [reflexivity|]. split; [reflexivity|]. right.
      cbn [set_chip_index chip_index]. subst i. rewrite Z.add_0_l.
      change (length stm_devids) with 15%nat in Hk.
      split; [lia|]. split.
      + intros E9. assert (k = 9%nat) by lia. subst k.
        apply (Hfirst 5%nat); [lia|]. rewrite <- Hid. reflexivity.
      + unfold devid. rewrite Nat2Z.id. split; [exact Hid|].
        intros j Hj. replace j with (Z.of_nat (Z.to_nat j)) by lia.
        rewrite Nat2Z.id. apply Hfirst. lia.
    - split; [reflexivity|]. split; [reflexivity|]. left.
      split; [exact F | reflexivity]. }
  unfold stm_id_chip.
  destruct (stl_get_core_id_frame be sl Hwf) as (core & F0 & _).
  destruct (stl_get_core_id be sl) as [r0 sl0]. cbn [fst snd] in F0.
  assert (RI : 0 <= DBGMCU_IDCODE < 2 ^ 32) by (unfold DBGMCU_IDCODE; lia).
  destruct (sl_rd32_frame be sl0 DBGMCU_IDCODE (frame_wf _ _ _ F0) RI)
    as (got1 & F1 & V1).
  destruct (sl_rd32 be sl0 DBGMCU_IDCODE) as [id1 sl1]. cbn [fst snd] in F1, V1.
  subst id1.
  pose proof (frame_trans _ _ _ _ _ F0 F1) as F01. cbn [app] in F01.
  destruct (rd32_value be got1 =? 0) eqn:Z0.
  - apply Z.eqb_eq in Z0.
    destruct (sl_rd32_frame be sl1 0x40015800 (frame_wf _ _ _ F1) ltac:(lia))
      as (got2 & F2 & V2).
    destruct (sl_rd32 be sl1 0x40015800) as [id2 sl2]. cbn [fst snd] in F2, V2.
    subst id2.
    pose proof (frame_trans _ _ _ _ _ F01 F2) as F. cbn [app] in F.
    destruct (Tail sl2 (rd32_value be got2)) as (Hw & Hid & Hidx).
    cbv zeta in Hw, Hid, Hidx. cbn [fst snd].
    set (s' := match find_devid (rd32_value be got2) stm_devids 0 with
               | Some i => set_chip_index (set_cpu_idcode sl2 (rd32_value be got2)) i
               | None => set_cpu_idcode sl2 (rd32_value be got2)
               end) in *.
    split; [reflexivity|]. split.
    + exists core, got1, [Rd32 0x40015800 got2]. split.
      * unfold ops_since. rewrite Hw.
        exact (frame_ops_since _ _ _ F).
      * right. split; [exact Z0|]. exists got2. split; [reflexivity|exact Hid].
    + rewrite Hid.
      destruct F as (_ & _ & _ & Hc). rewrite <- Hc. exact Hidx.
  - apply Z.eqb_neq in Z0.
    destruct (Tail sl1 (rd32_value be got1)) as (Hw & Hid & Hidx).
    cbv zeta in Hw, Hid, Hidx. cbn [fst snd].
    set (s' := match find_devid (rd32_value be got1) stm_devids 0 with
               | Some i => set_chip_index (set_cpu_idcode sl1 (rd32_value be got1)) i
               | None => set_cpu_idcode sl1 (rd32_value be got1)
               end) in *.
    split; [reflexivity|]. split.
    + exists core, got1, []. split.
      * unfold ops_since. rewrite Hw.
        exact (frame_ops_since _ _ _ F01).
      * left. split; [exact Z0|]. split; [reflexivity|exact Hid].
    + rewrite Hid.
      destruct F01 as (_ & _ & _ & Hc). rewrite <- Hc. exact Hidx.
Qed.

(** X12.  [stl_set_breakpoint] does what [stl_set_fp] alone does: the
    address and the selector it stores into [data_buf] are overwritten
    before the command goes out, and never reach the probe.  The macro
    [stl_set_breakpoint1] stores them into the command instead, which then
    carries the register number, the address (least significant byte
    first) and the selector. *)
Theorem stl_set_breakpoint_drops_address (sl : stlink P) (fp_nr addr fp : Z) :
  wf_session sl -> (8 <= length (data_buf sl))%nat -> 0 <= addr < 2 ^ 32 ->
  stl_set_breakpoint be sl fp_nr addr fp = stl_set_fp be sl fp_nr /\
  exists e,
    wire (snd (stl_set_breakpoint1 be sl fp_nr addr fp)) = wire sl ++ [e] /\
    load_bytes 0 8 (x_cmd e)
    = [STLinkDebugCommand; STLinkDebugSetFP; u8 fp_nr]
      ++ le_split 4 addr ++ [u8 fp].
Proof.
  intros Hwf Hl Ha.
  destruct sl as [v ci id xd cl cb dl db h w].
  cbn [data_buf] in Hl.
  split.
  - unfold stl_set_breakpoint, stl_set_fp, stlink_cmd. session_fields.
    rewrite write_uint32_le.
    assert (E : memset (store_bytes 7 [u8 fp]
                          (store_bytes 3 (le_split 4 (u32 addr)) db))
                       0x55555555 (2 + 12)
                = memset db 0x55555555 (2 + 12)).
    { rewrite memset_store_bytes.
      - apply memset_store_bytes.
        + rewrite le_split_length. vm_compute. lia.
        + rewrite le_split_length. change (Z.to_nat 3) with 3%nat. lia.
      - cbn [length]. vm_compute. lia.
      - rewrite store_bytes_length
          by (rewrite le_split_length; change (Z.to_nat 3) with 3%nat; lia).
        cbn [length]. change (Z.to_nat 7) with 7%nat. lia. }
    rewrite E. reflexivity.
  - unfold wf_session in Hwf; cbn [cmd_buf] in Hwf. split_cmd_buf Hwf.
    pose proof (stlink_cmd_session be v ci id cl dl xd z z0 z1
                  [Z.land addr 255; Z.land (Z.shiftr addr 8) 255;
                   Z.land (Z.shiftr (Z.shiftr addr 8) 8) 255;
                   Z.land (Z.shiftr (Z.shiftr (Z.shiftr addr 8) 8) 8) 255;
                   u8 fp; z7; z8] db h w STLinkDebugSetFP fp_nr 2) as Es.
    cbv zeta in Es.
    assert (Eq : snd (stl_set_breakpoint1 be
                        (mk_stlink v ci id xd cl
                                   [z; z0; z1; z2; z3; z4; z5; z6; z7; z8]
                                   dl db h w) fp_nr addr fp)
                 = snd (stlink_cmd be
                          (mk_stlink v ci id xd cl
                             [z; z0; z1; Z.land addr 255;
                              Z.land (Z.shiftr addr 8) 255;
                              Z.land (Z.shiftr (Z.shiftr addr 8) 8) 255;
                              Z.land (Z.shiftr (Z.shiftr (Z.shiftr addr 8) 8) 8)
                                     255;
                              u8 fp; z7; z8] dl db h w)
                          STLinkDebugSetFP fp_nr 2)).
    { unfold stl_set_breakpoint1.
      rewrite write_uint32_le, (u32_small addr Ha). reflexivity. }
    rewrite Es in Eq. eexists. rewrite Eq. session_fields.
    split; reflexivity.
Qed.

(** The reopen loop of the mode recovery. *)
Lemma kick_reopen_outcome (open_result : nat -> Z) (n : nat) :
  forall h : host P,
    let r := kick_reopen be open_result n h in
    (fst r = 0 /\ 0 <= h_fd (snd r) /\
     (h_core_state (snd r) = STLINK_CORE_RUNNING \/
      h_core_state (snd r) = STLINK_CORE_HALTED) /\
     (h_opens h < h_opens (snd r) <= h_opens h + n)%nat /\
     h_fd (snd r) = open_result (pred (h_opens (snd r)))) \/
    (fst r = -1 /\ h_opens (snd r) = (h_opens h + n)%nat /\
     ((0 < n)%nat -> h_fd (snd r) < 0) /\
     forall k, (h_opens h <= k < h_opens h + n)%nat ->
               open_result k < 0 \/
               h_core_state (snd r) <> STLINK_CORE_RUNNING /\
               h_core_state (snd r) <> STLINK_CORE_HALTED \/
               (k < pred (h_opens h + n))%nat).
Proof.
  induction n as [|n IH]; intros h; cbn [kick_reopen].
  - right. cbn [fst snd]. split; [reflexivity|]. split; [lia|].
    split; [lia|]. intros k Hk. lia.
  - destruct (open_result (h_opens h) >=? 0) eqn:Cfd.
    + destruct (stl_get_status be (snd (stl_enter_SWD_mode be (h_sl h))))
        as [st sl1].
      destruct ((st =? STLINK_CORE_RUNNING) || (st =? STLINK_CORE_HALTED)) eqn:Cst.
      * left. cbn [fst snd h_fd h_core_state h_opens].
        split; [reflexivity|]. split; [apply Z.geb_le in Cfd; lia|].
        split; [apply orb_true_iff in Cst;
                destruct Cst as [C|C]; apply Z.eqb_eq in C; auto|].
        split; [lia|]. reflexivity.
      * specialize (IH (mk_host sl1 (-1) st (S (h_opens h)))).
        cbv zeta in IH. cbn [h_opens] in IH.
        set (r := kick_reopen be open_result n
                    (mk_host sl1 (-1) st (S (h_opens h)))) in *.
        destruct IH as [(R & Hfd & Hst & Ho & Hf) | (R & Ho & Hfd & Hall)].
        -- left. split; [exact R|]. split; [exact Hfd|]. split; [exact Hst|].
           split; [lia|exact Hf].
        -- right. split; [exact R|]. split; [lia|]. split.
           ++ intros _. destruct n as [|n'].
              ** subst r. cbn. lia.
              ** apply Hfd. lia.
           ++ intros k Hk.
              destruct (Nat.eq_dec k (h_opens h)) as [->|Hne].
              ** destruct n as [|n'].
                 { right. left. subst r. cbn [kick_reopen snd h_core_state].
                   apply orb_false_iff in Cst. destruct Cst as [C1 C2].
                   apply Z.eqb_neq in C1. apply Z.eqb_neq in C2. auto. }
                 { right. right. lia. }
              ** destruct (Hall k ltac:(lia)) as [H|[H|H]]; auto.
                 right. right. lia.
    + specialize (IH (mk_host (h_sl h) (open_result (h_opens h))
                              (h_core_state h) (S (h_opens h)))).
      cbv zeta in IH. cbn [h_opens] in IH.
      set (r := kick_reopen be open_result n
                  (mk_host (h_sl h) (open_result (h_opens h))
                           (h_core_state h) (S (h_opens h)))) in *.
      assert (Neg : open_result (h_opens h) < 0).
      { destruct (Z.geb_spec (open_result (h_opens h)) 0); [discriminate|lia]. }
      destruct IH as [(R & Hfd & Hst & Ho & Hf) | (R & Ho & Hfd & Hall)].
      * left. split; [exact R|]. split; [exact Hfd|]. split; [exact Hst|].
        split; [lia|exact Hf].
      * right. split; [exact R|]. split; [lia|]. split.
        -- intros _. destruct n as [|n'].
           ++ subst r. cbn. exact Neg.
           ++ apply Hfd. lia.
        -- intros k Hk.
           destruct (Nat.eq_dec k (h_opens h)) as [->|Hne]; [left; exact Neg|].
           destruct (Hall k ltac:(lia)) as [H|[H|H]]; auto.
           right. right. lia.
Qed.

(** One command to the probe itself: its two bytes are all that is
    sent, and a response length of 0 means no data phase. *)
Lemma st_gcmd_wire (sl : stlink P) (c0 c1 n : Z) :
  wf_session sl ->
  wf_session (st_gcmd sl c0 c1 n) /\
  exists got,
    wire (st_gcmd sl c0 c1 n)
    = wire sl ++ [mk_xfer [u8 c0; u8 c1] STLinkParamFromDev got] /\
    (n = 0 -> got = []).
Proof.
  intros Hwf. open_session sl Hwf.
  unfold st_gcmd, stl_do_cmd. session_fields.
  destruct (n =? 0) eqn:C.
  - split; [reflexivity|]. exists []. split; [reflexivity|auto].
  - destruct (libusb_bulk_transfer _ USB_PIPE_IN [] n) as [h2 reply].
    split; [reflexivity|]. eexists. split; [reflexivity|].
    intros N. subst n. discriminate C.
Qed.

(** The enter-SWD command and the status command of one reopen round. *)
Lemma swd_round_wire (sl : stlink P) :
  wf_session sl ->
  let sl' := snd (stl_get_status be (snd (stl_enter_SWD_mode be sl))) in
  wf_session sl' /\
  exists a b,
    wire sl' = wire sl ++ [a; b] /\ swd_status_rounds [a; b] = true.
Proof.
  intros Hwf sl'.
  assert (E : wf_session (snd (stl_enter_SWD_mode be sl)) /\
              exists a, wire (snd (stl_enter_SWD_mode be sl)) = wire sl ++ [a] /\
                        byte_at (x_cmd a) 0 = STLinkDebugCommand /\
                        byte_at (x_cmd a) 1 = STLinkDebugEnterMode /\
                        byte_at (x_cmd a) 2 = STLinkDebugEnterSWD).
  { open_session sl Hwf. unfold stl_enter_SWD_mode.
    rewrite stlink_cmd_session. cbv zeta.
    split; [reflexivity|]. eexists. split; [reflexivity|].
    repeat split. }
  destruct E as (Hwf1 & a & Wa & A0 & A1 & A2).
  destruct (stl_get_status_frame be _ Hwf1) as (got & F & _).
  fold sl' in F. destruct F as ((evs & W & D) & Hwf2 & _).
  split; [exact Hwf2|].
  destruct evs as [|b [|? ?]]; try discriminate D.
  exists a, b. rewrite W, Wa, <- app_assoc. split; [reflexivity|].
  cbn [swd_status_rounds]. rewrite A0, A1, A2.
  injection D as D. rewrite D. reflexivity.
Qed.

Lemma swd_status_rounds_app (l1 l2 : list xfer) :
  swd_status_rounds l1 = true -> swd_status_rounds l2 = true ->
  swd_status_rounds (l1 ++ l2) = true.
Proof.
  revert l2.
  assert (H : forall n l1, (length l1 <= n)%nat -> forall l2,
             swd_status_rounds l1 = true -> swd_status_rounds l2 = true ->
             swd_status_rounds (l1 ++ l2) = true).
  { induction n as [|n IH]; intros l Hl l2 H1 H2.
    - destruct l; [exact H2 | cbn in Hl; lia].
    - destruct l as [|a [|b l]]; [exact H2 | discriminate H1 |].
      cbn [swd_status_rounds app] in *.
      apply andb_true_iff in H1. destruct H1 as [H1 H3].
      rewrite H1. cbn [andb]. apply IH; [cbn in Hl; lia | exact H3 | exact H2]. }
  intros l2. exact (H (length l1) l1 (le_n _) l2).
Qed.

(** The exchanges of the reopen loop: one round of two commands for every
    open that succeeded. *)
Lemma kick_reopen_wire (open_result : nat -> Z) (n : nat) :
  forall h : host P,
    wf_session (h_sl h) ->
    let r := kick_reopen be open_result n h in
    wf_session (h_sl (snd r)) /\
    (h_opens h <= h_opens (snd r))%nat /\
    exists rounds,
      wire (h_sl (snd r)) = wire (h_sl h) ++ rounds /\
      swd_status_rounds rounds = true /\
      length rounds
      = (2 * length (filter (fun k => open_result k >=? 0)
                            (seq (h_opens h)
                                 (h_opens (snd r) - h_opens h))))%nat.
Proof.
  induction n as [|n IH]; intros h Hwf; cbn [kick_reopen].
  - cbn [fst snd]. split; [exact Hwf|]. split; [lia|].
    exists []. rewrite app_nil_r, Nat.sub_diag. repeat split.
  - assert (Sq : forall o k, (S o <= k)%nat ->
                   seq o (k - o) = o :: seq (S o) (k - S o)).
    { intros o k Hk. replace (k - o)%nat with (S (k - S o)) by lia.
      reflexivity. }
    destruct (open_result (h_opens h) >=? 0) eqn:Cfd.
    + destruct (swd_round_wire (h_sl h) Hwf) as (Hwf1 & a & b & W & Rd).
      destruct (stl_get_status be (snd (stl_enter_SWD_mode be (h_sl h))))
        as [st sl1].
      cbn [snd] in Hwf1, W.
      destruct ((st =? STLINK_CORE_RUNNING) || (st =? STLINK_CORE_HALTED)).
      * cbn [fst snd h_sl h_opens].
        split; [exact Hwf1|]. split; [lia|].
        exists [a; b]. split; [exact W|]. split; [exact Rd|].
        replace (S (h_opens h) - h_opens h)%nat with 1%nat by lia.
        cbn [seq filter]. rewrite Cfd. reflexivity.
      * specialize (IH (mk_host sl1 (-1) st (S (h_opens h))) Hwf1).
        cbv zeta in IH. cbn [h_opens h_sl] in IH.
        set (r := kick_reopen be open_result n
                    (mk_host sl1 (-1) st (S (h_opens h)))) in *.
        destruct IH as (Hwf2 & Ho & rounds & W2 & Rd2 & L2).
        split; [exact Hwf2|]. split; [lia|].
        exists ([a; b] ++ rounds).
        split; [rewrite W2, W, <- app_assoc; reflexivity|].
        split; [apply swd_status_rounds_app; assumption|].
        rewrite (Sq _ _ Ho). cbn [filter]. rewrite Cfd.
        rewrite length_app. cbn [length]. lia.
    + specialize (IH (mk_host (h_sl h) (open_result (h_opens h))
                              (h_core_state h) (S (h_opens h))) Hwf).
      cbv zeta in IH. cbn [h_opens h_sl] in IH.
      set (r := kick_reopen be open_result n
                  (mk_host (h_sl h) (open_result (h_opens h))
                           (h_core_state h) (S (h_opens h)))) in *.
      destruct IH as (Hwf2 & Ho & rounds & W2 & Rd2 & L2).
      split; [exact Hwf2|]. split; [lia|].
      exists rounds. split; [exact W2|]. split; [exact Rd2|].
      rewrite (Sq _ _ Ho). cbn [filter]. rewrite Cfd. exact L2.
Qed.

(** X13.  [stl_kick_mode] first sends the mode query (the two command
    bytes 0xF5, 0).  When the probe reports the debug or the mass-storage
    mode it returns 0 after that one exchange and opens nothing.
    Otherwise its next exchange is the DFU exit command (the two command
    bytes 0xF3, 0x07, no data phase), and it then reopens the device, at
    most ten times; after every open that succeeds it sends an enter-SWD
    command and a status command, and nothing else is sent.  It returns 0
    at an open that succeeded and after which the core reads as running or
    halted, and the descriptor is then that of this open; after ten rounds
    without one it returns -1 with a negative descriptor. *)
Theorem stl_kick_mode_outcome (open_result : nat -> Z) (h : host P) :
  wf_session (h_sl h) ->
  let m := fst (stl_mode be (h_sl h)) in
  let r := stl_kick_mode be open_result h in
  exists query rest,
    wire (h_sl (snd r)) = wire (h_sl h) ++ query :: rest /\
    x_cmd query = [0xF5; 0] /\
    (m = STLinkDevMode_Debug \/ m = STLinkDevMode_Mass ->
     rest = [] /\
     fst r = 0 /\ h_sl (snd r) = snd (stl_mode be (h_sl h)) /\
     h_fd (snd r) = h_fd h /\ h_opens (snd r) = h_opens h) /\
    (m <> STLinkDevMode_Debug -> m <> STLinkDevMode_Mass ->
     (exists dfu rounds,
        rest = dfu :: rounds /\
        x_cmd dfu = [0xF3; 0x07] /\ x_data dfu = [] /\
        swd_status_rounds rounds = true /\
        length rounds
        = (2 * length (filter (fun k => open_result k >=? 0)
                              (seq (h_opens h)
                                   (h_opens (snd r) - h_opens h))))%nat) /\
     ((fst r = 0 /\ 0 <= h_fd (snd r) /\
       (h_core_state (snd r) = STLINK_CORE_RUNNING \/
        h_core_state (snd r) = STLINK_CORE_HALTED) /\
       (h_opens h < h_opens (snd r) <= h_opens h + 10)%nat /\
       h_fd (snd r) = open_result (pred (h_opens (snd r)))) \/
      (fst r = -1 /\ h_fd (snd r) < 0 /\
       h_opens (snd r) = (h_opens h + 10)%nat))).
Proof.
  intros Hwf m r. subst m r. unfold stl_kick_mode.
  destruct (st_gcmd_wire (h_sl h) STLinkGetCurrentMode 0 2 Hwf)
    as (Hwf1 & got & W1 & _).
  destruct (stl_mode be (h_sl h)) as [m sl1] eqn:E. cbn [fst snd].
  assert (E1 : sl1 = st_gcmd (h_sl h) STLinkGetCurrentMode 0 2).
  { unfold stl_mode in E. injection E as _ E. symmetry. exact E. }
  rewrite <- E1 in Hwf1, W1.
  exists (mk_xfer [u8 STLinkGetCurrentMode; u8 0] STLinkParamFromDev got).
  destruct ((m =? STLinkDevMode_Debug) || (m =? STLinkDevMode_Mass)) eqn:C.
  - exists []. cbn [fst snd h_sl h_fd h_opens].
    split; [exact W1|]. split; [reflexivity|]. split.
    + intros _. repeat split.
    + intros H1 H2. apply orb_true_iff in C.
      destruct C as [C|C]; apply Z.eqb_eq in C; contradiction.
  - destruct (st_gcmd_wire sl1 STLinkDFUCommand STLinkDFUModeExit 0 Hwf1)
      as (Hwf2 & got2 & W2 & G2).
    specialize (G2 eq_refl). subst got2.
    fold (stl_exit_dfu_mode sl1) in Hwf2, W2.
    set (h1 := mk_host (stl_exit_dfu_mode sl1) (h_fd h) (h_core_state h)
                       (h_opens h)).
    destruct (kick_reopen_wire open_result 10 h1 Hwf2)
      as (_ & _ & rounds & W3 & Rd & L).
    pose proof (kick_reopen_outcome open_result 10 h1) as K.
    cbv zeta in K. cbn [h1 h_opens h_sl] in K, W3, L.
    eexists. split.
    + rewrite W3, W2, W1, <- !app_assoc. cbn [app]. reflexivity.
    + split; [reflexivity|]. split.
      * intros [N|N]; apply orb_false_iff in C; destruct C as [C1 C2];
          [apply Z.eqb_neq in C1 | apply Z.eqb_neq in C2]; contradiction.
      * intros _ _. split.
        -- eexists _, rounds. split; [reflexivity|].
           split; [reflexivity|]. split; [reflexivity|].
           split; [exact Rd | exact L].
        -- destruct K as [K | (R & Ho & Hfd & _)]; [left; exact K|].
           right. split; [exact R|]. split; [apply Hfd; lia | exact Ho].
Qed.

Lemma blink_rounds_frame (n : nat) :
  forall sl : stlink P,
    wf_session sl ->
    frame sl (blink_rounds be n sl)
          (concat (repeat [Wr32 GPIOC_ODR LED_GREEN; Wr32 GPIOC_ODR LED_BLUE] n)).
Proof.
  assert (RO : 0 <= GPIOC_ODR < 2 ^ 32) by (unfold GPIOC_ODR, GPIOC; lia).
  induction n as [|n IH]; intros sl Hwf.
  - apply frame_refl. exact Hwf.
  - cbn [blink_rounds repeat concat].
    pose proof (sl_wr32_twice be sl GPIOC_ODR LED_GREEN GPIOC_ODR LED_BLUE
                  Hwf RO RO) as F.
    exact (frame_trans _ _ _ _ _ F (IH _ (frame_wf _ _ _ F))).
Qed.

(** X14.  The blink test reads the port configuration first.  Its writes
    are ten green-then-blue pairs to the output register; when the
    configuration read has any of the bits 0xCC set, the pairs are
    preceded by one write that makes both pins outputs and followed by one
    write that puts the configuration read back.  Nothing else is
    written. *)
Theorem stm_discovery_blink_writes (fuel : nat) (sl : stlink P) :
  wf_session sl -> (0 < fuel)%nat ->
  exists sl' got,
    stm_discovery_blink be fuel sl = Some sl' /\
    let cfg := rd32_value be got in
    let keep := Z.land cfg 0xCC =? 0 in
    firstn 1 (ops_since sl sl') = [Rd32 GPIOC_CRH got] /\
    filter is_write (ops_since sl sl')
    = (if keep then []
       else [Wr32 GPIOC_CRH (Z.lor (Z.land cfg (Z.lnot 0xff)) 0x11)])
      ++ concat (repeat [Wr32 GPIOC_ODR LED_GREEN; Wr32 GPIOC_ODR LED_BLUE] 10)
      ++ (if keep then [] else [Wr32 GPIOC_CRH cfg]).
Proof.
  intros Hwf Hf. unfold stm_discovery_blink.
  assert (RH : 0 <= GPIOC_CRH < 2 ^ 32) by (unfold GPIOC_CRH, GPIOC; lia).
  destruct (sl_rd32_frame be sl GPIOC_CRH Hwf RH) as (got & F0 & V0).
  destruct (sl_rd32 be sl GPIOC_CRH) as [cfg sl0]. cbn [fst snd] in F0, V0.
  subst cfg.
  unfold stl_read.
  change (negb (Z.land 0x40021018 3 =? 0)) with false. cbv iota.
  destruct (stl_read_blocks_commands be fuel sl0 0x40021018 (repeat 0 8) 8 0
              (frame_wf _ _ _ F0))
    as (buf' & sl1 & rops & R & F1 & A & _); [lia | reflexivity | lia | lia |].
  rewrite R.
  pose proof (aligned_reads_no_write rops A) as W1.
  pose proof (frame_trans _ _ _ _ _ F0 F1) as F01. cbn [app] in F01.
  destruct (Z.land (rd32_value be got) 0xCC =? 0) eqn:C; cbn [negb].
  - pose proof (blink_rounds_frame 10 sl1 (frame_wf _ _ _ F1)) as F2.
    pose proof (frame_trans _ _ _ _ _ F01 F2) as F.
    exists (blink_rounds be 10 sl1), got. split; [reflexivity|].
    cbv zeta. rewrite C, (frame_ops_since _ _ _ F).
    split; [reflexivity|].
    rewrite !filter_app. cbn [filter Rd32 is_write]. rewrite W1. reflexivity.
  - pose proof (sl_wr32_frame be sl1 GPIOC_CRH
                  (Z.lor (Z.land (rd32_value be got) (Z.lnot 0xff)) 0x11)
                  (frame_wf _ _ _ F1) RH) as F2.
    rewrite Wr32_u32 in F2.
    set (sl2 := sl_wr32 be sl1 GPIOC_CRH _) in *.
    pose proof (blink_rounds_frame 10 sl2 (frame_wf _ _ _ F2)) as F3.
    set (sl3 := blink_rounds be 10 sl2) in *.
    pose proof (sl_wr32_frame be sl3 GPIOC_CRH (rd32_value be got)
                  (frame_wf _ _ _ F3) RH) as F4.
    rewrite Wr32_u32 in F4.
    pose proof (frame_trans _ _ _ _ _ F01
                 (frame_trans _ _ _ _ _ F2
                   (frame_trans _ _ _ _ _ F3 F4))) as F.
    eexists _, got. split; [reflexivity|].
    cbv zeta. rewrite C, (frame_ops_since _ _ _ F).
    split; [reflexivity|].
    rewrite !filter_app. cbn [filter Rd32 is_write]. rewrite W1. reflexivity.
Qed.

End MoreTarget.

Lemma stm_id_chip_lookup_witness :
  let sl := sim_session 0 3 probe_m3_blank in
  fst (stm_id_chip false sl) = 0 /\
  chip_index (snd (stm_id_chip false sl)) = 1.
Proof.
  intros sl.
  destruct (stm_id_chip_lookup false sl eq_refl) as (R & _ & _).
  split; [exact R | reflexivity].
Defined.

Lemma stl_set_breakpoint_drops_address_witness :
  let sl := sim_session 0 0 probe_halting in
  stl_set_breakpoint false sl 1 0x08000100 2 = stl_set_fp false sl 1.
Proof.
  intros sl.
  apply (stl_set_breakpoint_drops_address false sl 1 0x08000100 2);
    [reflexivity | vm_compute; lia | lia].
Defined.

Lemma stm_discovery_blink_writes_witness :
  let sl := sim_session 0 2 probe_halting in
  exists sl',
    stm_discovery_blink false 1 sl = Some sl' /\
    filter is_write (ops_since sl sl')
    = concat (repeat [Wr32 GPIOC_ODR LED_GREEN; Wr32 GPIOC_ODR LED_BLUE] 10).
Proof.
  intros sl.
  destruct (stm_discovery_blink_writes false 1 sl eq_refl (le_n 1))
    as (sl' & got & R & _ & W).
  exists sl'. split; [exact R|].
  assert (E : Some sl' = stm_discovery_blink false 1 sl) by (symmetry; exact R).
  vm_compute in E. injection E as E. subst sl'. vm_compute. reflexivity.
Defined.

Lemma stl_kick_mode_outcome_witness :
  let h := mk_host (sim_session 0 0 probe_halting) 3 0 0 in
  let open_result := fun k : nat => if (k <? 2)%nat then -1 else 5 in
  let r := stl_kick_mode false open_result h in
  exists query dfu rounds,
    wire (h_sl (snd r)) = [query; dfu] ++ rounds /\
    x_cmd query = [0xF5; 0] /\
    x_cmd dfu = [0xF3; 0x07] /\ x_data dfu = [] /\
    swd_status_rounds rounds = true /\ length rounds = 2%nat.
Proof.
  intros h open_result r.
  destruct (stl_kick_mode_outcome false open_result h eq_refl)
    as (query & rest & W & Q & _ & H).
  destruct H as ((dfu & rounds & Er & Xc & Xd & Rd & L) & _);
    [vm_compute; discriminate | vm_compute; discriminate |].
  exists query, dfu, rounds.
  split; [fold r in W; rewrite W, Er; reflexivity|].
  split; [exact Q|]. split; [exact Xc|]. split; [exact Xd|].
  split; [exact Rd|].
  rewrite L. vm_compute. reflexivity.
Defined.

(** ** Verification against a file *)

Lemma memcmp_eq_iff (a b : list Z) : memcmp_eq a b = true <-> a = b.
Proof.
  revert b. induction a as [|x a IH]; intros [|y b]; cbn [memcmp_eq];
    try (split; [discriminate | discriminate]); [tauto|].
  rewrite andb_true_iff, Z.eqb_eq, IH. split.
  - intros [-> ->]. reflexivity.
  - intros E. injection E as -> ->. split; reflexivity.
Qed.

Lemma app_inj_length (A : Type) (a a' b b' : list A) :
  length a = length a' -> a ++ b = a' ++ b' -> a = a' /\ b = b'.
Proof.
  revert a'. induction a as [|x a IH]; intros [|y a'] L E;
    try discriminate L.
  - split; [reflexivity | exact E].
  - cbn [app] in E. injection E as -> E. injection L as L.
    destruct (IH a' L E) as [-> ->]. split; reflexivity.
Qed.

Section MoreFiles.

Context {P : Type} {T : Transport P}.
Variable be : bool.

(** One aligned read from a probe that serves the memory [mem]. *)
Lemma stl_read_aligned_served (mem : Z -> Z) (fuel : nat) (sl : stlink P)
      (addr : Z) (buf : list Z) (size : Z) :
  serves_memory mem -> wf_session sl ->
  0 <= addr < 2 ^ 32 -> addr mod 4 = 0 -> addr + size <= 2 ^ 32 ->
  0 <= size <= Z.of_nat (length buf) -> size mod 4 = 0 ->
  size <= 1024 * Z.of_nat fuel -> 0 < size ->
  exists sl',
    stl_read be fuel sl addr buf size
    = Some (0, map mem (seqZ addr (Z.to_nat size)) ++ skipn (Z.to_nat size) buf,
            sl') /\
    wf_session sl'.
Proof.
  intros Hm Hwf Ha Hal Hhi Hs Hs4 Hsz Hpos.
  destruct (stl_read_blocks_commands be fuel sl addr buf size 0 Hwf)
    as (buf1 & sl1 & ops & R1 & F1 & _); [lia | rewrite Z.add_0_r; exact Hal
                                          | lia | lia |].
  unfold stl_read. rewrite land3_mod4, Hal. cbn [Z.eqb negb].
  destruct (stl_read_blocks_correct be mem fuel sl addr []
              (firstn (Z.to_nat size) buf) (skipn (Z.to_nat size) buf) size 0
              Hm Hwf) as (sl' & R); try lia; try reflexivity.
  { rewrite length_firstn. lia. }
  cbn [app] in R. rewrite firstn_skipn, Z.add_0_r in R.
  exists sl'. split; [exact R|].
  rewrite R in R1. injection R1 as _ ->. exact (frame_wf _ _ _ F1).
Qed.

Lemma fverify_chunks_correct (mem : Z -> Z) (fuel : nat) (flashlen : nat)
      (last : Z) (chunks : list (list Z)) :
  forall (sl : stlink P) (addr : Z) (flashbuf : list Z),
    serves_memory mem -> wf_session sl ->
    0 <= addr < 2 ^ 32 -> addr mod 4 = 0 ->
    addr + Z.of_nat (length (concat chunks)) <= 2 ^ 32 ->
    length flashbuf = flashlen ->
    Forall (fun c => (0 < length c <= flashlen)%nat /\
                     Z.of_nat (length c) mod 4 = 0 /\
                     Z.of_nat (length c) <= 1024 * Z.of_nat fuel) chunks ->
    exists ret sl',
      fverify_chunks be fuel sl addr chunks last flashbuf = Some (ret, sl') /\
      (ret = 0 \/ ret = -1) /\
      (ret = 0 <->
       0 <= last /\
       concat chunks = map mem (seqZ addr (length (concat chunks)))).
Proof.
  induction chunks as [|c rest IH];
    intros sl addr flashbuf Hm Hwf Ha Hal Hhi Hfl Hc.
  - cbn [fverify_chunks concat length seqZ seq map].
    destruct (last <? 0) eqn:L.
    + apply Z.ltb_lt in L. exists (-1), sl. split; [reflexivity|].
      split; [right; reflexivity|]. split; [discriminate|]. intros [N _]. lia.
    + apply Z.ltb_ge in L. exists 0, sl. split; [reflexivity|].
      split; [left; reflexivity|]. split; [intros _; split; [exact L|reflexivity]|].
      reflexivity.
  - inversion Hc as [|? ? (Hc1 & Hc4 & Hcf) Hrest]; subst.
    cbn [fverify_chunks concat].
    cbn [concat] in Hhi. rewrite length_app in Hhi.
    set (n := Z.of_nat (length c)) in *.
    assert (Hpos : (n >? 0) = true) by (apply Z.gtb_lt; lia).
    rewrite Hpos.
    destruct (stl_read_aligned_served mem fuel sl addr flashbuf n Hm Hwf Ha Hal)
      as (sl1 & R & Hwf1); try lia.
    rewrite R. cbn [Z.eqb negb andb].
    set (blk := map mem (seqZ addr (Z.to_nat n))).
    assert (Lb : length blk = length c)
      by (subst blk n; rewrite length_map, seqZ_length; lia).
    assert (Eload : load_bytes 0 n (blk ++ skipn (Z.to_nat n) flashbuf) = blk).
    { unfold load_bytes. cbn [Z.to_nat skipn].
      rewrite firstn_app, firstn_all2 by lia.
      replace (Z.to_nat n - length blk)%nat with 0%nat by lia.
      cbn [firstn]. apply app_nil_r. }
    rewrite Eload.
    assert (Split : c ++ concat rest
                    = map mem (seqZ addr (length (c ++ concat rest)))
                    <-> c = blk /\
                        concat rest
                        = map mem (seqZ (addr + n) (length (concat rest)))).
    { rewrite length_app, seqZ_app, map_app. fold n.
      assert (Eb : map mem (seqZ addr (length c)) = blk)
        by (subst blk n; rewrite Nat2Z.id; reflexivity).
      rewrite Eb. split.
      - intros E. apply app_inj_length in E; [exact E | lia].
      - intros [E1 E2]. f_equal; assumption. }
    destruct (memcmp_eq c blk) eqn:M; cbn [negb].
    + apply memcmp_eq_iff in M.
      destruct rest as [|c2 rest'].
      * cbn [fverify_chunks].
        destruct (last <? 0) eqn:L.
        -- apply Z.ltb_lt in L. exists (-1), sl1. split; [reflexivity|].
           split; [right; reflexivity|]. split; [discriminate|].
           intros [N _]. lia.
        -- apply Z.ltb_ge in L. exists 0, sl1. split; [reflexivity|].
           split; [left; reflexivity|]. rewrite Split. cbn. tauto.
      * assert (Hlt : addr + n < 2 ^ 32).
        { pose proof (Forall_inv Hrest) as (H2 & _).
          cbn [concat] in Hhi. rewrite length_app in Hhi. lia. }
        rewrite (u32_small (addr + n)) by lia.
        destruct (IH sl1 (addr + n) (blk ++ skipn (Z.to_nat n) flashbuf) Hm Hwf1)
          as (ret & sl' & R' & D & I); try lia.
        { Z.to_euclidean_division_equations. lia. }
        { rewrite length_app, length_skipn. lia. }
        { exact Hrest. }
        exists ret, sl'. split; [exact R'|]. split; [exact D|].
        rewrite Split, I. tauto.
    + exists (-1), sl1. split; [reflexivity|]. split; [right; reflexivity|].
      rewrite Split. split; [discriminate|].
      intros [_ [E _]]. apply memcmp_eq_iff in E. congruence.
Qed.

(** X15.  When the probe serves a target memory and the file arrives in
    pieces whose sizes are multiples of 4, the verification against an
    aligned address returns 0 exactly when reading the file ended without
    an error and the bytes of the file equal the bytes of that memory
    from the address on; otherwise it returns -1.  When the file cannot
    be opened it returns -1 and exchanges nothing with the probe. *)
Theorem stlink_fverify_correct
        (mem : Z -> Z) (fuel : nat) (sl : stlink P) (addr : Z)
        (chunks : list (list Z)) (last : Z) (flashbuf : list Z) :
  serves_memory mem -> wf_session sl ->
  0 <= addr < 2 ^ 32 -> addr mod 4 = 0 ->
  addr + Z.of_nat (length (concat chunks)) <= 2 ^ 32 ->
  Forall (fun c => (0 < length c <= length flashbuf)%nat /\
                   Z.of_nat (length c) mod 4 = 0 /\
                   Z.of_nat (length c) <= 1024 * Z.of_nat fuel) chunks ->
  stlink_fverify be fuel sl None addr flashbuf = Some (-1, sl) /\
  exists ret sl',
    stlink_fverify be fuel sl (Some (chunks, last)) addr flashbuf
    = Some (ret, sl') /\
    (ret = 0 \/ ret = -1) /\
    (ret = 0 <->
     0 <= last /\
     concat chunks = map mem (seqZ addr (length (concat chunks)))).
Proof.
  intros Hm Hwf Ha Hal Hhi Hc. split; [reflexivity|].
  unfold stlink_fverify.
  exact (fverify_chunks_correct mem fuel (length flashbuf) last chunks sl addr
           flashbuf Hm Hwf Ha Hal Hhi eq_refl Hc).
Qed.

End MoreFiles.

Lemma stlink_fverify_correct_witness :
  let file := [map pattern_mem (seqZ 0x20000000 8);
               map pattern_mem (seqZ 0x20000008 4)] in
  exists sl',
    stlink_fverify false 1 pattern_session (Some (file, 0)) 0x20000000
                   (repeat 0 16)
    = Some (0, sl').
Proof.
  intros file.
  destruct (stlink_fverify_correct false pattern_mem 1 pattern_session
              0x20000000 file 0 (repeat 0 16) pattern_serves)
    as (_ & ret & sl' & R & _ & I);
    [reflexivity | lia | reflexivity | vm_compute; discriminate
    | repeat constructor; vm_compute; try reflexivity; try discriminate |].
  assert (E : ret = 0) by (apply I; split; [lia | reflexivity]).
  subst ret. exists sl'. exact R.
Defined.

(** ** Peripheral display *)

Lemma dev_tables_ok : forallb dev_entry_ok (dev_per ++ dev_per_L1) = true.
Proof. vm_compute. reflexivity. Qed.

Lemma dev_find_some (tbl : list dev_peripheral) (cmd_name : string)
      (dp : dev_peripheral) :
  dev_find tbl cmd_name = Some dp ->
  In dp tbl /\ strcasecmp_eq (dp_name dp) cmd_name = true.
Proof.
  induction tbl as [|d tbl IH]; cbn [dev_find]; [discriminate|].
  destruct (strcasecmp_eq (dp_name d) cmd_name) eqn:E.
  - intros H. injection H as <-. split; [left; reflexivity | exact E].
  - intros H. destruct (IH H) as [I S]. split; [right; exact I | exact S].
Qed.

Lemma dev_entry_ok_spec (dp : dev_peripheral) :
  In dp (dev_per ++ dev_per_L1) ->
  0 <= dp_addr dp /\ dp_addr dp + 0x180 < 2 ^ 32 /\ dp_addr dp mod 4 = 0 /\
  0 < extent dp <= 1024 /\ extent dp mod 4 = 0.
Proof.
  intros H. pose proof dev_tables_ok as A.
  rewrite forallb_forall in A. specialize (A dp H).
  unfold dev_entry_ok, READ_BLK_SIZE in A.
  repeat (apply andb_true_iff in A; destruct A as [A ?]).
  repeat match goal with
         | H : (_ <=? _) = true |- _ => apply Z.leb_le in H
         | H : (_ <? _) = true |- _ => apply Z.ltb_lt in H
         | H : (_ =? _) = true |- _ => apply Z.eqb_eq in H
         end.
  lia.
Qed.

Section MoreDisplay.

Context {P : Type} {T : Transport P}.
Variable be : bool.

Lemma dev_show_entry_frame (sl : stlink P) (dp : dev_peripheral) :
  wf_session sl -> In dp (dev_per ++ dev_per_L1) ->
  fst (dev_show_entry be sl dp) = 0 /\
  exists got rest,
    frame sl (snd (dev_show_entry be sl dp))
          (OpReadMem32 (dp_addr dp) (extent dp) got :: rest) /\
    forallb aligned_read (OpReadMem32 (dp_addr dp) (extent dp) got :: rest)
    = true /\
    (show_func1 dp <> stm_show_CAN -> rest = []) /\
    (show_func1 dp = stm_show_CAN ->
     exists g1 g2 g3,
       rest = [OpReadMem32 (dp_addr dp + 0x180) 80 g1;
               OpReadMem32 0x40006600 32 g2;
               OpReadMem32 0x40006640 32 g3]).
Proof.
  intros Hwf Hin.
  destruct (dev_entry_ok_spec dp Hin) as (A0 & A1 & A4 & E0 & E4).
  split; [reflexivity|].
  unfold dev_show_entry. cbn [snd].
  assert (Ez : (extent dp =? 0) = false) by (apply Z.eqb_neq; lia).
  rewrite Ez. cbn [negb].
  destruct (stl_rd32_cmd_frame be sl (dp_addr dp) (u16 (extent dp)) Hwf
              ltac:(lia)) as (got & F & _).
  rewrite (read_wire_length (extent dp)) in F by lia.
  set (sl1 := snd (stl_rd32_cmd be sl (dp_addr dp) (u16 (extent dp)))) in *.
  assert (Al : aligned_read (OpReadMem32 (dp_addr dp) (extent dp) got) = true).
  { cbn [aligned_read]. rewrite A4, E4. unfold READ_BLK_SIZE.
    assert (E : (extent dp <=? 1024) = true) by (apply Z.leb_le; lia).
    rewrite E. reflexivity. }
  unfold run_show_func.
  destruct (show_func1 dp) eqn:S;
    try (exists got, []; split; [exact F|]; split;
         [cbn [forallb]; rewrite Al; reflexivity|];
         split; [reflexivity | discriminate]).
  rewrite (u32_small (dp_addr dp + 0x180)) by lia.
  destruct (stl_rd32_cmd_frame be sl1 (dp_addr dp + 0x180) 80
              (frame_wf _ _ _ F) ltac:(lia)) as (g1 & F1 & _).
  change (u16 (clear_low2 (80 + 3))) with 80 in F1.
  set (sl2 := snd (stl_rd32_cmd be sl1 (dp_addr dp + 0x180) 80)) in *.
  destruct (stl_rd32_cmd_frame be sl2 0x40006600 32
              (frame_wf _ _ _ F1) ltac:(lia)) as (g2 & F2 & _).
  change (u16 (clear_low2 (32 + 3))) with 32 in F2.
  set (sl3 := snd (stl_rd32_cmd be sl2 0x40006600 32)) in *.
  destruct (stl_rd32_cmd_frame be sl3 0x40006640 32
              (frame_wf _ _ _ F2) ltac:(lia)) as (g3 & F3 & _).
  change (u16 (clear_low2 (32 + 3))) with 32 in F3.
  exists got, [OpReadMem32 (dp_addr dp + 0x180) 80 g1;
               OpReadMem32 0x40006600 32 g2; OpReadMem32 0x40006640 32 g3].
  split.
  - exact (frame_trans _ _ _ _ _ F
             (frame_trans _ _ _ _ _ F1 (frame_trans _ _ _ _ _ F2 F3))).
  - split.
    + cbn [forallb]. rewrite Al. cbn [aligned_read].
      assert (E : (dp_addr dp + 384) mod 4 = 0)
        by (Z.to_euclidean_division_equations; lia).
      rewrite E. reflexivity.
    + split; [intros N; contradiction|].
      intros _. exists g1, g2, g3. reflexivity.
Qed.

(** X16.  [stm32_dev_show] matches the command name without regard to
    case, in the L1 table first when the chip has the L1 address map and
    then in the general table.  Without a match it returns -1 and sends
    nothing.  With one it returns 0 and sends only read commands for
    whole words at aligned addresses: first the extent of the entry at
    the address of the entry and, for a CAN unit alone, then 80 bytes at
    that address plus 0x180 and 32 bytes each at the two fixed filter
    addresses. *)
Theorem stm32_dev_show_reads (sl : stlink P) (cmd_name : string) :
  wf_session sl ->
  let r := stm32_dev_show be sl cmd_name in
  let l1 :=
    negb (Z.land (cap_flags (devid (chip_index sl))) ChipCapL1Addrs =? 0) in
  let hit := match (if l1 then dev_find dev_per_L1 cmd_name else None) with
             | Some dp => Some dp
             | None => dev_find dev_per cmd_name
             end in
  match hit with
  | None => r = (-1, sl)
  | Some dp =>
      fst r = 0 /\ strcasecmp_eq (dp_name dp) cmd_name = true /\
      exists got rest,
        ops_since sl (snd r)
        = OpReadMem32 (dp_addr dp) (extent dp) got :: rest /\
        forallb aligned_read (ops_since sl (snd r)) = true /\
        (show_func1 dp <> stm_show_CAN -> rest = []) /\
        (show_func1 dp = stm_show_CAN ->
         exists g1 g2 g3,
           rest = [OpReadMem32 (dp_addr dp + 0x180) 80 g1;
                   OpReadMem32 0x40006600 32 g2;
                   OpReadMem32 0x40006640 32 g3])
  end.
Proof.
  intros Hwf r l1 hit. subst r hit l1. unfold stm32_dev_show.
  set (l1 := if negb (Z.land (cap_flags (devid (chip_index sl))) ChipCapL1Addrs
                      =? 0)
             then dev_find dev_per_L1 cmd_name else None).
  assert (Entry : forall dp,
             In dp (dev_per ++ dev_per_L1) ->
             strcasecmp_eq (dp_name dp) cmd_name = true ->
             fst (dev_show_entry be sl dp) = 0 /\
             strcasecmp_eq (dp_name dp) cmd_name = true /\
             exists got rest,
               ops_since sl (snd (dev_show_entry be sl dp))
               = OpReadMem32 (dp_addr dp) (extent dp) got :: rest /\
               forallb aligned_read (ops_since sl (snd (dev_show_entry be sl dp)))
               = true /\
               (show_func1 dp <> stm_show_CAN -> rest = []) /\
               (show_func1 dp = stm_show_CAN ->
                exists g1 g2 g3,
                  rest = [OpReadMem32 (dp_addr dp + 0x180) 80 g1;
                          OpReadMem32 0x40006600 32 g2;
                          OpReadMem32 0x40006640 32 g3])).
  { intros dp Hin Hs.
    destruct (dev_show_entry_frame sl dp Hwf Hin)
      as (R & got & rest & F & A & N & C).
    split; [exact R|]. split; [exact Hs|].
    exists got, rest. rewrite (frame_ops_since _ _ _ F).
    split; [reflexivity|]. split; [exact A|]. split; assumption. }
  destruct l1 as [dp|] eqn:L.
  - subst l1.
    destruct (negb (Z.land (cap_flags (devid (chip_index sl))) ChipCapL1Addrs
                    =? 0)); [|discriminate L].
    destruct (dev_find_some _ _ _ L) as [Hin Hs].
    apply Entry; [apply in_or_app; right; exact Hin | exact Hs].
  - destruct (dev_find dev_per cmd_name) as [dp|] eqn:G; [|reflexivity].
    destruct (dev_find_some _ _ _ G) as [Hin Hs].
    apply Entry; [apply in_or_app; left; exact Hin | exact Hs].
Qed.

End MoreDisplay.

Lemma stm32_dev_show_reads_witness :
  let sl := sim_session 0 11 probe_halting in
  fst (stm32_dev_show false sl "dma1") = 0 /\
  exists got rest,
    ops_since sl (snd (stm32_dev_show false sl "dma1"))
    = OpReadMem32 0x40026000 148 got :: rest.
Proof.
  intros sl.
  pose proof (stm32_dev_show_reads false sl "dma1" eq_refl) as H.
  cbv zeta in H.
  change (match
             (if negb (Z.land (cap_flags (devid (chip_index sl))) ChipCapL1Addrs
                       =? 0)
              then dev_find dev_per_L1 "dma1" else None)
           with
           | Some dp => Some dp
           | None => dev_find dev_per "dma1"
           end)
    with (Some (mk_dev "DMA1" 0x40026000 1 stm_show_DMA (8 + 20 * 7))) in H.
  destruct H as (R & _ & got & rest & O & _).
  split; [exact R|]. exists got, rest. exact O.
Defined.

(** ** Target information *)

Lemma word_reads_combine (addrs : list Z) :
  forall gots : list (list Z),
    length gots = length addrs ->
    forallb is_word_read
            (map (fun ag : Z * list Z => Rd32 (fst ag) (snd ag))
                 (combine addrs gots)) = true /\
    length (map (fun ag : Z * list Z => Rd32 (fst ag) (snd ag))
                (combine addrs gots)) = length addrs.
Proof.
  induction addrs as [|a addrs IH]; intros [|g gots] L;
    try discriminate L; [split; reflexivity|].
  injection L as L. destruct (IH gots L) as [A B].
  cbn [combine map forallb length Rd32 is_word_read fst snd].
  rewrite A, B. split; reflexivity.
Qed.

Section MoreInfo.

Context {P : Type} {T : Transport P}.
Variable be : bool.

Lemma info_block_frame (sl : stlink P) (addrs : list Z) :
  wf_session sl -> Forall (fun a => 0 <= a < 2 ^ 32) addrs ->
  exists ops,
    frame sl (diag_reads be sl addrs) ops /\
    forallb is_word_read ops = true /\ length ops = length addrs.
Proof.
  intros Hwf Hr.
  destruct (diag_reads_frame be addrs sl Hwf Hr) as (gots & F & L).
  destruct (word_reads_combine addrs gots L) as [A B].
  eexists. split; [exact F|]. split; assumption.
Qed.

(** X17.  [stm_info] only reads single words, the CPU ID register
    first.  For the device IDs 0x416, 0x427 and 0x436 it reads one more
    word, at 0x1FF8004C, and takes the flash size from it: the low half
    word, or for 0x436 one of 256 and 384 by its lowest bit.  For every
    other ID it tries 0x1FFFF7E0, 0x1FFF7A20 and 0x1FFFF7CC in this order
    and stops at the first that does not read 0xFFFFFFFF, takes the size
    from that word and reads four more; when all three read 0xFFFFFFFF
    the flash size stays as it was. *)
Theorem stm_info_reads (sl : stlink P) (flash_mem_size : Z) :
  wf_session sl ->
  let r := stm_info be sl flash_mem_size in
  let id := Z.land (cpu_idcode sl) 0x0FFF in
  exists cpu rest,
    ops_since sl (snd r) = Rd32 0xe000ed00 cpu :: rest /\
    forallb is_word_read rest = true /\
    (id = 0x416 \/ id = 0x427 \/ id = 0x436 ->
     exists g,
       rest = [Rd32 0x1FF8004C g] /\
       fst r = if id =? 0x436
               then (if Z.land (rd32_value be g) 1 =? 0 then 384 else 256)
               else Z.land (rd32_value be g) 0xffff) /\
    (id <> 0x416 -> id <> 0x427 -> id <> 0x436 ->
     exists g1 more1,
       rest = Rd32 0x1FFFF7E0 g1 :: more1 /\
       (rd32_value be g1 <> 0xffffffff ->
        fst r = Z.land (rd32_value be g1) 0xffff /\ length more1 = 4%nat) /\
       (rd32_value be g1 = 0xffffffff ->
        exists g2 more2,
          more1 = Rd32 0x1FFF7A20 g2 :: more2 /\
          (rd32_value be g2 <> 0xffffffff ->
           fst r = Z.shiftr (rd32_value be g2) 16 /\ length more2 = 4%nat) /\
          (rd32_value be g2 = 0xffffffff ->
           exists g3 more3,
             more2 = Rd32 0x1FFFF7CC g3 :: more3 /\
             (rd32_value be g3 <> 0xffffffff ->
              fst r = Z.land (rd32_value be g3) 0xffff /\
              length more3 = 4%nat) /\
             (rd32_value be g3 = 0xffffffff ->
              fst r = flash_mem_size /\ more3 = [])))).
Proof.
  intros Hwf r id. subst r. unfold stm_info. fold id.
  destruct (sl_rd32_frame be sl 0xe000ed00 Hwf ltac:(lia)) as (cpu & F0 & _).
  destruct (sl_rd32 be sl 0xe000ed00) as [cpu_id sl0]. cbn [fst snd] in F0.
  pose proof (frame_wf _ _ _ F0) as W0.
  exists cpu.
  destruct ((id =? 0x416) || (id =? 0x427)) eqn:C1.
  - destruct (sl_rd32_frame be sl0 0x1FF8004C W0 ltac:(lia)) as (g & F1 & V1).
    destruct (sl_rd32 be sl0 0x1FF8004C) as [v sl1]. cbn [fst snd] in F1, V1.
    subst v. cbn [fst snd].
    exists [Rd32 0x1FF8004C g].
    rewrite (frame_ops_since _ _ _ (frame_trans _ _ _ _ _ F0 F1)).
    split; [reflexivity|]. split; [reflexivity|]. split.
    + intros _. exists g. split; [reflexivity|].
      apply orb_true_iff in C1.
      destruct C1 as [C|C]; apply Z.eqb_eq in C; rewrite C; reflexivity.
    + intros N1 N2 _. apply orb_true_iff in C1.
      destruct C1 as [C|C]; apply Z.eqb_eq in C; contradiction.
  - apply orb_false_iff in C1. destruct C1 as [C1 C2].
    apply Z.eqb_neq in C1. apply Z.eqb_neq in C2.
    destruct (id =? 0x436) eqn:C3.
    + apply Z.eqb_eq in C3.
      destruct (sl_rd32_frame be sl0 0x1FF8004C W0 ltac:(lia)) as (g & F1 & V1).
      destruct (sl_rd32 be sl0 0x1FF8004C) as [v sl1]. cbn [fst snd] in F1, V1.
      subst v. cbn [fst snd].
      exists [Rd32 0x1FF8004C g].
      rewrite (frame_ops_since _ _ _ (frame_trans _ _ _ _ _ F0 F1)).
      split; [reflexivity|]. split; [reflexivity|]. split.
      * intros _. exists g. split; [reflexivity|].
        destruct (Z.land (rd32_value be g) 1 =? 0); reflexivity.
      * intros _ _ N. contradiction.
    + apply Z.eqb_neq in C3.
      destruct (sl_rd32_frame be sl0 0x1FFFf7e0 W0 ltac:(lia)) as (g1 & F1 & V1).
      destruct (sl_rd32 be sl0 0x1FFFf7e0) as [v1 sl1]. cbn [fst snd] in F1, V1.
      subst v1. pose proof (frame_wf _ _ _ F1) as W1.
      pose proof (frame_trans _ _ _ _ _ F0 F1) as F01. cbn [app] in F01.
      destruct (0xffffffff =? rd32_value be g1) eqn:D1; cbn [negb].
      * apply Z.eqb_eq in D1.
        destruct (sl_rd32_frame be sl1 0x1FFF7A20 W1 ltac:(lia))
          as (g2 & F2 & V2).
        destruct (sl_rd32 be sl1 0x1FFF7A20) as [v2 sl2].
        cbn [fst snd] in F2, V2.
        subst v2. pose proof (frame_wf _ _ _ F2) as W2.
        pose proof (frame_trans _ _ _ _ _ F01 F2) as F012. cbn [app] in F012.
        destruct (0xffffffff =? rd32_value be g2) eqn:D2; cbn [negb].
        -- apply Z.eqb_eq in D2.
           destruct (sl_rd32_frame be sl2 0x1FFFF7CC W2 ltac:(lia))
             as (g3 & F3 & V3).
           destruct (sl_rd32 be sl2 0x1FFFF7CC) as [v3 sl3].
           cbn [fst snd] in F3, V3.
           subst v3. pose proof (frame_wf _ _ _ F3) as W3.
           pose proof (frame_trans _ _ _ _ _ F012 F3) as F0123.
           cbn [app] in F0123.
           destruct (0xffffffff =? rd32_value be g3) eqn:D3; cbn [negb fst snd].
           ++ apply Z.eqb_eq in D3.
              exists [Rd32 0x1FFFF7E0 g1; Rd32 0x1FFF7A20 g2; Rd32 0x1FFFF7CC g3].
              rewrite (frame_ops_since _ _ _ F0123).
              split; [reflexivity|]. split; [reflexivity|].
              split; [intros [N|[N|N]]; contradiction|].
              intros _ _ _. exists g1, [Rd32 0x1FFF7A20 g2; Rd32 0x1FFFF7CC g3].
              split; [reflexivity|]. split; [intros N; congruence|].
              intros _. exists g2, [Rd32 0x1FFFF7CC g3].
              split; [reflexivity|]. split; [intros N; congruence|].
              intros _. exists g3, [].
              split; [reflexivity|]. split; [intros N; congruence|].
              intros _. split; reflexivity.
           ++ apply Z.eqb_neq in D3.
              destruct (info_block_frame sl3
                          [0x1FFFF800; 0x1FFFF804; 0x1FFFF808; 0x1FFFF80c] W3)
                as (blk & F4 & A4 & L4); [repeat constructor; lia|].
              exists ([Rd32 0x1FFFF7E0 g1; Rd32 0x1FFF7A20 g2; Rd32 0x1FFFF7CC g3]
                      ++ blk).
              rewrite (frame_ops_since _ _ _ (frame_trans _ _ _ _ _ F0123 F4)).
              split; [reflexivity|].
              split; [cbn [app forallb Rd32 is_word_read]; exact A4|].
              split; [intros [N|[N|N]]; contradiction|].
              intros _ _ _.
              exists g1, ([Rd32 0x1FFF7A20 g2; Rd32 0x1FFFF7CC g3] ++ blk).
              split; [reflexivity|]. split; [intros N; congruence|].
              intros _. exists g2, (Rd32 0x1FFFF7CC g3 :: blk).
              split; [reflexivity|]. split; [intros N; congruence|].
              intros _. exists g3, blk.
              split; [reflexivity|].
              split; [intros _; split; [reflexivity | exact L4]|].
              intros N. congruence.
        -- apply Z.eqb_neq in D2. cbn [fst snd].
           destruct (info_block_frame sl2
                       [0x1FFFC000; 0x1FFFC004; 0x1FFFC008; 0x1FFFC00c] W2)
             as (blk & F4 & A4 & L4); [repeat constructor; lia|].
           exists ([Rd32 0x1FFFF7E0 g1; Rd32 0x1FFF7A20 g2] ++ blk).
           rewrite (frame_ops_since _ _ _ (frame_trans _ _ _ _ _ F012 F4)).
           split; [reflexivity|].
           split; [cbn [app forallb Rd32 is_word_read]; exact A4|].
           split; [intros [N|[N|N]]; contradiction|].
           intros _ _ _. exists g1, (Rd32 0x1FFF7A20 g2 :: blk).
           split; [reflexivity|]. split; [intros N; congruence|].
           intros _. exists g2, blk.
           split; [reflexivity|].
           split; [intros _; split; [reflexivity | exact L4]|].
           intros N. congruence.
      * apply Z.eqb_neq in D1. cbn [fst snd].
        destruct (info_block_frame sl1
                    [0x1FFFf800; 0x1FFFf804; 0x1FFFf808; 0x1FFFf80c] W1)
          as (blk & F4 & A4 & L4); [repeat constructor; lia|].
        exists (Rd32 0x1FFFF7E0 g1 :: blk).
        rewrite (frame_ops_since _ _ _ (frame_trans _ _ _ _ _ F01 F4)).
        split; [reflexivity|].
        split; [cbn [app forallb Rd32 is_word_read]; exact A4|].
        split; [intros [N|[N|N]]; contradiction|].
        intros _ _ _. exists g1, blk.
        split; [reflexivity|].
        split; [intros _; split; [reflexivity | exact L4]|].
        intros N. congruence.
Qed.

End MoreInfo.

Lemma stm_info_reads_witness :
  let sl := sim_session 0 0 probe_halting in
  exists cpu g1 more,
    ops_since sl (snd (stm_info false sl 0))
    = Rd32 0xe000ed00 cpu :: Rd32 0x1FFFF7E0 g1 :: more /\
    forallb is_word_read more = true.
Proof.
  intros sl.
  destruct (stm_info_reads false sl 0 eq_refl)
    as (cpu & rest & O & A & _ & H).
  destruct H as (g1 & more & E & _);
    [vm_compute; discriminate | vm_compute; discriminate
    | vm_compute; discriminate |].
  exists cpu, g1, more. rewrite O, E. split; [reflexivity|].
  rewrite E in A. exact A.
Defined.

(** ** The erase entry point and the loader upload *)

Section MoreDrivers.

Context {P : Type} {T : Transport P}.
Variable be : bool.

Lemma stl_f1_flash_erase_returns
      (fuel : nat) (sl : stlink P) (addr_page : Z) :
  wf_session sl -> (1000 <= fuel)%nat ->
  exists ret sl',
    stl_f1_flash_erase be fuel sl addr_page = Some (ret, sl') /\
    (ret = 0 \/ ret = 1).
Proof.
  intros Hwf Hf. unfold stl_f1_flash_erase.
  assert (RK : 0 <= FLASH_KEYR < 2 ^ 32) by (cbn; lia).
  assert (RS : 0 <= FLASH_SR < 2 ^ 32) by (cbn; lia).
  assert (RC : 0 <= FLASH_CR < 2 ^ 32) by (cbn; lia).
  assert (RA : 0 <= FLASH_AR < 2 ^ 32) by (cbn; lia).
  pose proof (sl_wr32_twice be sl FLASH_KEYR FLASH_KEY1 FLASH_KEYR FLASH_KEY2
                Hwf RK RK) as F2.
  set (sl2 := sl_wr32 be (sl_wr32 be sl FLASH_KEYR FLASH_KEY1)
                      FLASH_KEYR FLASH_KEY2) in *.
  pose proof (sl_wr32_frame be sl2 FLASH_SR
                (Z.lor (Z.lor FLASH_SR_EOP FLASH_SR_WRPRTERR) FLASH_SR_PGERR)
                (frame_wf _ _ _ F2) RS) as F3.
  set (sl3 := sl_wr32 be sl2 FLASH_SR _) in *.
  destruct (optional_diag_frame be (verbose sl3 >? 1) [FLASH_SR; FLASH_CR] sl3
              (frame_wf _ _ _ F3)) as (diag & F4 & _).
  { repeat constructor; cbn; lia. }
  set (sl4 := if verbose sl3 >? 1 then _ else sl3) in *.
  cbv zeta.
  set (sl5 := if addr_page =? 0xa11 then _ else _).
  assert (W : wf_session sl5).
  { subst sl5. destruct (addr_page =? 0xa11).
    - exact (frame_wf _ _ _
               (sl_wr32_twice be sl4 _ _ _ _ (frame_wf _ _ _ F4) RC RC)).
    - pose proof (sl_wr32_frame be sl4 FLASH_AR addr_page (frame_wf _ _ _ F4) RA)
        as F5.
      exact (frame_wf _ _ _
               (sl_wr32_twice be _ _ _ _ _ (frame_wf _ _ _ F5) RC RC)). }
  destruct (erase_poll_spec be fuel sl5 FLASH_SR FLASH_SR_BSY 0 W RS
              ltac:(lia) ltac:(lia)) as (busy & final & sl' & R & _).
  rewrite R.
  destruct (Z.land (sr_value be final) FLASH_SR_EOP =? 0).
  - eexists 1, _. split; [reflexivity | right; reflexivity].
  - eexists 0, _. split; [reflexivity | left; reflexivity].
Qed.

(** X19.  [stl_flash_erase_page] returns for every probe, with 0 or 1.
    It can return 1, its only report of a failure, only through the F1
    driver, which it uses when the chip has neither the F4 nor the L15
    capability: never for the table entries 11, 13 and 14. *)
Theorem stl_flash_erase_page_result
        (fuel : nat) (sl : stlink P) (addr_page : Z) :
  wf_session sl -> (1000 <= fuel)%nat ->
  exists ret sl',
    stl_flash_erase_page be fuel sl addr_page = Some (ret, sl') /\
    (ret = 0 \/ ret = 1) /\
    (ret = 1 ->
     stl_flash_erase_page be fuel sl addr_page
     = stl_f1_flash_erase be fuel sl addr_page /\
     chip_index sl <> 11 /\ chip_index sl <> 13 /\ chip_index sl <> 14).
Proof.
  intros Hwf Hf. unfold stl_flash_erase_page.
  destruct (negb (Z.land (cap_flags (devid (chip_index sl))) ChipCapF4Flash =? 0))
    eqn:C4.
  - destruct (stl_f4_flash_erase_returns_0 be fuel sl addr_page Hwf Hf)
      as (sl' & R).
    exists 0, sl'. split; [exact R|]. split; [left; reflexivity|]. discriminate.
  - destruct (negb (Z.land (cap_flags (devid (chip_index sl))) ChipCapL15Flash
                    =? 0)) eqn:CL.
    + destruct (stl_L1_flash_erase_returns_0 be fuel sl addr_page Hwf Hf)
        as (sl' & R).
      exists 0, sl'. split; [exact R|]. split; [left; reflexivity|]. discriminate.
    + destruct (stl_f1_flash_erase_returns fuel sl addr_page Hwf Hf)
        as (ret & sl' & R & D).
      exists ret, sl'. split; [exact R|]. split; [exact D|].
      intros _. split; [reflexivity|].
      split; [|split]; intros E; rewrite E in C4, CL;
        vm_compute in C4, CL; discriminate.
Qed.

(** X20.  [stl_loader] always returns 0, and when the chunk size is not
    a multiple of 4 and at least 4 it uploads nothing: the transfer of
    program, parameters and payload is refused for its length, and the
    loader still sets the program counter and starts the core. *)
Theorem stl_loader_skips_upload
        (sl : stlink P) (flash_addr size : Z) (buf : list Z) :
  wf_session sl -> 0 <= flash_addr < 2 ^ 32 -> 4 <= size <= 4096 ->
  size mod 4 <> 0 ->
  fst (stl_loader be sl flash_addr buf size) = 0 /\
  ops_since sl (snd (stl_loader be sl flash_addr buf size))
  = [OpWriteReg 15 (sram_base (devid 0)); OpRunCore].
Proof.
  intros Hwf Ha Hs Hm. split; [reflexivity|].
  destruct (stl_loader_spec be sl flash_addr size buf Hwf Ha ltac:(lia))
    as [F _].
  rewrite (frame_ops_since _ _ _ F).
  unfold upload_ops. rewrite land3_mod4.
  assert (E1 : ((60 + size) mod 4 =? 0) = false).
  { apply Z.eqb_neq. Z.to_euclidean_division_equations. lia. }
  assert (E2 : (60 + size <? 64) = false) by (apply Z.ltb_ge; lia).
  rewrite E1, E2. reflexivity.
Qed.

End MoreDrivers.

Lemma stl_flash_erase_page_result_witness :
  let sl := sim_session 0 4 probe_busy in
  exists ret sl',
    stl_flash_erase_page false 1000 sl 0x08000400 = Some (ret, sl') /\
    (ret = 0 \/ ret = 1).
Proof.
  intros sl.
  destruct (stl_flash_erase_page_result false 1000 sl 0x08000400 eq_refl
              (le_n 1000)) as (ret & sl' & R & D & _).
  exists ret, sl'. split; [exact R | exact D].
Defined.

Lemma stl_loader_skips_upload_witness :
  let sl := sim_session 0 0 probe_halting in
  ops_since sl (snd (stl_loader false sl 0x08000000 (repeat 0xA5 10) 10))
  = [OpWriteReg 15 0x20000000; OpRunCore].
Proof.
  intros sl.
  apply (stl_loader_skips_upload false sl 0x08000000 10 (repeat 0xA5 10));
    [reflexivity | lia | lia | vm_compute; discriminate].
Defined.

(** ** The loader image and the flash write, chunk by chunk *)

Section FlashWriteTrace.

Context {P : Type} {T : Transport P}.
Variable be : bool.

Lemma loader_image_length_min (chip : stm_chip_params) (flash_addr size : Z)
      (buf : list Z) :
  0 <= size ->
  Z.of_nat (length (loader_image be chip flash_addr buf size))
  = 60 + Z.min size (Z.of_nat (length buf)).
Proof.
  intros Hs. unfold loader_image, load_bytes.
  rewrite !length_app, loader_head_length, !obj_repr_length.
  rewrite length_firstn, skipn_O. lia.
Qed.

(** The bytes handed to the upload begin with the image. *)
Lemma loader_image_prefix (chip : stm_chip_params) (flash_addr size : Z)
      (buf rest : list Z) :
  0 <= size ->
  let image := loader_image be chip flash_addr buf size in
  firstn (length image) (load_bytes 0 (60 + size) (image ++ rest)) = image.
Proof.
  intros Hs image.
  pose proof (loader_image_length_min chip flash_addr size buf Hs) as L.
  fold image in L.
  unfold load_bytes. rewrite skipn_O, firstn_firstn.
  replace (Nat.min (length image) (Z.to_nat (60 + size)))
    with (length image) by lia.
  rewrite firstn_app, firstn_all, Nat.sub_diag, firstn_O. apply app_nil_r.
Qed.

(** The layout written out is [loader_image]. *)
Lemma loader_image_words (chip : stm_chip_params) (flash_addr size : Z)
      (buf : list Z) :
  0 <= size <= 4096 ->
  firstn (Z.to_nat (sizeof16 (loader_program chip) - 16))
         (array16 be (loader_program chip))
  ++ obj_repr be 4 (loader_ctrl_base chip flash_addr)
  ++ obj_repr be 4 (sram_base (devid 0) + sizeof16 (loader_program chip))
  ++ obj_repr be 4 flash_addr
  ++ obj_repr be 4 (Z.shiftr size 1)
  ++ firstn (Z.to_nat size) buf
  = loader_image be chip flash_addr buf size.
Proof.
  intros Hs.
  unfold loader_image, load_bytes. rewrite loader_program_size, skipn_O.
  assert (E2 : u32 (Z.shiftr size 1) = Z.shiftr size 1).
  { apply u32_small. rewrite Z.shiftr_div_pow2 by lia.
    change (2 ^ 1) with 2. Z.div_mod_to_equations. lia. }
  rewrite E2. reflexivity.
Qed.


(** Between two personalities the image differs only in the half-word at
    bytes 32..33 of the program and in the flash-controller base word. *)
Lemma loader_head_family (n : nat) :
  (n < 44)%nat -> n <> 32%nat -> n <> 33%nat ->
  nth n (firstn 44 (array16 be db_loader_code)) 0
  = nth n (firstn 44 (array16 be f4_loader_code)) 0.
Proof.
  intros H1 H2 H3.
  destruct be;
    do 44 (destruct n as [|n]; [try reflexivity; lia|]); lia.
Qed.

Lemma loader_image_family (c1 c2 : stm_chip_params) (fa : Z) (b : list Z)
      (s i : Z) :
  0 <= i -> ~ 32 <= i < 34 -> ~ 44 <= i < 48 ->
  byte_at (loader_image be c1 fa b s) i = byte_at (loader_image be c2 fa b s) i.
Proof.
  intros Hi H1 H2. unfold byte_at, loader_image.
  rewrite !loader_program_size.
  set (rest := obj_repr be 4 (u32 (sram_base (devid 0) + 60)) ++ _).
  pose proof (loader_head_length be c1) as L1.
  pose proof (loader_head_length be c2) as L2.
  rewrite !loader_program_size in L1, L2.
  destruct (Nat.lt_ge_cases (Z.to_nat i) 44) as [Lt|Ge].
  - rewrite !app_nth1 by lia.
    change (Z.to_nat (60 - 16)) with 44%nat.
    destruct (loader_program_cases c1) as [E1|E1],
             (loader_program_cases c2) as [E2|E2]; rewrite E1, E2;
      try reflexivity;
      [|symmetry]; apply loader_head_family; lia.
  - rewrite (app_nth2 (firstn _ (array16 be (loader_program c1)))) by lia.
    rewrite (app_nth2 (firstn _ (array16 be (loader_program c2)))) by lia.
    rewrite L1, L2.
    rewrite (app_nth2 (obj_repr be 4 (loader_ctrl_base c1 fa)))
      by (rewrite obj_repr_length; lia).
    rewrite (app_nth2 (obj_repr be 4 (loader_ctrl_base c2 fa)))
      by (rewrite obj_repr_length; lia).
    rewrite !obj_repr_length. reflexivity.
Qed.

Lemma loader_image_family_length (c1 c2 : stm_chip_params) (fa : Z)
      (b : list Z) (s : Z) :
  length (loader_image be c1 fa b s) = length (loader_image be c2 fa b s).
Proof.
  unfold loader_image.
  rewrite !length_app, !loader_head_length, !obj_repr_length. reflexivity.
Qed.

(** One chunk: the loader, then the halt poll. *)
Lemma chunk_frame (fuel0 : nat) (sl : stlink P) (flash_addr : Z)
      (buf : list Z) (c : Z * Z) :
  wf_session sl -> 0 <= snd c <= 4096 -> (201 <= fuel0)%nat ->
  exists halted sl2 ops,
    flash_write_poll be fuel0
      (snd (stl_loader be sl (u32 (flash_addr + fst c))
                       (skipn (Z.to_nat (fst c)) buf) (snd c))) 0
    = Some (halted, sl2) /\
    frame sl sl2 ops /\
    chunk_ops be (devid (chip_index sl)) (verbose sl) flash_addr buf c
              halted ops.
Proof.
  intros Hwf Hs Hf.
  destruct (stl_loader_spec be sl (u32 (flash_addr + fst c)) (snd c)
              (skipn (Z.to_nat (fst c)) buf) Hwf (u32_range _) Hs) as [F1 _].
  set (sl1 := snd (stl_loader be sl _ _ _)) in *.
  assert (Hv : verbose sl1 = verbose sl)
    by (destruct F1 as (_ & _ & Hv & _); exact Hv).
  destruct (flash_write_poll_trace be fuel0 sl1 0 (frame_wf _ _ _ F1))
    as (halted & sl2 & seen & last & tail & R & F2 & A & B & H1 & H2);
    [unfold FLASH_POLL_LIMIT; lia | unfold FLASH_POLL_LIMIT; lia |].
  unfold FLASH_POLL_LIMIT in *.
  exists halted, sl2. eexists.
  split; [exact R|]. split; [exact (frame_trans _ _ _ _ _ F1 F2)|].
  unfold chunk_ops. cbv zeta. rewrite loader_program_size.
  exists (load_bytes 0 (60 + snd c)
            (loader_image be (devid (chip_index sl)) (u32 (flash_addr + fst c))
                          (skipn (Z.to_nat (fst c)) buf) (snd c)
             ++ skipn (length (loader_image be (devid (chip_index sl))
                                            (u32 (flash_addr + fst c))
                                            (skipn (Z.to_nat (fst c)) buf)
                                            (snd c)))
                      (data_buf sl))).
  exists seen, last, tail.
  split; [rewrite <- app_assoc; reflexivity|].
  split; [apply loader_image_prefix; lia|].
  split; [exact A|].
  destruct halted.
  - destruct (H1 eq_refl) as [L1 L2].
    split; [exact L1|]. split; [lia | exact L2].
  - destruct (H2 eq_refl) as (L1 & L2 & L3 & L4). rewrite Hv in L3, L4.
    split; [exact L1|]. split; [lia|]. split; assumption.
Qed.

(** The run over a plan: it returns, and its exchanges are those of the
    chunks in order, up to the first chunk whose halt poll gives up. *)
Lemma run_chunks_trace (fuel0 : nat) (flash_addr : Z) (buf : list Z)
      (plan : list (Z * Z)) :
  (201 <= fuel0)%nat ->
  Forall (fun c => 0 <= snd c <= 4096) plan ->
  forall sl : stlink P,
    wf_session sl ->
    exists (sl' : stlink P) (mid : list op) (done : bool),
      run_chunks be fuel0 sl flash_addr buf plan
      = Some (if done then None else Some 0, sl') /\
      frame sl sl' mid /\
      write_run (chunk_ops be (devid (chip_index sl)) (verbose sl)
                           flash_addr buf) plan mid done.
Proof.
  intros Hf. induction plan as [|c plan IH]; intros Hp sl Hwf.
  - exists sl, [], true. split; [reflexivity|].
    split; [apply frame_refl; exact Hwf | constructor].
  - pose proof (Forall_inv Hp) as Hc. pose proof (Forall_inv_tail Hp) as Hp'.
    destruct (chunk_frame fuel0 sl flash_addr buf c Hwf Hc Hf)
      as (halted & sl2 & ops & R & F & C).
    destruct c as [offset this_size]. cbn [fst snd] in R.
    cbn [run_chunks]. rewrite R.
    destruct halted.
    + destruct (IH Hp' sl2 (frame_wf _ _ _ F)) as (sl' & mid & done & R' & F' & W).
      destruct F as (Fw & Fwf & Fv & Fc).
      rewrite Fv, Fc in W.
      exists sl', (ops ++ mid), done.
      split; [exact R'|].
      split; [exact (frame_trans _ _ _ _ _
                       (conj Fw (conj Fwf (conj Fv Fc))) F')|].
      constructor; assumption.
    + exists sl2, ops, false. split; [reflexivity|].
      split; [exact F|]. apply run_gave_up. exact C.
Qed.

(** All of it is the loader phase: transfers to the SRAM base, register
    writes, run and status commands, and reads of the two F1 registers. *)
Lemma chunk_ops_loader_phase (chip : stm_chip_params) (verb flash_addr : Z)
      (buf : list Z) (c : Z * Z) (halted : bool) (ops : list op) :
  chunk_ops be chip verb flash_addr buf c halted ops ->
  forallb loader_phase_op ops = true.
Proof.
  intros (data & seen & last & extra & E & _ & _ & Ex). subst ops.
  rewrite !forallb_app, upload_ops_loader_phase. cbn [forallb andb].
  assert (Es : forallb loader_phase_op (map OpGetStatus seen) = true)
    by (clear; induction seen; [reflexivity | exact IHseen]).
  rewrite Es. cbn [andb].
  destruct halted.
  - destruct Ex as (_ & _ & ->). reflexivity.
  - destruct Ex as (_ & _ & Ex0 & Ex1).
    destruct (Z.eq_dec verb 0) as [Z0|NZ]; [rewrite (Ex0 Z0); reflexivity|].
    destruct (Ex1 NZ) as (a & b & s & L & I1 & I2 & I3).
    destruct extra as [|x [|y [|z [|]]]]; try discriminate L.
    cbn [In] in I1, I2, I3.
    destruct I1 as [I1|[I1|[I1|[]]]];
      destruct I2 as [I2|[I2|[I2|[]]]];
      destruct I3 as [I3|[I3|[I3|[]]]];
      try (rewrite I1, I2, I3; reflexivity);
      exfalso; vm_compute in I1, I2, I3; congruence.
Qed.

Lemma write_run_loader_phase (chip : stm_chip_params) (verb flash_addr : Z)
      (buf : list Z) (plan : list (Z * Z)) (mid : list op) (done : bool) :
  write_run (chunk_ops be chip verb flash_addr buf) plan mid done ->
  forallb loader_phase_op mid = true.
Proof.
  induction 1 as [|c plan ops rest done C _ IH|c plan ops C].
  - reflexivity.
  - rewrite forallb_app, IH, andb_true_r.
    exact (chunk_ops_loader_phase _ _ _ _ _ _ _ C).
  - exact (chunk_ops_loader_phase _ _ _ _ _ _ _ C).
Qed.


End FlashWriteTrace.



